(** * Calibre-Web background tasks: scheduler sweep, status reporting,
      task variants and the scheduled-task settings handler.

    A shallow embedding of
      - calibre_web/schedule.py
      - cps/tasks_status.py
      - calibre_web/tasks/upload.py, tasks/metadata_backup.py,
        tasks/tempFolder.py, calibre_web/file_helper.py
      - calibre_web/admin.py (edit/update of the scheduled-task settings,
        the server commands)
    Python effects are threaded through a state-and-exception monad; the
    objects these files only import (the worker pool, the scheduler service,
    the settings object) are modelled separately and marked as such. *)

From Stdlib Require Import ZArith.
From Stdlib Require SpecFloat.
From stdpp Require Import base tactics option list strings gmap pretty.

Local Open Scope Z_scope.

(** ** Python runtime: exceptions, results, attribute values *)

Module Py.

(** The exception classes the embedded code raises, catches or lets through. *)
Inductive exc_class :=
  | BaseException | KeyboardInterrupt
  | Exception
  | ArithmeticError | OverflowError
  | AttributeError
  | NameError | UnboundLocalError
  | TypeError | ValueError | RuntimeError
  | OSError | FileNotFoundError | PermissionError | NotADirectoryError
  | SQLAlchemyError | IntegrityError | OperationalError.

#[global] Instance exc_class_eq_dec : EqDecision exc_class.
Proof. solve_decision. Defined.

(** The direct base class ([__bases__[0]]). *)
Definition base_of (c : exc_class) : option exc_class :=
  match c with
  | BaseException => None
  | KeyboardInterrupt => Some BaseException
  | Exception => Some BaseException
  | ArithmeticError => Some Exception
  | OverflowError => Some ArithmeticError
  | AttributeError => Some Exception
  | NameError => Some Exception
  | UnboundLocalError => Some NameError
  | TypeError => Some Exception
  | ValueError => Some Exception
  | RuntimeError => Some Exception
  | OSError => Some Exception
  | FileNotFoundError => Some OSError
  | PermissionError => Some OSError
  | NotADirectoryError => Some OSError
  | SQLAlchemyError => Some Exception
  | IntegrityError => Some SQLAlchemyError
  | OperationalError => Some SQLAlchemyError
  end.

Fixpoint issubclass_upto (depth : nat) (c d : exc_class) : bool :=
  if decide (c = d) then true
  else match depth with
       | O => false
       | S k => match base_of c with
                | Some b => issubclass_upto k b d
                | None => false
                end
       end.

(** No class above is more than three steps below [BaseException]. *)
Definition issubclass (c d : exc_class) : bool := issubclass_upto 4 c d.

(** A raised exception: its class and [str(ex)]. *)
Record exn := Exn { exn_class : exc_class; exn_text : string }.

#[global] Instance exn_eq_dec : EqDecision exn.
Proof. solve_decision. Defined.

Definition isinstance (e : exn) (c : exc_class) : bool :=
  issubclass (exn_class e) c.

(** What an [except (C1, C2, ...)] clause matches. *)
Definition matches (e : exn) (cs : list exc_class) : bool :=
  existsb (isinstance e) cs.

(** Outcome of running a statement or evaluating an expression. *)
Inductive result (A : Type) :=
  | Ok (a : A)
  | Raise (e : exn).
Arguments Ok {A} a.
Arguments Raise {A} e.

Definition is_ok {A} (r : result A) : bool :=
  match r with Ok _ => true | Raise _ => false end.

(** Values an attribute read can produce.  A function stored in a class
    is a non-data descriptor: reading it through an instance gives a bound
    method, not the function's result. *)
Inductive value :=
  | VNone
  | VBool (b : bool)
  | VInt (n : Z)
  | VStr (s : string)
  | VBoundMethod (cls attr : string).

#[global] Instance value_eq_dec : EqDecision value.
Proof. solve_decision. Defined.

(** [bool(v)]: the truth value used by [if], [and], [or], [not]. *)
Definition truthy (v : value) : bool :=
  match v with
  | VNone => false
  | VBool b => b
  | VInt n => negb (n =? 0)
  | VStr s => negb (String.eqb s "")
  | VBoundMethod _ _ => true
  end.

(** [v == w] for the values above ([True == 1] and [False == 0] included;
    a bound method is equal to no bool, int, str or None). *)
Definition py_eq (v w : value) : bool :=
  match v, w with
  | VNone, VNone => true
  | VBool a, VBool b => Bool.eqb a b
  | VBool a, VInt n | VInt n, VBool a => n =? (if a then 1 else 0)
  | VInt a, VInt b => a =? b
  | VStr a, VStr b => String.eqb a b
  | VBoundMethod c a, VBoundMethod c' a' => String.eqb c c' && String.eqb a a'
  | _, _ => false
  end.

End Py.
Export Py.

(** ** The state-and-exception monad

    A Python statement run in state [S] ends in a new state and either a
    value or a raised exception; the state changes made before a [raise]
    stay made. *)

Definition M (S A : Type) : Type := S -> S * result A.

Definition ret {S A} (a : A) : M S A := fun s => (s, Ok a).

Definition raise {S A} (c : exc_class) (text : string) : M S A :=
  fun s => (s, Raise (Exn c text)).

Definition reraise {S A} (e : exn) : M S A := fun s => (s, Raise e).

Definition bind {S A B} (m : M S A) (k : A -> M S B) : M S B :=
  fun s => match m s with
           | (s', Ok a) => k a s'
           | (s', Raise e) => (s', Raise e)
           end.

Definition get {S} : M S S := fun s => (s, Ok s).
Definition gets {S A} (f : S -> A) : M S A := fun s => (s, Ok (f s)).
Definition modify {S} (f : S -> S) : M S unit := fun s => (f s, Ok tt).

(** Lift the outcome of an external call. *)
Definition lift {S A} (r : result A) : M S A := fun s => (s, r).

Notation "'let*' x := m 'in' k" := (bind m (fun x => k))
  (at level 10, x name, m at level 100, k at level 200).
Notation "'do' m 'then' k" := (bind m (fun _ => k))
  (at level 10, m at level 100, k at level 200).

(** [try: body] followed by [except] clauses: the first clause whose
    classes match the exception runs; an exception no clause matches
    passes through, and so does one raised by a handler. *)
Fixpoint dispatch {S A} (e : exn)
    (clauses : list (list exc_class * (exn -> M S A))) : M S A :=
  match clauses with
  | [] => reraise e
  | (cs, handler) :: rest => if matches e cs then handler e else dispatch e rest
  end.

Definition try_excepts {S A} (body : M S A)
    (clauses : list (list exc_class * (exn -> M S A))) : M S A :=
  fun s => match body s with
           | (s', Ok a) => (s', Ok a)
           | (s', Raise e) => dispatch e clauses s'
           end.

(** The one-clause form [try: body  except (cs) as e: handler e]. *)
Definition try_except {S A} (body : M S A) (cs : list exc_class)
    (handler : exn -> M S A) : M S A :=
  try_excepts body [(cs, handler)].

(** [for x in xs: body x] over a list that the body does not change. *)
Fixpoint for_each {S A} (xs : list A) (body : A -> M S unit) : M S unit :=
  match xs with
  | [] => ret tt
  | x :: rest => do body x then for_each rest body
  end.

(** ** [datetime]: naive timestamps and durations

    A naive [datetime] is kept as its distance from 0001-01-01T00:00:00 in
    microseconds, a [timedelta] as a signed number of microseconds; the
    calendar fields the code reads ([hour], [minute], [days], [seconds]) are
    recovered by division.  The year range 1..9999 is the bound [max_micros]. *)

Module datetime.

Record datetime := DateTime { micros : Z }.
Record timedelta := TimeDelta { delta_micros : Z }.

#[global] Instance datetime_eq_dec : EqDecision datetime.
Proof. solve_decision. Defined.
#[global] Instance timedelta_eq_dec : EqDecision timedelta.
Proof. solve_decision. Defined.

Definition us_per_second : Z := 1000000.
Definition us_per_minute : Z := 60 * us_per_second.
Definition us_per_hour : Z := 60 * us_per_minute.
Definition us_per_day : Z := 24 * us_per_hour.

(** [date.max.toordinal()] is 3652059: that many whole days fit. *)
Definition max_micros : Z := 3652059 * us_per_day.
(** [timedelta.max.days]. *)
Definition max_delta_days : Z := 999999999.

Definition valid (d : datetime) : Prop := 0 <= micros d < max_micros.

Definition midnight (d : datetime) : Z := us_per_day * (micros d / us_per_day).

Definition hour (d : datetime) : Z := (micros d mod us_per_day) / us_per_hour.
Definition minute (d : datetime) : Z := (micros d mod us_per_hour) / us_per_minute.
Definition second (d : datetime) : Z := (micros d mod us_per_minute) / us_per_second.
Definition microsecond (d : datetime) : Z := micros d mod us_per_second.

(** [d.replace(hour=h, minute=0, second=0, microsecond=0)]. *)
Definition replace_hour_exact (d : datetime) (h : Z) : result datetime :=
  if (0 <=? h) && (h <=? 23)
  then Ok (DateTime (midnight d + h * us_per_hour))
  else Raise (Exn ValueError "hour must be in 0..23").

(** [d.replace(hour=h, minute=0)]: seconds and microseconds are kept. *)
Definition replace_hour_minute0 (d : datetime) (h : Z) : result datetime :=
  if (0 <=? h) && (h <=? 23)
  then Ok (DateTime (midnight d + h * us_per_hour + micros d mod us_per_minute))
  else Raise (Exn ValueError "hour must be in 0..23").

(** [timedelta(hours=h, minutes=m)] for integers [h] and [m]. *)
Definition timedelta_of (h m : Z) : result timedelta :=
  let us := h * us_per_hour + m * us_per_minute in
  if (- max_delta_days <=? us / us_per_day) && (us / us_per_day <=? max_delta_days)
  then Ok (TimeDelta us)
  else Raise (Exn OverflowError "days out of range for timedelta").

(** [d + td]. *)
Definition add (d : datetime) (td : timedelta) : result datetime :=
  let us := micros d + delta_micros td in
  if (0 <=? us) && (us <? max_micros)
  then Ok (DateTime us)
  else Raise (Exn OverflowError "date value out of range").

(** [a - b] on two datetimes. *)
Definition sub (a b : datetime) : timedelta := TimeDelta (micros a - micros b).

Definition lt (a b : datetime) : bool := micros a <? micros b.

(** [td.days] and [td.seconds] of the normalised duration. *)
Definition days (td : timedelta) : Z := delta_micros td / us_per_day.
Definition seconds (td : timedelta) : Z :=
  (delta_micros td mod us_per_day) / us_per_second.

End datetime.
Export datetime.

(** ** Python floats

    A Python [float] is an IEEE-754 binary64 number.  Its arithmetic is
    the standard library's executable specification of that format, with
    53 bits of precision and round-to-nearest, ties to even. *)

Module binary64.


Definition float : Type := SpecFloat.spec_float.



(** [x == y], [x < y], [x <= y]. *)
Definition eqb (x y : float) : bool := SpecFloat.SFeqb x y.
Definition ltb (x y : float) : bool := SpecFloat.SFltb x y.
Definition leb (x y : float) : bool := SpecFloat.SFleb x y.

End binary64.

(** ** calibre_web/services/worker.py, as its clients see it *)

Module worker.

(** Modelled from the spec: the [STAT_*] constants of services/worker.py,
    which the sources only import; the spec's data model lists the states
    Waiting, Started, FinishSuccess, Fail, Ended and Cancelled. *)
Inductive Stat :=
  | STAT_WAITING
  | STAT_FAIL
  | STAT_STARTED
  | STAT_FINISH_SUCCESS
  | STAT_ENDED
  | STAT_CANCELLED.

#[global] Instance Stat_eq_dec : EqDecision Stat.
Proof. solve_decision. Defined.

(** A task's [progress] is a Python number: an int written by the task
    framework, or the float the backup loop computes.  The float is kept
    as the expression that produced it, [(1.0 / count) * i];
    [progress_value] below gives the number it evaluates to. *)
Inductive Progress :=
  | ProgressInt (n : Z)
  | ProgressScaled (count i : Z).

#[global] Instance Progress_eq_dec : EqDecision Progress.
Proof. solve_decision. Defined.


(** The task classes.  Three are defined in the files embedded here; the
    others (convert, mail, thumbnails, database reconnect) are known only
    by what reading their [name] and [is_cancellable] attributes gives. *)
Inductive TaskClass :=
  | TaskUpload
  | TaskDeleteTempFolder
  | TaskBackupMetadata
  | TaskOther (name_value cancellable_value : value).

#[global] Instance TaskClass_eq_dec : EqDecision TaskClass.
Proof. solve_decision. Defined.

(** Modelled from the spec: the instance state of the [CalibreTask] base
    class of services/worker.py (spec, data model of Task): id, message,
    progress, stat, timestamps, the [scheduled] mark, the captured error
    text and the cooperative cancellation signal. *)
Record CalibreTask := mkTask {
  cls : TaskClass;
  task_id : Z;
  message : string;
  progress : Progress;
  stat : Stat;
  scheduled : bool;
  start_time : option datetime;
  end_time : option datetime;
  error : option string;
  cancel_signal : bool;
  book_title : option string
}.

#[global] Instance CalibreTask_eq_dec : EqDecision CalibreTask.
Proof. solve_decision. Defined.

Definition set_stat (v : Stat) (t : CalibreTask) : CalibreTask :=
  mkTask (cls t) (task_id t) (message t) (progress t) v (scheduled t)
         (start_time t) (end_time t) (error t) (cancel_signal t) (book_title t).
Definition set_progress (v : Progress) (t : CalibreTask) : CalibreTask :=
  mkTask (cls t) (task_id t) (message t) v (stat t) (scheduled t)
         (start_time t) (end_time t) (error t) (cancel_signal t) (book_title t).
Definition set_start_time (v : option datetime) (t : CalibreTask) : CalibreTask :=
  mkTask (cls t) (task_id t) (message t) (progress t) (stat t) (scheduled t)
         v (end_time t) (error t) (cancel_signal t) (book_title t).
Definition set_end_time (v : option datetime) (t : CalibreTask) : CalibreTask :=
  mkTask (cls t) (task_id t) (message t) (progress t) (stat t) (scheduled t)
         (start_time t) v (error t) (cancel_signal t) (book_title t).
Definition set_error (v : option string) (t : CalibreTask) : CalibreTask :=
  mkTask (cls t) (task_id t) (message t) (progress t) (stat t) (scheduled t)
         (start_time t) (end_time t) v (cancel_signal t) (book_title t).
Definition set_cancel_signal (v : bool) (t : CalibreTask) : CalibreTask :=
  mkTask (cls t) (task_id t) (message t) (progress t) (stat t) (scheduled t)
         (start_time t) (end_time t) (error t) v (book_title t).
Definition set_book_title (v : option string) (t : CalibreTask) : CalibreTask :=
  mkTask (cls t) (task_id t) (message t) (progress t) (stat t) (scheduled t)
         (start_time t) (end_time t) (error t) (cancel_signal t) v.

(** Modelled from the spec: [CalibreTask.__init__(message)] of
    services/worker.py: a fresh task is Waiting with progress 0, no
    timestamps, not scheduled (spec, lifecycle of a Task). *)
Definition CalibreTask_init (c : TaskClass) (new_id : Z) (msg : string) : CalibreTask :=
  mkTask c new_id msg (ProgressInt 0) STAT_WAITING false None None None false None.

(** Modelled from the spec: [CalibreTask._handleSuccess] of
    services/worker.py: terminal success, progress 1.0 (spec: "1.0 on
    terminal success"). *)
Definition _handleSuccess (t : CalibreTask) : CalibreTask :=
  set_progress (ProgressInt 1) (set_stat STAT_FINISH_SUCCESS t).

(** Modelled from the spec: [CalibreTask._handleError(msg)] of
    services/worker.py: the task is recorded as Fail with the error
    message surfaced (spec, failure semantics). *)
Definition _handleError (msg : string) (t : CalibreTask) : CalibreTask :=
  set_error (Some msg) (set_progress (ProgressInt 1) (set_stat STAT_FAIL t)).

(** A pool entry: the 5-tuple [(num, user, added, task, hidden)] that
    schedule.py and tasks_status.py unpack. *)
Record QueuedTask := mkQueued {
  num : Z;
  user : option string;
  added : datetime;
  task : CalibreTask;
  hidden : bool
}.

#[global] Instance QueuedTask_eq_dec : EqDecision QueuedTask.
Proof. solve_decision. Defined.

Definition set_task (t : CalibreTask) (e : QueuedTask) : QueuedTask :=
  mkQueued (num e) (user e) (added e) t (hidden e).

End worker.
Export worker.

(** ** Class bodies of the task variants: methods and properties *)

Module task_classes.

(** What a class body binds a name to: a plain [def] or a [@property]. *)
Inductive member :=
  | Method (returns : value)
  | Property (returns : value).

(** calibre_web/tasks/upload.py: [name] and [is_cancellable] are plain
    [def]s, [run] has only a docstring. *)
Definition TaskUpload_body : list (string * member) :=
  [ ("run", Method VNone);
    ("name", Method (VStr "Upload"));
    ("is_cancellable", Method (VBool false)) ].

(** calibre-web/tasks/tempFolder.py. *)
Definition TaskDeleteTempFolder_body : list (string * member) :=
  [ ("run", Method VNone);
    ("name", Property (VStr "Delete Temp Folder"));
    ("is_cancellable", Property (VBool false)) ].

(** calibre_web/tasks/metadata_backup.py. *)
Definition TaskBackupMetadata_body : list (string * member) :=
  [ ("run", Method VNone);
    ("name", Property (VStr "Metadata backup"));
    ("is_cancellable", Property (VBool true)) ].

Definition class_name (c : TaskClass) : string :=
  match c with
  | TaskUpload => "TaskUpload"
  | TaskDeleteTempFolder => "TaskDeleteTempFolder"
  | TaskBackupMetadata => "TaskBackupMetadata"
  | TaskOther _ _ => "CalibreTask"
  end.

Definition class_body (c : TaskClass) : list (string * member) :=
  match c with
  | TaskUpload => TaskUpload_body
  | TaskDeleteTempFolder => TaskDeleteTempFolder_body
  | TaskBackupMetadata => TaskBackupMetadata_body
  | TaskOther n c => [ ("name", Property n); ("is_cancellable", Property c) ]
  end.

Fixpoint find_member (attr : string) (body : list (string * member)) : option member :=
  match body with
  | [] => None
  | (k, m) :: rest => if String.eqb k attr then Some m else find_member attr rest
  end.

(** [obj.attr] for a name bound in the class body: a property runs its
    getter, a plain function comes back as a bound method. *)
Definition getattr (c : TaskClass) (attr : string) : result value :=
  match find_member attr (class_body c) with
  | Some (Property v) => Ok v
  | Some (Method _) => Ok (VBoundMethod (class_name c) attr)
  | None => Raise (Exn AttributeError
                     ("'" +:+ class_name c +:+ "' object has no attribute '" +:+ attr +:+ "'"))
  end.

(** [obj.attr()] : calling what [obj.attr] gave. *)
Definition call_member (c : TaskClass) (attr : string) : result value :=
  match find_member attr (class_body c) with
  | Some (Method v) => Ok v
  | Some (Property _) => Raise (Exn TypeError "object is not callable")
  | None => Raise (Exn AttributeError
                     ("'" +:+ class_name c +:+ "' object has no attribute '" +:+ attr +:+ "'"))
  end.

(** [obj.attr = v] where the class binds [attr]: a property without a
    setter refuses the assignment; a plain method is shadowed silently. *)
Definition setattr_allowed (c : TaskClass) (attr : string) : result unit :=
  match find_member attr (class_body c) with
  | Some (Property _) => Raise (Exn AttributeError "can't set attribute")
  | _ => Ok tt
  end.

(** [task.is_cancellable] and [task.name] as the pool's clients read them. *)
Definition is_cancellable (t : CalibreTask) : value :=
  match getattr (cls t) "is_cancellable" with
  | Ok v => v
  | Raise _ => VNone
  end.

Definition name (t : CalibreTask) : value :=
  match getattr (cls t) "name" with
  | Ok v => v
  | Raise _ => VNone
  end.

(** [super().attr = v]: the proxy returned by [super()] forwards attribute
    reads only; an assignment is made on the proxy object itself, which has
    no such attribute and no [__dict__]. *)
Definition super_setattr {S} (attr : string) : M S unit :=
  raise AttributeError ("'super' object has no attribute '" +:+ attr +:+ "'").

End task_classes.
Export task_classes.

(** ** calibre_web/tasks/upload.py *)

Module upload.

(** [TaskUpload.__init__(self, task_message, book_title)], run on the
    object that [super().__init__(task_message)] has just initialised;
    [now] is the reading of [datetime.now()]. *)
Definition __init__ (now : datetime) (book_title : string) : M CalibreTask unit :=
  do modify (fun self => set_start_time (Some now) (set_end_time (Some now) self)) then
  do super_setattr "stat" then
  do super_setattr "progress" then
  modify (set_book_title (Some book_title)).

(** [TaskUpload(task_message, book_title)]: the instance, or the exception
    its constructor raised. *)
Definition TaskUpload_new (new_id : Z) (now : datetime)
    (task_message book_title : string) : result CalibreTask :=
  match __init__ now book_title (CalibreTask_init TaskUpload new_id task_message) with
  | (self, Ok _) => Ok self
  | (_, Raise e) => Raise e
  end.

(** [run]: the body is a docstring. *)
Definition run : M CalibreTask unit := ret tt.

End upload.

(** ** calibre_web/file_helper.py *)

Module file_helper.

(** The file system as the code meets it: what [tempfile.gettempdir()]
    returns and how [shutil.rmtree(path)] ends. *)
Record FileSystem := {
  gettempdir : result string;
  rmtree : string -> result unit
}.

Definition ends_with_sep (a : string) : bool :=
  String.eqb (String.substring (String.length a - 1)%nat 1%nat a) "/".

(** [os.path.join(a, b)] for a relative [b] (POSIX). *)
Definition path_join (a b : string) : string :=
  if String.eqb a "" then b
  else if ends_with_sep a then a +:+ b
  else a +:+ "/" +:+ b.

Definition del_temp_dir {S} (fs : FileSystem) : M S unit :=
  let* tmp := lift (gettempdir fs) in
  let tmp_dir := path_join tmp "calibre-web" in
  lift (rmtree fs tmp_dir).

End file_helper.

(** ** calibre-web/tasks/tempFolder.py *)

Module tempFolder.

(** The running task: [self] and what it wrote to its logger. *)
Record TaskRun := mkRun {
  self : CalibreTask;
  log_lines : list string
}.

Definition on_self (f : CalibreTask -> CalibreTask) : M TaskRun unit :=
  modify (fun r => mkRun (f (self r)) (log_lines r)).

Definition log_exception (line : string) : M TaskRun unit :=
  modify (fun r => mkRun (self r) (log_lines r ++ [line])).

Definition run (fs : file_helper.FileSystem) : M TaskRun unit :=
  do try_excepts (file_helper.del_temp_dir fs)
       [ ([FileNotFoundError], fun _ => ret tt);
         ([PermissionError; OSError],
          fun e => log_exception ("Error deleting temp folder: " +:+ exn_text e)) ]
  then on_self _handleSuccess.

End tempFolder.

(** ** calibre_web/tasks/metadata_backup.py *)

Module metadata_backup.

(** A [db.Books] row as far as the task reads it. *)
Record Book := mkBook { book_id : Z; book_path : string }.

(** A Python local variable: before its first assignment it is unbound. *)
Inductive local (A : Type) :=
  | Unbound
  | Bound (v : A).
Arguments Unbound {A}.
Arguments Bound {A} v.

(** The collaborators of the task (ORM session, metadata writer, Google
    Drive, the file system), each given by how its calls end. *)
Record Collaborators := {
  (* session.query(db.Metadata_Dirtied).all(): the [book] of each row *)
  query_dirtied : result (list Z);
  (* the custom-column query; the labels found *)
  query_custom_columns : result (list string);
  (* session.query(db.Books).filter(id == b).one_or_none() *)
  query_book : Z -> result (option Book);
  (* session.query(db.Metadata_Dirtied).filter(book == b).delete() *)
  delete_dirtied : Z -> result unit;
  (* session.commit() after the row of book b was deleted *)
  commit_book : Z -> result unit;
  (* session.query(db.Books).all() *)
  query_all_books : result (list Book);
  set_metadata_dirty : Z -> result unit;
  commit_all : result unit;
  rollback : result unit;
  close : result unit;
  (* create_new_metadata_backup(book, custom_columns, language, title) *)
  create_new_metadata_backup : Book -> list string -> result string;
  config_use_google_drive : bool;
  is_gdrive_ready : result bool;
  uploadFileToEbooksFolder : string -> string -> result unit;
  get_book_path : result string;
  (* open(path, "wb") and doc.write(f, ...) *)
  write_file : string -> string -> result unit
}.

Inductive event :=
  | LogDebug (line : string)
  | LogError (line : string)
  | HandleSuccess
  | HandleError (msg : string)
  | Commit
  | Rollback
  | Close.

#[global] Instance event_eq_dec : EqDecision event.
Proof. solve_decision. Defined.

(** The running task: [self], the local variable [book] of
    [backup_metadata], and what has been done so far. *)
Record BackupRun := mkBackupRun {
  self : CalibreTask;
  book : local (option Book);
  events : list event
}.

Definition on_self (f : CalibreTask -> CalibreTask) : M BackupRun unit :=
  modify (fun r => mkBackupRun (f (self r)) (book r) (events r)).

Definition assign_book (v : option Book) : M BackupRun unit :=
  modify (fun r => mkBackupRun (self r) (Bound v) (events r)).

Definition emit (ev : event) : M BackupRun unit :=
  modify (fun r => mkBackupRun (self r) (book r) (events r ++ [ev])).

Definition handleSuccess : M BackupRun unit :=
  do on_self _handleSuccess then emit HandleSuccess.

Definition handleError (msg : string) : M BackupRun unit :=
  do on_self (_handleError msg) then emit (HandleError msg).

Definition session_commit (r : result unit) : M BackupRun unit :=
  do lift r then emit Commit.

Definition session_rollback (db : Collaborators) : M BackupRun unit :=
  do lift (rollback db) then emit Rollback.

Definition session_close (db : Collaborators) : M BackupRun unit :=
  do lift (close db) then emit Close.

(** [path.replace("\\", "/")]. *)
Fixpoint forward_slashes (path : string) : string :=
  match path with
  | EmptyString => EmptyString
  | String c rest =>
      String (if Ascii.eqb c (Ascii.ascii_of_nat 92) then Ascii.ascii_of_nat 47 else c)
             (forward_slashes rest)
  end.

Definition open_metadata (db : Collaborators) (bk : Book)
    (custom_columns : list string) : M BackupRun unit :=
  let* package := lift (create_new_metadata_backup db bk custom_columns) in
  if config_use_google_drive db then
    let* ready := lift (is_gdrive_ready db) in
    if negb ready then raise Exception "Google Drive is configured but not ready"
    else lift (uploadFileToEbooksFolder db
                 (forward_slashes (file_helper.path_join (book_path bk) "metadata.opf"))
                 package)
  else
    let* root := lift (get_book_path db) in
    let book_metadata_filepath :=
      file_helper.path_join (file_helper.path_join root (book_path bk)) "metadata.opf" in
    try_except (lift (write_file db book_metadata_filepath package))
      [Exception]
      (fun ex => raise Exception
                   ("Writing Metadata failed with error: " +:+ exn_text ex +:+ " ")).

(** The [for backup in metadata_backup] loop; [i] books are done. *)
Fixpoint backup_loop (db : Collaborators) (custom_columns : list string)
    (count i : Z) (rows : list Z) : M BackupRun unit :=
  match rows with
  | [] => ret tt
  | backup :: rest =>
      let* bk := lift (query_book db backup) in
      do assign_book bk then
      do lift (delete_dirtied db backup) then
      do session_commit (commit_book db backup) then
      do match bk with
         | Some b => open_metadata db b custom_columns
         | None => emit (LogError ("Book " +:+ pretty backup +:+ " not found in database"))
         end then
      do on_self (set_progress (ProgressScaled count (i + 1))) then
      backup_loop db custom_columns count (i + 1) rest
  end.

(** [b = "NaN" if not hasattr(book, "id") else book.id]: the name [book]
    is evaluated first. *)
Definition book_label : M BackupRun string :=
  let* r := get in
  match book r with
  | Unbound => raise UnboundLocalError
      "cannot access local variable 'book' where it is not associated with a value"
  | Bound None => ret "NaN"
  | Bound (Some b) => ret (pretty (book_id b))
  end.

Definition backup_metadata (db : Collaborators) : M BackupRun unit :=
  try_except
    (let* metadata_backup := lift (query_dirtied db) in
     let* custom_columns := lift (query_custom_columns db) in
     let count := Z.of_nat (length metadata_backup) in
     do backup_loop db custom_columns count 0 metadata_backup then
     do handleSuccess then
     session_close db)
    [Exception]
    (fun ex =>
       let* b := book_label in
       do emit (LogDebug ("Error creating metadata backup for book " +:+ b +:+ ": "
                          +:+ exn_text ex)) then
       do handleError ("Error creating metadata backup: " +:+ exn_text ex) then
       do session_rollback db then
       session_close db).

Definition set_all_books_dirty (db : Collaborators) : M BackupRun unit :=
  do try_except
       (let* books := lift (query_all_books db) in
        do for_each books (fun b => lift (set_metadata_dirty db (book_id b))) then
        do session_commit (commit_all db) then
        handleSuccess)
       [Exception]
       (fun ex =>
          do emit (LogDebug ("Error adding book for backup: " +:+ exn_text ex)) then
          do handleError ("Error adding book for backup: " +:+ exn_text ex) then
          session_rollback db)
  then session_close db.

Definition run (set_dirty : bool) (db : Collaborators) : M BackupRun unit :=
  if set_dirty then set_all_books_dirty db else backup_metadata db.

(** A task about to run: nothing done yet, [book] not yet assigned. *)
Definition start (t : CalibreTask) : BackupRun := mkBackupRun t Unbound [].

End metadata_backup.

(** ** Application state shared by schedule.py and admin.py *)

Module app.

(** Modelled from the spec: the settings object [CONFIG] of config_sql.py
    (its source is not available), reduced to the scheduling fields that
    schedule.py and admin.py read and write: start hour, duration in
    minutes and the per-feature enable flags. *)
Record Config := mkConfig {
  schedule_start_time : Z;
  schedule_duration : Z;
  schedule_generate_book_covers : bool;
  schedule_generate_series_covers : bool;
  schedule_metadata_backup : bool;
  schedule_reconnect : bool
}.

#[global] Instance Config_eq_dec : EqDecision Config.
Proof. solve_decision. Defined.

(** The constructors that get_scheduled_tasks wraps in a [lambda]. *)
Inductive TaskFactory :=
  | MakeTaskReconnectDatabase
  | MakeTaskDeleteTempFolder
  | MakeTaskBackupMetadata (export_language : string)
  | MakeTaskClearCoverThumbnailCache (book_id : Z)
  | MakeTaskGenerateCoverThumbnails
  | MakeTaskGenerateSeriesThumbnails.

(** One element [[factory, name, hidden]] of the scheduled batch. *)
Record ScheduledTask := mkScheduled {
  factory : TaskFactory;
  description : string;
  hidden_flag : bool
}.

(** [CronTrigger(hour=h)] and [CronTrigger(hour=h, minute=m)]. *)
Record CronTrigger := mkCron { cron_hour : Z; cron_minute : option Z }.

Inductive JobAction :=
  | SubmitTask (t : ScheduledTask)
  | CallEndScheduledTasks.

(** Modelled from the spec: a trigger installed in the scheduler service
    (services/background_scheduler.py, whose source is not available). *)
Record Job := mkJob {
  job_name : string;
  job_trigger : CronTrigger;
  job_action : JobAction
}.

#[global] Instance TaskFactory_eq_dec : EqDecision TaskFactory.
Proof. solve_decision. Defined.
#[global] Instance ScheduledTask_eq_dec : EqDecision ScheduledTask.
Proof. solve_decision. Defined.
#[global] Instance CronTrigger_eq_dec : EqDecision CronTrigger.
Proof. solve_decision. Defined.
#[global] Instance JobAction_eq_dec : EqDecision JobAction.
Proof. solve_decision. Defined.
#[global] Instance Job_eq_dec : EqDecision Job.
Proof. solve_decision. Defined.

Record World := mkWorld {
  CONFIG : Config;                       (* the in-memory settings *)
  saved : list Config;                   (* what CONFIG.save() has written *)
  flashes : list (string * string);      (* flash(message, category) *)
  tasks : list QueuedTask;               (* WorkerThread.get_instance().tasks *)
  end_requests : list Z;                 (* the ids given to worker.end_task *)
  jobs : list Job;                       (* the scheduler's installed triggers *)
  immediate : list ScheduledTask;        (* given to schedule_tasks_immediately *)
  clock_reads : nat;                     (* datetime.now() calls so far *)
  app_log : list string
}.

Definition with_CONFIG (f : Config -> Config) (w : World) : World :=
  mkWorld (f (CONFIG w)) (saved w) (flashes w) (tasks w) (end_requests w)
          (jobs w) (immediate w) (clock_reads w) (app_log w).
Definition with_saved (f : list Config -> list Config) (w : World) : World :=
  mkWorld (CONFIG w) (f (saved w)) (flashes w) (tasks w) (end_requests w)
          (jobs w) (immediate w) (clock_reads w) (app_log w).
Definition with_flashes (f : list (string * string) -> list (string * string))
    (w : World) : World :=
  mkWorld (CONFIG w) (saved w) (f (flashes w)) (tasks w) (end_requests w)
          (jobs w) (immediate w) (clock_reads w) (app_log w).
Definition with_tasks (f : list QueuedTask -> list QueuedTask) (w : World) : World :=
  mkWorld (CONFIG w) (saved w) (flashes w) (f (tasks w)) (end_requests w)
          (jobs w) (immediate w) (clock_reads w) (app_log w).
Definition with_end_requests (f : list Z -> list Z) (w : World) : World :=
  mkWorld (CONFIG w) (saved w) (flashes w) (tasks w) (f (end_requests w))
          (jobs w) (immediate w) (clock_reads w) (app_log w).
Definition with_jobs (f : list Job -> list Job) (w : World) : World :=
  mkWorld (CONFIG w) (saved w) (flashes w) (tasks w) (end_requests w)
          (f (jobs w)) (immediate w) (clock_reads w) (app_log w).
Definition with_immediate (f : list ScheduledTask -> list ScheduledTask)
    (w : World) : World :=
  mkWorld (CONFIG w) (saved w) (flashes w) (tasks w) (end_requests w)
          (jobs w) (f (immediate w)) (clock_reads w) (app_log w).
Definition with_clock_reads (f : nat -> nat) (w : World) : World :=
  mkWorld (CONFIG w) (saved w) (flashes w) (tasks w) (end_requests w)
          (jobs w) (immediate w) (f (clock_reads w)) (app_log w).
Definition with_app_log (f : list string -> list string) (w : World) : World :=
  mkWorld (CONFIG w) (saved w) (flashes w) (tasks w) (end_requests w)
          (jobs w) (immediate w) (clock_reads w) (f (app_log w)).

(** What the surroundings answer: the wall clock (its k-th reading),
    whether [BackgroundScheduler()] is a usable scheduler, how
    [CONFIG.save()] ends, and Python's [int(s)] on a form string. *)
Record Env := mkEnv {
  clock : nat -> datetime;
  scheduler_available : bool;
  save_outcome : result unit;
  py_int : string -> result Z
}.

(** [datetime.datetime.now()]. *)
Definition datetime_now (env : Env) : M World datetime :=
  fun w => (with_clock_reads S w, Ok (clock env (clock_reads w))).

(** [flash(message, category)]. *)
Definition flash (msg category : string) : M World unit :=
  modify (with_flashes (fun l => l ++ [(msg, category)])).

End app.
Export app.

(** ** The worker pool and the scheduler service as their clients use them *)

Module services.

(** Modelled from the spec: how [cancel] treats one task (spec 4.2).  The
    side transition is open only to a cancellable task: a Waiting one
    becomes Cancelled at once, a Started one gets the cooperative signal,
    a terminal one is left as it is. *)
Definition cancel (t : CalibreTask) : CalibreTask :=
  if truthy (is_cancellable t) then
    match stat t with
    | STAT_WAITING => set_stat STAT_CANCELLED t
    | STAT_STARTED => set_cancel_signal true t
    | _ => t
    end
  else t.

(** Modelled from the spec: [WorkerThread.end_task(task_id)] of
    services/worker.py, the pool's [cancel(task_id)]: the entries carrying
    that id are cancelled in place, the list itself is unchanged. *)
Definition end_task (id : Z) : M World unit :=
  do modify (with_end_requests (fun l => l ++ [id])) then
  modify (with_tasks (map (fun e =>
    if task_id (task e) =? id then set_task (cancel (task e)) e else e))).

(** Modelled from the spec: [BackgroundScheduler.remove_all_jobs()]
    ("unregister_all" in the spec's interface): no trigger stays. *)
Definition remove_all_jobs : M World unit := modify (with_jobs (fun _ => [])).

(** Modelled from the spec: [BackgroundScheduler.schedule_tasks(tasks,
    trigger)]: the batch is installed under the trigger, one job per task
    and in order. *)
Definition schedule_tasks (batch : list ScheduledTask) (trigger : CronTrigger)
    : M World unit :=
  modify (with_jobs (fun l =>
    l ++ map (fun t => mkJob (description t) trigger (SubmitTask t)) batch)).

(** Modelled from the spec: [BackgroundScheduler.schedule(func, trigger,
    name)]: one more trigger. *)
Definition schedule_job (action : JobAction) (trigger : CronTrigger) (name : string)
    : M World unit :=
  modify (with_jobs (fun l => l ++ [mkJob name trigger action])).

(** Modelled from the spec: [BackgroundScheduler.schedule_tasks_immediately(
    tasks)]: the batch is submitted to the pool now. *)
Definition schedule_tasks_immediately (batch : list ScheduledTask) : M World unit :=
  modify (with_immediate (fun l => l ++ batch)).

End services.

(** ** calibre_web/schedule.py *)

Module schedule.

Definition get_scheduled_tasks (reconnect : bool) : M World (list ScheduledTask) :=
  let* cfg := gets CONFIG in
  ret ((if reconnect
        then [mkScheduled MakeTaskReconnectDatabase "reconnect" false] else [])
       ++ [mkScheduled MakeTaskDeleteTempFolder "delete temp" true]
       ++ (if schedule_metadata_backup cfg
           then [mkScheduled (MakeTaskBackupMetadata "en") "backup metadata" false]
           else [])
       ++ (if schedule_generate_book_covers cfg
           then [mkScheduled (MakeTaskClearCoverThumbnailCache 0)
                   "delete superfluous book covers" true;
                 mkScheduled MakeTaskGenerateCoverThumbnails "generate book covers" false]
           else [])
       ++ (if schedule_generate_series_covers cfg
           then [mkScheduled MakeTaskGenerateSeriesThumbnails "generate book covers" false]
           else [])).

(** The test [task.scheduled and task.is_cancellable] of the sweep. *)
Definition swept (e : QueuedTask) : bool :=
  scheduled (task e) && truthy (is_cancellable (task e)).

(** [for __, __, __, task, __ in worker.tasks]: the tasks are the pool's
    own objects, so every step reads the entry as the earlier calls of
    [end_task] have left it; [end_task] keeps the list's length. *)
Definition end_scheduled_tasks : M World unit :=
  let* n := gets (fun w => length (tasks w)) in
  for_each (seq 0 n) (fun i =>
    let* entry := gets (fun w => tasks w !! i) in
    match entry with
    | Some e => if swept e then services.end_task (task_id (task e)) else ret tt
    | None => ret tt
    end).

Definition should_task_be_running (env : Env) (start duration : Z) : M World bool :=
  let* now := datetime_now env in
  let* today := datetime_now env in
  let* start_time := lift (replace_hour_exact today start) in
  let* delta := lift (timedelta_of (duration / 60) (duration mod 60)) in
  let* end_time := lift (add start_time delta) in
  ret (lt start_time now && lt now end_time).

Definition calclulate_end_time (env : Env) (start duration : Z) : M World datetime :=
  let* today := datetime_now env in
  let* start_time := lift (replace_hour_minute0 today start) in
  let* delta := lift (timedelta_of (duration / 60) (duration mod 60)) in
  lift (add start_time delta).

Definition register_scheduled_tasks (env : Env) (reconnect : bool) : M World unit :=
  if scheduler_available env then
    do services.remove_all_jobs then
    let* start := gets (fun w => schedule_start_time (CONFIG w)) in
    let* duration := gets (fun w => schedule_duration (CONFIG w)) in
    let* batch := get_scheduled_tasks reconnect in
    do services.schedule_tasks batch (mkCron start None) then
    let* end_time := calclulate_end_time env start duration in
    do services.schedule_job CallEndScheduledTasks
         (mkCron (hour end_time) (Some (minute end_time))) "end scheduled task" then
    let* running := should_task_be_running env start duration in
    if running then
      let* batch := get_scheduled_tasks reconnect in
      services.schedule_tasks_immediately batch
    else ret tt
  else ret tt.

End schedule.

(** ** cps/tasks_status.py *)

Module tasks_status.

(** The requesting user: [current_user.name] and [current_user.role_admin()]. *)
Record User := mkUser { user_name : string; role_admin : bool }.

(** Library calls of the report: Babel's date and unit formatting,
    gettext, MarkupSafe's [escape], the percentage [int(progress * 100)],
    f-string formatting of an attribute value, and the time of the
    request. *)
Record Rendering := {
  format_datetime : datetime -> string;
  format_unit_day : Z -> string;
  gettext : string -> string;
  escape : option string -> string;
  percent : Progress -> Z;
  str_of : value -> string;
  request_time : datetime
}.

(** One rendered entry, the dict [ret]; the keys that are set only under
    a condition are optional. *)
Record StatusRecord := mkStatus {
  starttime : option string;
  runtime_text : option string;
  status : option string;
  taskMessage : value;
  progress_text : string;
  user_text : string;
  rec_task_id : Z;
  rec_stat : Stat;
  rec_is_cancellable : value
}.

(** [f"{n:d}"], [f"{n:02d}"] and [f"{n:2d}"] for n >= 0. *)
Definition fmt_d (n : Z) : string := pretty n.
Definition fmt_02d (n : Z) : string := if n <? 10 then "0" +:+ pretty n else pretty n.
Definition fmt_2d (n : Z) : string := if n <? 10 then " " +:+ pretty n else pretty n.

Definition format_runtime (r : Rendering) (runtime : timedelta) : string :=
  let ret_val :=
    if negb (days runtime =? 0) then format_unit_day r (days runtime) +:+ ", " else "" in
  let seconds0 := seconds runtime in
  let minutes0 := seconds0 / 60 in
  let seconds := seconds0 mod 60 in
  let hours := minutes0 / 60 in
  let minutes := minutes0 mod 60 in
  if negb (hours =? 0) then
    ret_val +:+ fmt_d hours +:+ ":" +:+ fmt_02d minutes +:+ ":" +:+ fmt_02d seconds +:+ "s"
  else if negb (minutes =? 0) then
    ret_val +:+ fmt_2d minutes +:+ ":" +:+ fmt_02d seconds +:+ "s"
  else
    ret_val +:+ fmt_2d seconds +:+ "s".

(** Modelled from the spec: the [runtime] property of the [CalibreTask]
    base class: [end_time - start_time], with "now" standing in for the
    end of a task that is still running. *)
Definition runtime (now : datetime) (t : CalibreTask) : timedelta :=
  match start_time t with
  | Some st => sub (default now (end_time t)) st
  | None => TimeDelta 0
  end.

Definition status_label (r : Rendering) (s : Stat) : string :=
  match s with
  | STAT_WAITING => gettext r "Waiting"
  | STAT_FAIL => gettext r "Failed"
  | STAT_STARTED => gettext r "Started"
  | STAT_FINISH_SUCCESS => gettext r "Finished"
  | STAT_ENDED => gettext r "Ended"
  | STAT_CANCELLED => gettext r "Cancelled"
  end.

(** The body of the loop for one entry that passed the test. *)
Definition render_entry (r : Rendering) (e : QueuedTask) : StatusRecord :=
  let t := task e in
  mkStatus
    (format_datetime r <$> start_time t)
    (match start_time t with
     | Some _ => Some (format_runtime r (runtime (request_time r) t))
     | None => None
     end)
    (Some (status_label r (stat t)))
    (if negb (String.eqb (message t) "")
     then VStr (str_of r (name t) +:+ ": " +:+ message t)
     else name t)
    (pretty (percent r (progress t)) +:+ " %")
    (escape r (user e))
    (task_id t)
    (stat t)
    (is_cancellable t).

(** The test [user == current_user.name or current_user.role_admin()]. *)
Definition shown (current_user : User) (e : QueuedTask) : bool :=
  bool_decide (user e = Some (user_name current_user)) || role_admin current_user.

Fixpoint render_task_status (r : Rendering) (current_user : User)
    (tasklist : list QueuedTask) : list StatusRecord :=
  match tasklist with
  | [] => []
  | e :: rest =>
      if shown current_user e
      then render_entry r e :: render_task_status r current_user rest
      else render_task_status r current_user rest
  end.

End tasks_status.

(** ** calibre_web/admin.py: the scheduled-task settings *)

Module admin.

(** The names bound at module level in admin.py: its imports, its
    module-level assignments and its functions. *)
Definition module_globals : list string :=
  [ "contextlib"; "json"; "operator"; "os"; "re"; "string"; "sys"; "time";
    "datetime"; "timedelta"; "datetime_time"; "wraps"; "Blueprint";
    "Response"; "abort"; "flash"; "g"; "make_response"; "redirect";
    "request"; "send_from_directory"; "url_for"; "flask_session";
    "format_datetime"; "format_time"; "format_timedelta"; "get_locale"; "_";
    "current_user"; "login_required"; "logout_user"; "Markup"; "and_";
    "IntegrityError"; "InvalidRequestError"; "OperationalError";
    "flag_modified"; "func"; "or_"; "text"; "constants"; "db"; "debug_info";
    "helper"; "kobo_sync_status"; "logger"; "schedule"; "services"; "ub";
    "updater_thread"; "web_server"; "cli_param"; "calibre_db";
    "get_available_locale"; "get_available_translations";
    "get_user_locale_language"; "CONFIG"; "check_email"; "check_username";
    "check_valid_domain"; "generate_password_hash"; "get_calibre_binarypath";
    "reset_password"; "send_test_mail"; "valid_email"; "get_sidebar_config";
    "render_title_template"; "use_APScheduler"; "WorkerThread"; "log";
    "feature_support"; "rarfile"; "oauth_check"; "oauthblueprints"; "admi";
    "admin_required"; "before_request"; "admin_forbidden"; "shutdown";
    "queue_metadata_backup"; "reconnect"; "update_thumbnails"; "admin";
    "db_configuration"; "configuration"; "ajax_config"; "ajax_db_config";
    "calibreweb_alive"; "view_configuration"; "edit_user_table";
    "list_users"; "delete_user"; "table_get_locale";
    "table_get_default_lang"; "edit_list_user"; "update_table_settings";
    "update_view_configuration"; "load_dialogtexts"; "edit_domain";
    "add_domain"; "delete_domain"; "list_domain"; "edit_restriction";
    "add_user_0_restriction"; "add_restriction"; "delete_user_0_restriction";
    "delete_restriction"; "list_restriction"; "ajax_self_fullsync";
    "ajax_fullsync"; "ajax_pathchooser"; "do_full_kobo_sync";
    "check_valid_read_column"; "check_valid_restricted_column";
    "restriction_addition"; "restriction_deletion"; "prepare_tags";
    "get_drives"; "pathchooser"; "_config_int"; "_config_checkbox";
    "_config_checkbox_int"; "_config_string"; "_configuration_oauth_helper";
    "_configuration_logfile_helper"; "simulatedbchange"; "new_user";
    "edit_mailsettings"; "update_mailsettings"; "edit_scheduledtasks";
    "update_scheduledtasks"; "edit_user"; "reset_user_password";
    "view_logfile"; "send_logfile"; "download_log"; "download_debug";
    "get_update_status"; "get_updater_status"; "cancel_task";
    "_db_simulate_change"; "_db_configuration_update_helper";
    "_configuration_update_helper"; "_configuration_result";
    "_db_configuration_result"; "_handle_new_user"; "_delete_user";
    "_handle_edit_user" ].

(** Reading a global name inside a function of admin.py; no function
    below has a local of that name, and none of the names read is a
    builtin. *)
Definition load_global (name : string) : M World unit :=
  if bool_decide (name ∈ module_globals) then ret tt
  else raise NameError ("name '" +:+ name +:+ "' is not defined").

(** [int(to_save.get(key))]. *)
Definition int_of_form (env : Env) (to_save : gmap string string) (key : string)
    : M World Z :=
  match to_save !! key with
  | Some s => lift (py_int env s)
  | None => raise TypeError
      "int() argument must be a string, a bytes-like object or a real number, not 'NoneType'"
  end.

Definition set_int_field (key : string) (v : Z) (c : Config) : Config :=
  if String.eqb key "schedule_start_time" then
    mkConfig v (schedule_duration c) (schedule_generate_book_covers c)
      (schedule_generate_series_covers c) (schedule_metadata_backup c) (schedule_reconnect c)
  else if String.eqb key "schedule_duration" then
    mkConfig (schedule_start_time c) v (schedule_generate_book_covers c)
      (schedule_generate_series_covers c) (schedule_metadata_backup c) (schedule_reconnect c)
  else c.

Definition set_bool_field (key : string) (v : bool) (c : Config) : Config :=
  if String.eqb key "schedule_generate_book_covers" then
    mkConfig (schedule_start_time c) (schedule_duration c) v
      (schedule_generate_series_covers c) (schedule_metadata_backup c) (schedule_reconnect c)
  else if String.eqb key "schedule_generate_series_covers" then
    mkConfig (schedule_start_time c) (schedule_duration c) (schedule_generate_book_covers c)
      v (schedule_metadata_backup c) (schedule_reconnect c)
  else if String.eqb key "schedule_metadata_backup" then
    mkConfig (schedule_start_time c) (schedule_duration c) (schedule_generate_book_covers c)
      (schedule_generate_series_covers c) v (schedule_reconnect c)
  else if String.eqb key "schedule_reconnect" then
    mkConfig (schedule_start_time c) (schedule_duration c) (schedule_generate_book_covers c)
      (schedule_generate_series_covers c) (schedule_metadata_backup c) v
  else c.

(** Modelled from the spec: [CONFIG.set_from_dictionary(to_save, x, func)]
    of config_sql.py as [_config_int] calls it: when the form has the key,
    the converted value is stored in the settings field of that name. *)
Definition _config_int (env : Env) (to_save : gmap string string) (x : string)
    : M World unit :=
  match to_save !! x with
  | Some s =>
      let* v := lift (py_int env s) in
      modify (with_CONFIG (set_int_field x v))
  | None => ret tt
  end.

(** Modelled from the spec: [CONFIG.set_from_dictionary(to_save, x,
    lambda y: y == "on", False)] as [_config_checkbox] calls it: the flag
    is set exactly when the form carries "on" under that key. *)
Definition _config_checkbox (to_save : gmap string string) (x : string) : M World unit :=
  modify (with_CONFIG (set_bool_field x (bool_decide (to_save !! x = Some "on")))).

(** Modelled from the spec: [CONFIG.save()] of config_sql.py: the current
    settings are written, unless the settings database refuses. *)
Definition CONFIG_save (env : Env) : M World unit :=
  do lift (save_outcome env) then
  modify (fun w => with_saved (fun l => l ++ [CONFIG w]) w).

Definition log_exception (line : string) : M World unit :=
  modify (with_app_log (fun l => l ++ [line])).

(** [ub.session.rollback()] on the settings database; noted in the log. *)
Definition ub_session_rollback : M World unit :=
  modify (with_app_log (fun l => l ++ ["ub.session.rollback()"])).

(** What a view function returns: the rendered template. *)
Inductive Response := Rendered (template : string).

(** [edit_scheduledtasks()]: renders the settings page. *)
Definition edit_scheduledtasks : M World Response := ret (Rendered "schedule_edit.html").

(** [update_scheduledtasks()]; [to_save] is [request.form.to_dict()].  Of
    the global names the body reads, the two of its last call are looked up
    explicitly. *)
Definition update_scheduledtasks (env : Env) (to_save : gmap string string)
    : M World Response :=
  let error := false in
  let* start := int_of_form env to_save "schedule_start_time" in
  let* error :=
    if (0 <=? start) && (start <=? 23) then
      do _config_int env to_save "schedule_start_time" then ret error
    else
      do flash "Invalid start time for task specified" "error" then ret true in
  let* duration := int_of_form env to_save "schedule_duration" in
  let* error :=
    if (0 <? duration) && (duration <=? 60) then
      do _config_int env to_save "schedule_duration" then ret error
    else
      do flash "Invalid duration for task specified" "error" then ret true in
  do _config_checkbox to_save "schedule_generate_book_covers" then
  do _config_checkbox to_save "schedule_generate_series_covers" then
  do _config_checkbox to_save "schedule_metadata_backup" then
  do _config_checkbox to_save "schedule_reconnect" then
  do (if negb error then
        try_excepts
          (do CONFIG_save env then
           do flash "Scheduled tasks settings updated" "success" then
           do schedule.end_scheduled_tasks then
           do load_global "schedule" then
           do load_global "config" then
           let* reconnect := gets (fun w => schedule_reconnect (CONFIG w)) in
           schedule.register_scheduled_tasks env reconnect)
          [ ([IntegrityError], fun _ =>
               do ub_session_rollback then
               do log_exception
                    "An unknown error occurred while saving scheduled tasks settings" then
               flash "Oops! An unknown error occurred. Please try again later." "error");
            ([OperationalError], fun _ =>
               do ub_session_rollback then
               do log_exception "Settings DB is not Writeable" then
               flash "Settings DB is not Writeable" "error") ]
      else ret tt) then
  edit_scheduledtasks.

End admin.

(** ** calibre_web/schedule.py, continued: the startup tasks *)

Module startup.

(** [register_startup_tasks()]; [APP_MODE] is [constants.APP_MODE].  The
    [and] evaluates [should_task_be_running] only in development and test
    mode. *)
Definition register_startup_tasks (env : Env) (APP_MODE : string) : M World unit :=
  if scheduler_available env then
    let* start := gets (fun w => schedule_start_time (CONFIG w)) in
    let* duration := gets (fun w => schedule_duration (CONFIG w)) in
    let* idle_in_dev :=
      if String.eqb APP_MODE "development" || String.eqb APP_MODE "test" then
        let* running := schedule.should_task_be_running env start duration in
        ret (negb running)
      else ret false in
    if idle_in_dev then
      let* batch := schedule.get_scheduled_tasks false in
      services.schedule_tasks_immediately batch
    else
      services.schedule_tasks_immediately
        [mkScheduled MakeTaskDeleteTempFolder "delete temp" true]
  else ret tt.

(** The end of [create_app()] in app.py:
    [register_scheduled_tasks(CONFIG.schedule_reconnect)] and then
    [register_startup_tasks()]. *)
Definition create_app_registration (env : Env) (APP_MODE : string) : M World unit :=
  let* reconnect := gets (fun w => schedule_reconnect (CONFIG w)) in
  do schedule.register_scheduled_tasks env reconnect then
  register_startup_tasks env APP_MODE.

End startup.

(** ** calibre_web/admin.py, continued: the settings page and the server
    commands *)

Module settings_page.

Fixpoint range_from (start step : Z) (n : nat) : list Z :=
  match n with
  | O => []
  | S k => start :: range_from (start + step) step k
  end.

(** [range(start, stop, step)] for a positive step. *)
Definition py_range (start stop step : Z) : list Z :=
  if 0 <? step
  then range_from start step (Z.to_nat ((stop - start + step - 1) / step))
  else [].

(** Babel's labels: [format_time(datetime_time(hour=n), format="short")]
    and [format_timedelta(t, threshold=.97)]. *)
Record Labels := {
  format_time : Z -> string;
  format_timedelta : timedelta -> string
}.

Fixpoint collect {A B : Type} (g : A -> result B) (l : list A) : result (list B) :=
  match l with
  | [] => Ok []
  | x :: rest =>
      match g x with
      | Raise e => Raise e
      | Ok y => match collect g rest with
                | Raise e => Raise e
                | Ok ys => Ok (y :: ys)
                end
      end
  end.

(** The list [time_field] that [edit_scheduledtasks] builds. *)
Definition time_field (f : Labels) : list (Z * string) :=
  map (fun n => (n, format_time f n)) (py_range 0 24 1).

(** The list [duration_field] that [edit_scheduledtasks] builds. *)
Definition duration_field (f : Labels) : result (list (Z * string)) :=
  collect (fun n =>
             match timedelta_of (n / 60) (n mod 60) with
             | Ok t => Ok (n, format_timedelta f t)
             | Raise e => Raise e
             end)
          (py_range 5 65 5).

(** The values a user can pick on the page. *)
Definition offered_hours (f : Labels) : list Z := map fst (time_field f).
Definition offered_durations (f : Labels) : list Z :=
  match duration_field f with
  | Ok l => map fst l
  | Raise _ => []
  end.

End settings_page.

Module server_commands.

(** What a view hands back: the dict given to [json.dumps] (its "text"
    entry, if any) with the HTTP status, or the status of an [abort]. *)
Inductive Reply :=
  | Json (text : option string) (status : Z)
  | Aborted (status : Z).

Definition note (line : string) : M World unit :=
  modify (with_app_log (fun l => l ++ [line])).

(** [shutdown()]; [body] is [request.get_json()], a JSON object or
    [None].  JSON numbers with a fraction, arrays and objects as the value
    of "parameter" are not represented. *)
Definition shutdown (body : option (gmap string value)) : M World Reply :=
  let* task :=
    match body with
    | Some d => ret (default (VInt (-1)) (d !! "parameter"))
    | None => raise AttributeError "'NoneType' object has no attribute 'get'"
    end in
  if py_eq task (VInt 0) || py_eq task (VInt 1) then
    do note "calibre_db.dispose()" then
    do note "ub.dispose()" then
    let text := if py_eq task (VInt 0)
                then "Server restarted, please reload page."
                else "Performing Server shutdown, please close window." in
    do note (if py_eq task (VInt 0)
             then "web_server.stop(True)" else "web_server.stop(False)") then
    ret (Json (Some text) 200)
  else if py_eq task (VInt 2) then
    do note "reconnecting to calibre database" then
    do admin.load_global "calibre_db" then
    do admin.load_global "config" then
    do admin.load_global "ub" then
    do note "calibre_db.reconnect_db()" then
    ret (Json (Some "Success! Database Reconnected") 200)
  else ret (Json (Some "Unknown command") 400).

(** [reconnect()]; [reconnect_enable] is [cli_param.reconnect_enable]. *)
Definition reconnect (reconnect_enable : bool) : M World Reply :=
  if reconnect_enable then
    do admin.load_global "calibre_db" then
    do admin.load_global "config" then
    do admin.load_global "ub" then
    do note "calibre_db.reconnect_db()" then
    ret (Json None 200)
  else
    do note "'/reconnect' was accessed but is not enabled" then
    ret (Aborted 404).

End server_commands.

(** ** Observations used to state the properties *)

(** How the call [file_helper.del_temp_dir()] ends; it never touches the
    state it runs in. *)
Definition del_temp_dir_outcome (fs : file_helper.FileSystem) : result unit :=
  snd (file_helper.del_temp_dir fs tt).

(** What the end-of-window sweep does to one entry it picks. *)
Definition sweep_entry (e : QueuedTask) : QueuedTask :=
  if schedule.swept e then set_task (services.cancel (task e)) e else e.

Definition entry_id (e : QueuedTask) : Z := task_id (task e).

(** Cancellation has been requested of a task: it is Cancelled, or carries
    the cooperative signal. *)
Definition cancellation_requested (t : CalibreTask) : Prop :=
  stat t = STAT_CANCELLED \/ cancel_signal t = true.

(** The batch [get_scheduled_tasks(reconnect)] returns in a given state. *)
Definition scheduled_batch (reconnect : bool) (w : World) : list ScheduledTask :=
  match snd (schedule.get_scheduled_tasks reconnect w) with
  | Ok batch => batch
  | Raise _ => []
  end.

(** The maintenance window as the specification words it: the closed
    interval from the start hour of the running day to start hour plus
    duration. *)
Definition inside_window_closed (start duration : Z) (now : datetime) : bool :=
  (midnight now + start * us_per_hour <=? micros now)
  && (micros now <=? midnight now + start * us_per_hour + duration * us_per_minute).

(** The same window without its two end points, on the day of the clock
    reading [today]. *)
Definition strictly_inside_window (start duration : Z) (today now : datetime) : bool :=
  (midnight today + start * us_per_hour <? micros now)
  && (micros now <? midnight today + start * us_per_hour + duration * us_per_minute).

(** The settings after the four checkbox fields were taken from the form. *)
Definition with_checkboxes (to_save : gmap string string) (c : Config) : Config :=
  admin.set_bool_field "schedule_reconnect"
    (bool_decide (to_save !! "schedule_reconnect" = Some "on"))
    (admin.set_bool_field "schedule_metadata_backup"
       (bool_decide (to_save !! "schedule_metadata_backup" = Some "on"))
       (admin.set_bool_field "schedule_generate_series_covers"
          (bool_decide (to_save !! "schedule_generate_series_covers" = Some "on"))
          (admin.set_bool_field "schedule_generate_book_covers"
             (bool_decide (to_save !! "schedule_generate_book_covers" = Some "on"))
             c))).

(** The two numbers of the form, as [int] reads them. *)
Definition submitted (env : Env) (to_save : gmap string string) (key : string)
    : option Z :=
  match to_save !! key with
  | Some s => match py_int env s with Ok v => Some v | Raise _ => None end
  | None => None
  end.

(** The delete-temp-folder element of a batch. *)
Definition is_delete_temp (t : ScheduledTask) : bool :=
  bool_decide (factory t = MakeTaskDeleteTempFolder).

(** How many delete-temp-folder tasks a list of submissions holds. *)
Definition delete_temp_count (l : list ScheduledTask) : nat :=
  length (List.filter is_delete_temp l).

(** An outcome that is a normal return or an exception of class
    [Exception], the ones an [except Exception] clause takes. *)
Definition ordinary {A} (r : result A) : Prop :=
  match r with
  | Ok _ => True
  | Raise e => isinstance e Exception = true
  end.

(** The first exception in a sequence of calls, if any. *)
Fixpoint first_failure (rs : list (result unit)) : result unit :=
  match rs with
  | [] => Ok tt
  | Ok _ :: rest => first_failure rest
  | Raise e :: _ => Raise e
  end.

(** How the [try] body of [set_all_books_dirty] ends: the query, the
    marking of each book in turn, the commit. *)
Definition mark_all_outcome (db : metadata_backup.Collaborators) : result unit :=
  match metadata_backup.query_all_books db with
  | Raise e => Raise e
  | Ok books =>
      match first_failure
              (map (fun b => metadata_backup.set_metadata_dirty db
                               (metadata_backup.book_id b)) books) with
      | Raise e => Raise e
      | Ok _ => metadata_backup.commit_all db
      end
  end.

(** How [open_metadata(book, custom_columns)] ends; it leaves the task
    and its log as they are. *)
Definition open_metadata_outcome (db : metadata_backup.Collaborators)
    (bk : metadata_backup.Book) (custom_columns : list string) : result unit :=
  snd (metadata_backup.open_metadata db bk custom_columns
         (metadata_backup.start (CalibreTask_init TaskBackupMetadata 0 ""))).

(** How the loop body of [backup_metadata] ends for one dirtied row. *)
Definition book_step_outcome (db : metadata_backup.Collaborators)
    (custom_columns : list string) (b : Z) : result unit :=
  match metadata_backup.query_book db b with
  | Raise e => Raise e
  | Ok bk =>
      match metadata_backup.delete_dirtied db b with
      | Raise e => Raise e
      | Ok _ =>
          match metadata_backup.commit_book db b with
          | Raise e => Raise e
          | Ok _ =>
              match bk with
              | Some book => open_metadata_outcome db book custom_columns
              | None => Ok tt
              end
          end
      end
  end.

(** What the loop records for rows that are all handled without error:
    one commit per row, and a log line for a row whose book is gone. *)
Definition handled_events (db : metadata_backup.Collaborators) (rows : list Z)
    : list metadata_backup.event :=
  flat_map (fun b =>
    metadata_backup.Commit ::
    match metadata_backup.query_book db b with
    | Ok None =>
        [metadata_backup.LogError ("Book " +:+ pretty b +:+ " not found in database")]
    | _ => []
    end) rows.

(** The value of the local [book] after the loop has handled [rows]. *)
Definition book_after (db : metadata_backup.Collaborators) (rows : list Z)
    (before : metadata_backup.local (option metadata_backup.Book))
    : metadata_backup.local (option metadata_backup.Book) :=
  match last rows with
  | Some b => match metadata_backup.query_book db b with
              | Ok bk => metadata_backup.Bound bk
              | Raise _ => before
              end
  | None => before
  end.

Definition commit_count (evs : list metadata_backup.event) : nat :=
  length (List.filter (fun ev => bool_decide (ev = metadata_backup.Commit)) evs).

(** Whether the dirtied row of [b] is deleted and the deletion committed. *)
Definition row_committed (db : metadata_backup.Collaborators) (b : Z) : bool :=
  is_ok (metadata_backup.query_book db b)
  && is_ok (metadata_backup.delete_dirtied db b)
  && is_ok (metadata_backup.commit_book db b).

(** The text [b] that the handler of [backup_metadata] puts in its log
    line, for a bound [book]. *)
Definition book_text (bk : option metadata_backup.Book) : string :=
  match bk with
  | Some b => pretty (metadata_backup.book_id b)
  | None => "NaN"
  end.

(** The live settings after the two numbers of the form were looked at:
    each is taken only if it is in its range. *)
Definition with_numbers (v d : Z) (c : Config) : Config :=
  let c1 := if (0 <=? v) && (v <=? 23)
            then admin.set_int_field "schedule_start_time" v c else c in
  if (0 <? d) && (d <=? 60)
  then admin.set_int_field "schedule_duration" d c1 else c1.

(** The four feature flags of the settings. *)
Definition flags (c : Config) : bool * bool * bool * bool :=
  (schedule_generate_book_covers c, schedule_generate_series_covers c,
   schedule_metadata_backup c, schedule_reconnect c).

(** The [try] statement of [update_scheduledtasks]: save, report, sweep,
    re-register, with its two [except] clauses. *)
Definition save_block (env : Env) : M World unit :=
  try_excepts
    (do admin.CONFIG_save env then
     do flash "Scheduled tasks settings updated" "success" then
     do schedule.end_scheduled_tasks then
     do admin.load_global "schedule" then
     do admin.load_global "config" then
     let* reconnect := gets (fun w => schedule_reconnect (CONFIG w)) in
     schedule.register_scheduled_tasks env reconnect)
    [ ([IntegrityError], fun _ =>
         do admin.ub_session_rollback then
         do admin.log_exception
              "An unknown error occurred while saving scheduled tasks settings" then
         flash "Oops! An unknown error occurred. Please try again later." "error");
      ([OperationalError], fun _ =>
         do admin.ub_session_rollback then
         do admin.log_exception "Settings DB is not Writeable" then
         flash "Settings DB is not Writeable" "error") ].

(** The state in which the handler reaches its [if not error]: the
    numbers in range and the check boxes are in the live settings, the
    error messages are flashed. *)
Definition after_form (to_save : gmap string string) (v d : Z) (w : World) : World :=
  with_CONFIG (fun c => with_checkboxes to_save (with_numbers v d c))
    (with_flashes
       (fun l =>
          let l1 := if (0 <=? v) && (v <=? 23) then l
                    else l ++ [("Invalid start time for task specified", "error")] in
          if (0 <? d) && (d <=? 60) then l1
          else l1 ++ [("Invalid duration for task specified", "error")])
       w).

(** The end of the window that opens at hour [start] of the day of [d] and
    lasts [duration] minutes is a [datetime], with a minute to spare
    below [datetime.max]: neither [calclulate_end_time] nor
    [should_task_be_running] overflows at the clock reading [d]. *)
Definition window_end_in_range (start duration : Z) (d : datetime) : Prop :=
  valid d
  /\ 0 <= midnight d + start * us_per_hour + duration * us_per_minute
  /\ midnight d + start * us_per_hour + duration * us_per_minute + us_per_minute
     <= max_micros.





(** ** Sample surroundings, used to run the definitions *)

Module samples.

(** A temp directory that exists but may not be removed. *)
Definition fs_permission_denied : file_helper.FileSystem :=
  {| file_helper.gettempdir := Ok "/tmp";
     file_helper.rmtree := fun p =>
       Raise (Exn PermissionError ("[Errno 13] Permission denied: '" +:+ p +:+ "'")) |}.

(** A metadata database that is locked when the task starts. *)
Definition db_locked : metadata_backup.Collaborators :=
  {| metadata_backup.query_dirtied := Raise (Exn OperationalError "database is locked");
     metadata_backup.query_custom_columns := Ok [];
     metadata_backup.query_book := fun b => Ok None;
     metadata_backup.delete_dirtied := fun _ => Ok tt;
     metadata_backup.commit_book := fun _ => Ok tt;
     metadata_backup.query_all_books := Ok [];
     metadata_backup.set_metadata_dirty := fun _ => Ok tt;
     metadata_backup.commit_all := Ok tt;
     metadata_backup.rollback := Ok tt;
     metadata_backup.close := Ok tt;
     metadata_backup.create_new_metadata_backup := fun _ _ => Ok "<package/>";
     metadata_backup.config_use_google_drive := false;
     metadata_backup.is_gdrive_ready := Ok false;
     metadata_backup.uploadFileToEbooksFolder := fun _ _ => Ok tt;
     metadata_backup.get_book_path := Ok "/books";
     metadata_backup.write_file := fun _ _ => Ok tt |}.

(** A scheduled metadata-backup task that the pool has started. *)
Definition backup_task : CalibreTask :=
  set_stat STAT_STARTED (CalibreTask_init TaskBackupMetadata 7 "Backing up Metadata").

Definition temp_task : CalibreTask :=
  set_stat STAT_STARTED (CalibreTask_init TaskDeleteTempFolder 3 "Delete temp folder contents").

(** A pool with one task of each kind the sweep distinguishes. *)
Definition thumbnails_task : CalibreTask :=
  mkTask (TaskOther (VStr "Cover Thumbnails") (VBool true)) 11 "generate book covers"
         (ProgressInt 0) STAT_WAITING true None None None false None.

Definition scheduled_temp_task : CalibreTask :=
  mkTask TaskDeleteTempFolder 12 "Delete temp folder contents"
         (ProgressInt 0) STAT_STARTED true None None None false None.

Definition scheduled_backup_task : CalibreTask :=
  mkTask TaskBackupMetadata 13 "Backing up Metadata"
         (ProgressInt 0) STAT_STARTED true None None None false None.

Definition user_convert_task : CalibreTask :=
  mkTask (TaskOther (VStr "Convert") (VBool true)) 14 "EPUB -> MOBI"
         (ProgressInt 0) STAT_STARTED false None None None false None.

Definition pool : list QueuedTask :=
  [ mkQueued 1 None (DateTime 0) thumbnails_task false;
    mkQueued 2 None (DateTime 0) scheduled_temp_task true;
    mkQueued 3 None (DateTime 0) scheduled_backup_task false;
    mkQueued 4 (Some "alice") (DateTime 0) user_convert_task false ].

Definition settings : Config := mkConfig 3 10 true false true true.

Definition world : World := mkWorld settings [] [] pool [] [] [] 0 [].

(** 2021-08-02 03:00:00.000000, the very start of a 03:00 window. *)
Definition three_o_clock : datetime := DateTime (737999 * us_per_day + 3 * us_per_hour).

(** 03:04:30 the same day. *)
Definition inside_the_window : datetime :=
  DateTime (737999 * us_per_day + 3 * us_per_hour + 4 * us_per_minute + 30 * us_per_second).

Definition int_of_digits (s : string) : result Z :=
  match String.length s with
  | O => Raise (Exn ValueError "invalid literal for int() with base 10: ''")
  | _ =>
      if forallb (fun c => (48 <=? Z.of_nat (Ascii.nat_of_ascii c))
                           && (Z.of_nat (Ascii.nat_of_ascii c) <=? 57))
                 (String.list_ascii_of_string s)
      then Ok (fold_left (fun acc c => 10 * acc + (Z.of_nat (Ascii.nat_of_ascii c) - 48))
                         (String.list_ascii_of_string s) 0)
      else Raise (Exn ValueError ("invalid literal for int() with base 10: '" +:+ s +:+ "'"))
  end.

(** Surroundings in which every clock reading is [t]. *)
Definition env_at (t : datetime) : Env := mkEnv (fun _ => t) true (Ok tt) int_of_digits.

(** The settings form with a new start hour and duration. *)
Definition form : gmap string string :=
  <["schedule_start_time" := "5"]> (<["schedule_duration" := "30"]>
    (<["schedule_metadata_backup" := "on"]> ∅)).

(** A form whose start hour is out of range. *)
Definition bad_form : gmap string string :=
  <["schedule_start_time" := "24"]> (<["schedule_duration" := "30"]> ∅).

(** The triggers of an earlier registration under the 03:00 settings. *)
Definition old_jobs : list Job :=
  [ mkJob "delete temp" (mkCron 3 None)
      (SubmitTask (mkScheduled MakeTaskDeleteTempFolder "delete temp" true));
    mkJob "end scheduled task" (mkCron 3 (Some 10)) CallEndScheduledTasks ].

Definition registered_world : World := mkWorld settings [] [] pool [] old_jobs [] 3 [].

(** A book whose row cannot be deleted from the dirtied table. *)
Definition db_delete_fails : metadata_backup.Collaborators :=
  {| metadata_backup.query_dirtied := Ok [42];
     metadata_backup.query_custom_columns := Ok [];
     metadata_backup.query_book := fun b => Ok (Some (metadata_backup.mkBook b "Author/Title"));
     metadata_backup.delete_dirtied := fun _ => Raise (Exn OperationalError "disk I/O error");
     metadata_backup.commit_book := fun _ => Ok tt;
     metadata_backup.query_all_books := Ok [];
     metadata_backup.set_metadata_dirty := fun _ => Ok tt;
     metadata_backup.commit_all := Ok tt;
     metadata_backup.rollback := Ok tt;
     metadata_backup.close := Ok tt;
     metadata_backup.create_new_metadata_backup := fun _ _ => Ok "<package/>";
     metadata_backup.config_use_google_drive := false;
     metadata_backup.is_gdrive_ready := Ok false;
     metadata_backup.uploadFileToEbooksFolder := fun _ _ => Ok tt;
     metadata_backup.get_book_path := Ok "/books";
     metadata_backup.write_file := fun _ _ => Ok tt |}.

(** Three dirtied books, of which the second has no row in Books, and
    collaborators that all succeed. *)
Definition db_healthy : metadata_backup.Collaborators :=
  {| metadata_backup.query_dirtied := Ok [1; 2; 3];
     metadata_backup.query_custom_columns := Ok ["genre"];
     metadata_backup.query_book := fun b =>
       if b =? 2 then Ok None else Ok (Some (metadata_backup.mkBook b "Author/Title"));
     metadata_backup.delete_dirtied := fun _ => Ok tt;
     metadata_backup.commit_book := fun _ => Ok tt;
     metadata_backup.query_all_books := Ok [];
     metadata_backup.set_metadata_dirty := fun _ => Ok tt;
     metadata_backup.commit_all := Ok tt;
     metadata_backup.rollback := Ok tt;
     metadata_backup.close := Ok tt;
     metadata_backup.create_new_metadata_backup := fun _ _ => Ok "<package/>";
     metadata_backup.config_use_google_drive := false;
     metadata_backup.is_gdrive_ready := Ok false;
     metadata_backup.uploadFileToEbooksFolder := fun _ _ => Ok tt;
     metadata_backup.get_book_path := Ok "/books";
     metadata_backup.write_file := fun _ _ => Ok tt |}.

(** A report in plain English at a fixed request time. *)
Definition rendering : tasks_status.Rendering :=
  {| tasks_status.format_datetime := fun d => pretty (micros d);
     tasks_status.format_unit_day := fun n => pretty n +:+ " days";
     tasks_status.gettext := fun s => s;
     tasks_status.escape := fun u => default "None" u;
     tasks_status.percent := fun p =>
       match p with
       | ProgressInt n => 100 * n
       | ProgressScaled count i => 100 * i / count
       end;
     tasks_status.str_of := fun v =>
       match v with VStr s => s | _ => "?" end;
     tasks_status.request_time := inside_the_window |}.

(** Two books to queue, of which the second cannot be marked. *)
Definition db_mark_fails : metadata_backup.Collaborators :=
  {| metadata_backup.query_dirtied := Ok [];
     metadata_backup.query_custom_columns := Ok [];
     metadata_backup.query_book := fun b => Ok None;
     metadata_backup.delete_dirtied := fun _ => Ok tt;
     metadata_backup.commit_book := fun _ => Ok tt;
     metadata_backup.query_all_books :=
       Ok [metadata_backup.mkBook 1 "A/One"; metadata_backup.mkBook 2 "A/Two"];
     metadata_backup.set_metadata_dirty := fun b =>
       if b =? 2 then Raise (Exn OperationalError "database is locked") else Ok tt;
     metadata_backup.commit_all := Ok tt;
     metadata_backup.rollback := Ok tt;
     metadata_backup.close := Ok tt;
     metadata_backup.create_new_metadata_backup := fun _ _ => Ok "<package/>";
     metadata_backup.config_use_google_drive := false;
     metadata_backup.is_gdrive_ready := Ok false;
     metadata_backup.uploadFileToEbooksFolder := fun _ _ => Ok tt;
     metadata_backup.get_book_path := Ok "/books";
     metadata_backup.write_file := fun _ _ => Ok tt |}.

(** Two dirtied books; the folder of the second is read-only. *)
Definition db_write_fails : metadata_backup.Collaborators :=
  {| metadata_backup.query_dirtied := Ok [1; 2];
     metadata_backup.query_custom_columns := Ok [];
     metadata_backup.query_book := fun b =>
       Ok (Some (metadata_backup.mkBook b (if b =? 2 then "A/Two" else "A/One")));
     metadata_backup.delete_dirtied := fun _ => Ok tt;
     metadata_backup.commit_book := fun _ => Ok tt;
     metadata_backup.query_all_books := Ok [];
     metadata_backup.set_metadata_dirty := fun _ => Ok tt;
     metadata_backup.commit_all := Ok tt;
     metadata_backup.rollback := Ok tt;
     metadata_backup.close := Ok tt;
     metadata_backup.create_new_metadata_backup := fun _ _ => Ok "<package/>";
     metadata_backup.config_use_google_drive := false;
     metadata_backup.is_gdrive_ready := Ok false;
     metadata_backup.uploadFileToEbooksFolder := fun _ _ => Ok tt;
     metadata_backup.get_book_path := Ok "/books";
     metadata_backup.write_file := fun path _ =>
       if String.eqb path "/books/A/Two/metadata.opf"
       then Raise (Exn PermissionError "[Errno 13] Permission denied")
       else Ok tt |}.

(** Surroundings whose settings database cannot be written. *)
Definition env_save_fails : Env :=
  mkEnv (fun _ => three_o_clock) true
        (Raise (Exn OperationalError "attempt to write a readonly database"))
        int_of_digits.

(** A form that lacks the duration. *)
Definition short_form : gmap string string :=
  <["schedule_start_time" := "5"]> (<["schedule_reconnect" := "on"]> ∅).

Definition labels : settings_page.Labels :=
  {| settings_page.format_time := fun n => pretty n +:+ ":00";
     settings_page.format_timedelta := fun t =>
       pretty (delta_micros t / us_per_minute) +:+ " minutes" |}.

(** A temp directory nested so deep that [shutil.rmtree] runs out of
    stack: a [RecursionError], kept under its base class [RuntimeError]. *)
Definition fs_too_deep : file_helper.FileSystem :=
  {| file_helper.gettempdir := Ok "/tmp";
     file_helper.rmtree := fun _ =>
       Raise (Exn RuntimeError "maximum recursion depth exceeded") |}.


End samples.

(** * Properties *)

(** ** Task variants: [is_cancellable] and construction *)

(** C7.  Reading [is_cancellable] gives the boolean False on a
    delete-temp-folder task and True on a metadata-backup task, but on an
    upload-marker task it gives a bound method: the class binds the name
    with a plain [def], so the value read is not a bool, is not equal to
    False and is true in a condition; assigning to the name is refused
    only where it is a property. *)
Theorem is_cancellable_attribute_by_variant :
  getattr TaskDeleteTempFolder "is_cancellable" = Ok (VBool false)
  /\ getattr TaskBackupMetadata "is_cancellable" = Ok (VBool true)
  /\ getattr TaskUpload "is_cancellable"
     = Ok (VBoundMethod "TaskUpload" "is_cancellable")
  /\ (forall new_id msg,
        let t := CalibreTask_init TaskUpload new_id msg in
        is_cancellable t <> VBool false
        /\ py_eq (is_cancellable t) (VBool false) = false
        /\ truthy (is_cancellable t) = true)
  /\ call_member TaskUpload "is_cancellable" = Ok (VBool false)
  /\ is_ok (setattr_allowed TaskDeleteTempFolder "is_cancellable") = false
  /\ is_ok (setattr_allowed TaskBackupMetadata "is_cancellable") = false
  /\ is_ok (setattr_allowed TaskUpload "is_cancellable") = true.
Proof.
  repeat split; try reflexivity.
  cbn. discriminate.
Qed.

(** C8.  Constructing an upload-marker task raises [AttributeError] for
    every message, title, id and clock reading: the assignment
    [super().stat = STAT_FINISH_SUCCESS] is made on the [super()] proxy.
    No instance results, and the object under construction is still
    Waiting with progress 0 when the exception leaves [__init__]. *)
Theorem TaskUpload_constructor_raises (new_id : Z) (now : datetime)
    (task_message book_title : string) :
  upload.TaskUpload_new new_id now task_message book_title
  = Raise (Exn AttributeError "'super' object has no attribute 'stat'")
  /\ (let self := fst (upload.__init__ now book_title
                         (CalibreTask_init TaskUpload new_id task_message)) in
      stat self = STAT_WAITING
      /\ progress self = ProgressInt 0
      /\ start_time self = Some now /\ end_time self = Some now).
Proof. repeat split. Qed.

(** ** The delete-temp-folder task *)

Lemma del_temp_dir_run {S} (fs : file_helper.FileSystem) (s : S) :
  file_helper.del_temp_dir fs s = (s, del_temp_dir_outcome fs).
Proof.
  unfold del_temp_dir_outcome, file_helper.del_temp_dir, bind, lift.
  destruct (file_helper.gettempdir fs); reflexivity.
Qed.

Lemma isinstance_FileNotFoundError_OSError (e : exn) :
  isinstance e FileNotFoundError = true -> isinstance e OSError = true.
Proof. destruct e as [c txt]; destruct c; vm_compute; congruence. Qed.

(** C9.  Whenever deleting the temp folder succeeds or fails with an
    [OSError] (the class of [FileNotFoundError] and [PermissionError]),
    [run] returns normally and the task ends in the success state, never in
    Fail; a [FileNotFoundError] leaves no trace and any other [OSError] is
    only written to the log. *)
Theorem tempFolder_run_always_succeeds (fs : file_helper.FileSystem)
    (r : tempFolder.TaskRun)
    (Hos : match del_temp_dir_outcome fs with
           | Ok _ => True
           | Raise e => isinstance e OSError = true
           end) :
  snd (tempFolder.run fs r) = Ok tt
  /\ tempFolder.self (fst (tempFolder.run fs r)) = _handleSuccess (tempFolder.self r)
  /\ stat (tempFolder.self (fst (tempFolder.run fs r))) = STAT_FINISH_SUCCESS
  /\ stat (tempFolder.self (fst (tempFolder.run fs r))) <> STAT_FAIL
  /\ tempFolder.log_lines (fst (tempFolder.run fs r))
     = tempFolder.log_lines r
       ++ match del_temp_dir_outcome fs with
          | Ok _ => []
          | Raise e =>
              if isinstance e FileNotFoundError then []
              else ["Error deleting temp folder: " +:+ exn_text e]
          end.
Proof.
  unfold tempFolder.run, bind, try_excepts.
  rewrite del_temp_dir_run.
  destruct (del_temp_dir_outcome fs) as [[]|e].
  - cbn. rewrite app_nil_r. repeat split; discriminate.
  - cbn [dispatch matches existsb].
    destruct (isinstance e FileNotFoundError) eqn:Hfnf;
      cbn [orb dispatch matches existsb].
    + cbn. rewrite app_nil_r. repeat split; discriminate.
    + rewrite Hos, orb_true_r. cbn. repeat split; discriminate.
Qed.

Lemma tempFolder_run_always_succeeds_witness :
  snd (tempFolder.run samples.fs_permission_denied (tempFolder.mkRun samples.temp_task []))
  = Ok tt
  /\ tempFolder.log_lines
       (fst (tempFolder.run samples.fs_permission_denied
               (tempFolder.mkRun samples.temp_task [])))
     = ["Error deleting temp folder: [Errno 13] Permission denied: '/tmp/calibre-web'"].
Proof.
  pose proof (tempFolder_run_always_succeeds samples.fs_permission_denied
                (tempFolder.mkRun samples.temp_task []) eq_refl) as H.
  split; [exact (proj1 H) | exact (proj2 (proj2 (proj2 (proj2 H))))].
Defined.

(** C9, as worded.  When [shutil.rmtree] fails with an exception that is
    no [OSError], here the [RecursionError] of a tree nested too deep,
    no [except] clause of [run] matches: the exception leaves [run],
    [_handleSuccess] is not reached and the task is still Started. *)
Lemma tempFolder_run_lets_other_errors_through :
  isinstance (Exn RuntimeError "maximum recursion depth exceeded") OSError = false
  /\ snd (tempFolder.run samples.fs_too_deep (tempFolder.mkRun samples.temp_task []))
     = Raise (Exn RuntimeError "maximum recursion depth exceeded")
  /\ tempFolder.self
       (fst (tempFolder.run samples.fs_too_deep (tempFolder.mkRun samples.temp_task [])))
     = samples.temp_task
  /\ stat (tempFolder.self
             (fst (tempFolder.run samples.fs_too_deep
                     (tempFolder.mkRun samples.temp_task []))))
     = STAT_STARTED.
Proof. vm_compute. repeat split. Qed.

(** ** The metadata-backup task *)

(** C5.  When the first database query of [backup_metadata] raises, the
    handler's own first line reads the local [book] before any assignment:
    [UnboundLocalError] leaves [run], and neither [_handleError] nor the
    session's rollback or close has happened; the task is not marked
    failed. *)
Theorem backup_metadata_initial_failure_escapes
    (db : metadata_backup.Collaborators) (t : CalibreTask) (e : exn)
    (Hquery : metadata_backup.query_dirtied db = Raise e)
    (Hexc : isinstance e Exception = true) :
  metadata_backup.run false db (metadata_backup.start t)
  = (metadata_backup.start t,
     Raise (Exn UnboundLocalError
       "cannot access local variable 'book' where it is not associated with a value")).
Proof.
  unfold metadata_backup.run, metadata_backup.backup_metadata,
    try_except, try_excepts, bind, lift.
  rewrite Hquery. cbn [dispatch matches existsb]. rewrite Hexc. reflexivity.
Qed.

Lemma backup_metadata_initial_failure_escapes_witness :
  let out := metadata_backup.run false samples.db_locked
               (metadata_backup.start samples.backup_task) in
  is_ok (snd out) = false
  /\ metadata_backup.events (fst out) = []
  /\ stat (metadata_backup.self (fst out)) = STAT_STARTED.
Proof.
  cbv zeta.
  rewrite (backup_metadata_initial_failure_escapes samples.db_locked
             samples.backup_task (Exn OperationalError "database is locked")
             eq_refl eq_refl).
  repeat split.
Defined.

(** ** Status reporting *)

Lemma shown_iff (cu : tasks_status.User) (e : QueuedTask) :
  tasks_status.shown cu e = true
  <-> user e = Some (tasks_status.user_name cu) \/ tasks_status.role_admin cu = true.
Proof.
  unfold tasks_status.shown. rewrite orb_true_iff, bool_decide_eq_true. reflexivity.
Qed.

Lemma render_task_status_filter (r : tasks_status.Rendering) (cu : tasks_status.User)
    (tasklist : list QueuedTask) :
  tasks_status.render_task_status r cu tasklist
  = map (tasks_status.render_entry r) (List.filter (tasks_status.shown cu) tasklist).
Proof.
  induction tasklist as [|e rest IH]; [reflexivity|].
  cbn [tasks_status.render_task_status List.filter].
  destruct (tasks_status.shown cu e); cbn [map]; rewrite IH; reflexivity.
Qed.

(** C2.  [render_task_status] renders, in order, exactly the entries whose
    owner is the requesting user's name or, for an admin, every entry: a
    record is produced for an entry if and only if that test holds.  So
    every record in a non-admin's result comes from an entry that user
    owns, never from a task of someone else or of the system, and an
    admin's result has a record for every entry of the list. *)
Theorem render_task_status_shows_own_or_all (r : tasks_status.Rendering)
    (cu : tasks_status.User) (tasklist : list QueuedTask) :
  tasks_status.render_task_status r cu tasklist
  = map (tasks_status.render_entry r) (List.filter (tasks_status.shown cu) tasklist)
  /\ (forall e, In e (List.filter (tasks_status.shown cu) tasklist)
                <-> In e tasklist
                    /\ (user e = Some (tasks_status.user_name cu)
                        \/ tasks_status.role_admin cu = true))
  /\ (tasks_status.role_admin cu = false ->
      forall rec, In rec (tasks_status.render_task_status r cu tasklist) ->
        exists e, In e tasklist
                  /\ user e = Some (tasks_status.user_name cu)
                  /\ rec = tasks_status.render_entry r e)
  /\ (tasks_status.role_admin cu = true ->
      tasks_status.render_task_status r cu tasklist
      = map (tasks_status.render_entry r) tasklist).
Proof.
  split; [apply render_task_status_filter|].
  split.
  { intros e. rewrite filter_In, shown_iff. reflexivity. }
  split.
  - intros Hna rec Hin. rewrite render_task_status_filter in Hin.
    apply in_map_iff in Hin as (e & <- & He).
    apply filter_In in He as [He Hs]. apply shown_iff in Hs as [Hs|Hs].
    + exists e. auto.
    + congruence.
  - intros Ha. rewrite render_task_status_filter. f_equal.
    induction tasklist as [|e rest IH]; [reflexivity|]. cbn [List.filter].
    replace (tasks_status.shown cu e) with true.
    + now rewrite IH.
    + symmetry. apply shown_iff. auto.
Qed.

(** ** The end-of-window sweep *)

Lemma for_each_app {S A} (xs ys : list A) (body : A -> M S unit) (s : S) :
  for_each (xs ++ ys) body s
  = match for_each xs body s with
    | (s', Ok _) => for_each ys body s'
    | (s', Raise e) => (s', Raise e)
    end.
Proof.
  revert s. induction xs as [|x xs IH]; intros s; cbn [for_each app].
  - reflexivity.
  - unfold bind. destruct (body x s) as [s' [[]|e]]; [apply IH | reflexivity].
Qed.

Lemma entry_id_sweep_entry (e : QueuedTask) : entry_id (sweep_entry e) = entry_id e.
Proof.
  unfold sweep_entry, entry_id, services.cancel.
  destruct (schedule.swept e); [|reflexivity].
  destruct (truthy (is_cancellable (task e))); [|reflexivity].
  destruct (stat (task e)); reflexivity.
Qed.

(** [end_task] on an id changes the entry that carries it and no other. *)
Lemma end_task_map_other (id : Z) (l : list QueuedTask) :
  id ∉ map entry_id l ->
  map (fun e => if task_id (task e) =? id
                then set_task (services.cancel (task e)) e else e) l = l.
Proof.
  induction l as [|e l IH]; intros Hn; [reflexivity|].
  cbn [map] in *. apply not_elem_of_cons in Hn as [Hne Hn].
  rewrite IH by assumption.
  destruct (Z.eqb_spec (task_id (task e)) id) as [Heq|_]; [|reflexivity].
  exfalso. apply Hne. symmetry. exact Heq.
Qed.

Lemma set_task_same (e : QueuedTask) : set_task (task e) e = e.
Proof. destruct e; reflexivity. Qed.

(** The loop from position [length pre] on: the entries before are
    already swept, those from there on are as the pool had them. *)
Lemma sweep_loop (suf pre : list QueuedTask) (w : World) :
  tasks w = pre ++ suf ->
  NoDup (map entry_id (pre ++ suf)) ->
  for_each (seq (length pre) (length suf))
    (fun i =>
       let* entry := gets (fun w => tasks w !! i) in
       match entry with
       | Some e => if schedule.swept e then services.end_task (task_id (task e)) else ret tt
       | None => ret tt
       end) w
  = (with_tasks (fun _ => pre ++ map sweep_entry suf)
       (with_end_requests
          (fun l => l ++ map entry_id (List.filter schedule.swept suf)) w),
     Ok tt).
Proof.
  revert pre w. induction suf as [|e suf IH]; intros pre w Hw Hnd.
  - rewrite app_nil_r in Hw, Hnd. destruct w; cbn in *. subst.
    unfold ret, with_tasks, with_end_requests. cbn. rewrite !app_nil_r. reflexivity.
  - cbn [length seq for_each]. unfold bind at 1. unfold bind at 1.
    unfold gets at 1. rewrite Hw.
    rewrite (list_lookup_middle pre suf e (length pre) eq_refl).
    assert (Hnd' : NoDup (map entry_id ((pre ++ [sweep_entry e]) ++ suf))).
    { rewrite <- app_assoc. cbn [app]. rewrite map_app in *. cbn [map] in *.
      rewrite entry_id_sweep_entry. exact Hnd. }
    assert (Hlen : S (length pre) = length (pre ++ [sweep_entry e])).
    { rewrite length_app. cbn. lia. }
    rewrite Hlen.
    rewrite map_app in Hnd. cbn [map] in Hnd.
    apply NoDup_app in Hnd as (Hpre & Hdisj & Hsuf).
    apply NoDup_cons in Hsuf as [Hnotin _].
    assert (Hpre_other : entry_id e ∉ map entry_id pre).
    { intros Hin. apply (Hdisj _ Hin). left. }
    destruct (schedule.swept e) eqn:Hs.
    + unfold services.end_task, bind, modify.
      rewrite (IH (pre ++ [sweep_entry e])).
      * cbn [List.filter map]. rewrite Hs.
        unfold with_tasks, with_end_requests; cbn.
        rewrite <- !app_assoc. reflexivity.
      * unfold with_tasks, with_end_requests; cbn. rewrite Hw.
        rewrite map_app. cbn [map].
        fold (entry_id e). rewrite Z.eqb_refl.
        rewrite (end_task_map_other _ pre Hpre_other).
        rewrite (end_task_map_other _ suf Hnotin).
        unfold sweep_entry. rewrite Hs. rewrite <- app_assoc. reflexivity.
      * exact Hnd'.
    + unfold ret.
      rewrite (IH (pre ++ [sweep_entry e])).
      * cbn [List.filter map]. rewrite Hs.
        unfold with_tasks, with_end_requests; cbn.
        rewrite <- !app_assoc. reflexivity.
      * rewrite Hw. unfold sweep_entry. rewrite Hs.
        rewrite <- app_assoc. reflexivity.
      * exact Hnd'.
Qed.

Lemma end_scheduled_tasks_run (w : World) :
  NoDup (map entry_id (tasks w)) ->
  schedule.end_scheduled_tasks w
  = (with_tasks (fun _ => map sweep_entry (tasks w))
       (with_end_requests
          (fun l => l ++ map entry_id (List.filter schedule.swept (tasks w))) w),
     Ok tt).
Proof.
  intros Hnd. unfold schedule.end_scheduled_tasks, bind at 1, gets at 1.
  apply (sweep_loop (tasks w) [] w eq_refl Hnd).
Qed.

Lemma NoDup_map_inj_on {A B} (f : A -> B) (l : list A) (a b : A) :
  NoDup (map f l) -> In a l -> In b l -> f a = f b -> a = b.
Proof.
  induction l as [|x l IH]; cbn [map]; intros Hnd Ha Hb Hf; [destruct Ha|].
  apply NoDup_cons in Hnd as [Hx Hnd].
  destruct Ha as [->|Ha], Hb as [->|Hb]; auto.
  - exfalso. apply Hx. rewrite Hf. apply list_elem_of_In, in_map, Hb.
  - exfalso. apply Hx. rewrite <- Hf. apply list_elem_of_In, in_map, Ha.
Qed.

Lemma swept_iff (e : QueuedTask) :
  schedule.swept e = true
  <-> scheduled (task e) = true /\ truthy (is_cancellable (task e)) = true.
Proof. unfold schedule.swept. apply andb_true_iff. Qed.

Lemma cancel_requests_cancellation (t : CalibreTask) :
  truthy (is_cancellable t) = true ->
  stat t = STAT_WAITING \/ stat t = STAT_STARTED ->
  cancellation_requested (services.cancel t).
Proof.
  intros Hc Hs. unfold services.cancel, cancellation_requested. rewrite Hc.
  destruct Hs as [Hs|Hs]; rewrite Hs; cbn; auto.
Qed.

(** C1.  In a pool whose task ids are pairwise distinct, the sweep calls
    [worker.end_task] with the ids of exactly the entries whose task is
    scheduled and cancellable, in pool order.  Each such entry is
    cancelled in place (a Waiting task becomes Cancelled, a Started one
    receives the cancellation signal); every entry lacking either flag,
    a scheduled non-cancellable task included, stays exactly as it was,
    and nothing else in the application changes. *)
Theorem end_scheduled_tasks_cancels_scheduled_cancellable (w : World)
    (Hids : NoDup (map entry_id (tasks w))) :
  let w' := fst (schedule.end_scheduled_tasks w) in
  let requested := map entry_id (List.filter schedule.swept (tasks w)) in
  snd (schedule.end_scheduled_tasks w) = Ok tt
  /\ end_requests w' = end_requests w ++ requested
  /\ (forall e, In e (tasks w) ->
        (In (entry_id e) requested
         <-> scheduled (task e) = true /\ truthy (is_cancellable (task e)) = true))
  /\ (forall e b, is_cancellable (task e) = VBool b ->
        schedule.swept e = scheduled (task e) && b)
  /\ length (tasks w') = length (tasks w)
  /\ (forall i e, tasks w !! i = Some e -> schedule.swept e = true ->
        tasks w' !! i = Some (set_task (services.cancel (task e)) e)
        /\ (stat (task e) = STAT_WAITING \/ stat (task e) = STAT_STARTED ->
            cancellation_requested (services.cancel (task e))))
  /\ (forall i e, tasks w !! i = Some e -> schedule.swept e = false ->
        tasks w' !! i = Some e)
  /\ (CONFIG w' = CONFIG w /\ saved w' = saved w /\ flashes w' = flashes w
      /\ jobs w' = jobs w /\ immediate w' = immediate w).
Proof.
  cbv zeta. rewrite (end_scheduled_tasks_run w Hids). cbn [fst snd].
  split; [reflexivity|].
  split; [destruct w; reflexivity|].
  split.
  { intros e He. rewrite <- swept_iff. split.
    - intros Hin. apply in_map_iff in Hin as (e' & Hid & He').
      apply filter_In in He' as [He' Hs].
      rewrite <- (NoDup_map_inj_on entry_id (tasks w) e' e Hids He' He Hid).
      exact Hs.
    - intros Hs. apply in_map. apply filter_In. auto. }
  split.
  { intros e b Hb. unfold schedule.swept. rewrite Hb. reflexivity. }
  assert (Htasks : tasks (with_tasks (fun _ => map sweep_entry (tasks w))
                     (with_end_requests
                        (fun l => l ++ map entry_id
                                         (List.filter schedule.swept (tasks w))) w))
                   = map sweep_entry (tasks w)) by reflexivity.
  rewrite Htasks.
  split; [apply length_map|].
  split.
  { intros i e Hi Hs. split.
    - change (map sweep_entry (tasks w)) with (sweep_entry <$> tasks w).
      rewrite list_lookup_fmap, Hi. cbn. unfold sweep_entry. rewrite Hs. reflexivity.
    - intros Hst. apply cancel_requests_cancellation; [|exact Hst].
      apply swept_iff in Hs. tauto. }
  split.
  { intros i e Hi Hs.
    change (map sweep_entry (tasks w)) with (sweep_entry <$> tasks w).
    rewrite list_lookup_fmap, Hi. cbn. unfold sweep_entry. rewrite Hs. reflexivity. }
  destruct w; repeat split.
Qed.

Lemma end_scheduled_tasks_cancels_scheduled_cancellable_witness :
  let w' := fst (schedule.end_scheduled_tasks samples.world) in
  end_requests w' = [11; 13]
  /\ tasks w' !! 1%nat = tasks samples.world !! 1%nat
  /\ tasks w' !! 3%nat = tasks samples.world !! 3%nat.
Proof.
  assert (Hids : NoDup (map entry_id (tasks samples.world))).
  { apply NoDup_ListNoDup. repeat constructor; cbn; intuition discriminate. }
  pose proof (end_scheduled_tasks_cancels_scheduled_cancellable samples.world Hids)
    as (_ & Hreq & _ & _ & _ & _ & Hkeep & _).
  cbv zeta. split; [exact Hreq|].
  split.
  - rewrite (Hkeep 1%nat _ eq_refl eq_refl). reflexivity.
  - rewrite (Hkeep 3%nat _ eq_refl eq_refl). reflexivity.
Defined.

(** ** Registering the schedule *)

Lemma midnight_bounds (d : datetime) :
  micros d - us_per_day < midnight d <= micros d.
Proof.
  unfold midnight, us_per_day, us_per_hour, us_per_minute, us_per_second.
  Z.div_mod_to_equations. lia.
Qed.

Lemma midnight_nonneg (d : datetime) : 0 <= micros d -> 0 <= midnight d.
Proof.
  intros H. unfold midnight, us_per_day, us_per_hour, us_per_minute, us_per_second.
  Z.div_mod_to_equations. lia.
Qed.

Lemma replace_hour_exact_ok (d : datetime) (h : Z) :
  0 <= h <= 23 ->
  replace_hour_exact d h = Ok (DateTime (midnight d + h * us_per_hour)).
Proof.
  intros Hh. unfold replace_hour_exact.
  destruct (Z.leb_spec 0 h), (Z.leb_spec h 23); try lia. reflexivity.
Qed.

Lemma replace_hour_minute0_ok (d : datetime) (h : Z) :
  0 <= h <= 23 ->
  replace_hour_minute0 d h
  = Ok (DateTime (midnight d + h * us_per_hour + micros d mod us_per_minute)).
Proof.
  intros Hh. unfold replace_hour_minute0.
  destruct (Z.leb_spec 0 h), (Z.leb_spec h 23); try lia. reflexivity.
Qed.

Lemma timedelta_of_minutes (duration : Z) :
  0 <= duration -> duration * us_per_minute < max_micros ->
  timedelta_of (duration / 60) (duration mod 60)
  = Ok (TimeDelta (duration * us_per_minute)).
Proof.
  intros H0 Hmax. unfold timedelta_of.
  assert (Heq : duration / 60 * us_per_hour + duration mod 60 * us_per_minute
                = duration * us_per_minute).
  { unfold us_per_hour. Z.div_mod_to_equations. lia. }
  rewrite Heq.
  assert (Hd : 0 <= duration * us_per_minute / us_per_day < 3652059).
  { unfold max_micros, us_per_day, us_per_hour, us_per_minute, us_per_second in *.
    Z.div_mod_to_equations. lia. }
  unfold max_delta_days.
  rewrite !(proj2 (Z.leb_le _ _)) by lia.
  reflexivity.
Qed.

Lemma add_ok (d : datetime) (td : timedelta) :
  0 <= micros d + delta_micros td < max_micros ->
  add d td = Ok (DateTime (micros d + delta_micros td)).
Proof.
  intros H. unfold add.
  destruct (Z.leb_spec 0 (micros d + delta_micros td)),
    (Z.ltb_spec (micros d + delta_micros td) max_micros); try lia.
  reflexivity.
Qed.

Lemma mod_minute_bounds (d : datetime) : 0 <= micros d mod us_per_minute < us_per_minute.
Proof. apply Z.mod_pos_bound. reflexivity. Qed.

Lemma should_task_be_running_run (env : Env) (start duration : Z) (w : World) :
  0 <= start <= 23 -> 0 <= duration ->
  (forall k, 0 <= micros (clock env k)
             /\ micros (clock env k) + us_per_day + duration * us_per_minute < max_micros) ->
  schedule.should_task_be_running env start duration w
  = (with_clock_reads (fun n => S (S n)) w,
     Ok (strictly_inside_window start duration
           (clock env (S (clock_reads w))) (clock env (clock_reads w)))).
Proof.
  intros Hs Hd Hc.
  unfold schedule.should_task_be_running, bind, datetime_now, lift, ret.
  cbn [clock_reads with_clock_reads].
  rewrite (replace_hour_exact_ok _ _ Hs).
  destruct (Hc 0%nat) as [Hc0 Hc0'].
  destruct (Hc (S (clock_reads w))) as [Hc1 Hc1'].
  pose proof (midnight_bounds (clock env (S (clock_reads w)))) as Hm.
  pose proof (midnight_nonneg _ Hc1) as Hm0.
  rewrite (timedelta_of_minutes duration Hd).
  2:{ unfold us_per_day, us_per_hour, us_per_minute, us_per_second in *. lia. }
  rewrite add_ok.
  2:{ cbn [micros delta_micros].
      unfold max_micros, us_per_day, us_per_hour, us_per_minute, us_per_second in *. lia. }
  destruct w; reflexivity.
Qed.

Lemma calclulate_end_time_run (env : Env) (start duration : Z) (w : World) :
  0 <= start <= 23 -> 0 <= duration ->
  (forall k, 0 <= micros (clock env k)
             /\ micros (clock env k) + us_per_day + duration * us_per_minute < max_micros) ->
  exists end_time,
    schedule.calclulate_end_time env start duration w
    = (with_clock_reads S w, Ok end_time).
Proof.
  intros Hs Hd Hc.
  unfold schedule.calclulate_end_time, bind, datetime_now, lift.
  rewrite (replace_hour_minute0_ok _ _ Hs).
  destruct (Hc (clock_reads w)) as [Hc1 Hc1'].
  pose proof (midnight_bounds (clock env (clock_reads w))) as Hm.
  pose proof (midnight_nonneg _ Hc1) as Hm0.
  pose proof (mod_minute_bounds (clock env (clock_reads w))) as Hmm.
  rewrite (timedelta_of_minutes duration Hd).
  2:{ unfold us_per_day, us_per_hour, us_per_minute, us_per_second in *. lia. }
  rewrite add_ok.
  2:{ cbn [micros delta_micros].
      unfold max_micros, us_per_day, us_per_hour, us_per_minute, us_per_second in *. lia. }
  eexists. reflexivity.
Qed.

(** The whole effect of [register_scheduled_tasks] when a scheduler is
    there: the old triggers are gone, the batch is installed under the
    start hour followed by the end-of-window trigger, and the batch is
    submitted at once only strictly inside the window. *)
Lemma register_scheduled_tasks_run (env : Env) (reconnect : bool) (w : World) :
  scheduler_available env = true ->
  0 <= schedule_start_time (CONFIG w) <= 23 ->
  0 <= schedule_duration (CONFIG w) ->
  (forall k, 0 <= micros (clock env k)
             /\ micros (clock env k) + us_per_day
                + schedule_duration (CONFIG w) * us_per_minute < max_micros) ->
  exists end_time,
    schedule.register_scheduled_tasks env reconnect w
    = (with_immediate
         (fun l => l ++ if strictly_inside_window
                             (schedule_start_time (CONFIG w)) (schedule_duration (CONFIG w))
                             (clock env (S (S (clock_reads w))))
                             (clock env (S (clock_reads w)))
                        then scheduled_batch reconnect w else [])
         (with_jobs
            (fun _ =>
               map (fun t => mkJob (description t)
                               (mkCron (schedule_start_time (CONFIG w)) None)
                               (SubmitTask t))
                   (scheduled_batch reconnect w)
               ++ [mkJob "end scheduled task"
                     (mkCron (hour end_time) (Some (minute end_time)))
                     CallEndScheduledTasks])
            (with_clock_reads (fun n => S (S (S n))) w)),
       Ok tt).
Proof.
  intros Hsched Hs Hd Hc.
  unfold schedule.register_scheduled_tasks. rewrite Hsched.
  unfold bind at 1. unfold services.remove_all_jobs at 1, modify at 1.
  unfold bind at 1, gets at 1. unfold bind at 1, gets at 1.
  cbn [CONFIG with_jobs].
  unfold bind at 1.
  set (w1 := with_jobs (fun _ => []) w).
  change (mkWorld (CONFIG w) (saved w) (flashes w) (tasks w) (end_requests w) []
            (immediate w) (clock_reads w) (app_log w)) with w1.
  assert (Hb1 : schedule.get_scheduled_tasks reconnect w1
                = (w1, Ok (scheduled_batch reconnect w))) by reflexivity.
  rewrite Hb1.
  unfold bind at 1, services.schedule_tasks at 1, modify at 1.
  set (w2 := with_jobs _ w1).
  unfold bind at 1.
  destruct (calclulate_end_time_run env (schedule_start_time (CONFIG w))
              (schedule_duration (CONFIG w)) w2 Hs Hd Hc) as [end_time Hend].
  rewrite Hend. exists end_time.
  unfold bind at 1, services.schedule_job at 1, modify at 1.
  set (w3 := with_jobs _ (with_clock_reads S w2)).
  unfold bind at 1.
  rewrite (should_task_be_running_run env _ _ w3 Hs Hd Hc).
  assert (Hb2 : schedule.get_scheduled_tasks reconnect
                  (with_clock_reads (fun n => S (S n)) w3)
                = (with_clock_reads (fun n => S (S n)) w3,
                   Ok (scheduled_batch reconnect w))) by reflexivity.
  change (clock_reads w3) with (S (clock_reads w)).
  destruct (strictly_inside_window _ _ _ _).
  - unfold bind. rewrite Hb2.
    unfold services.schedule_tasks_immediately, modify.
    destruct w; reflexivity.
  - unfold ret, with_immediate. destruct w; cbn. rewrite !app_nil_r. reflexivity.
Qed.

Lemma strictly_inside_window_iff (start duration : Z) (today now : datetime) :
  strictly_inside_window start duration today now = true
  <-> midnight today + start * us_per_hour < micros now
      /\ micros now < midnight today + start * us_per_hour + duration * us_per_minute.
Proof.
  unfold strictly_inside_window. rewrite andb_true_iff, !Z.ltb_lt. reflexivity.
Qed.

Lemma timedelta_of_signed_minutes (duration : Z) :
  - max_micros <= duration * us_per_minute <= max_micros ->
  timedelta_of (duration / 60) (duration mod 60)
  = Ok (TimeDelta (duration * us_per_minute)).
Proof.
  intros Hmax. unfold timedelta_of.
  assert (Heq : duration / 60 * us_per_hour + duration mod 60 * us_per_minute
                = duration * us_per_minute).
  { unfold us_per_hour. Z.div_mod_to_equations. lia. }
  rewrite Heq.
  assert (Hd : - 3652059 <= duration * us_per_minute / us_per_day <= 3652059).
  { unfold max_micros, us_per_day, us_per_hour, us_per_minute, us_per_second in *.
    Z.div_mod_to_equations. lia. }
  unfold max_delta_days.
  rewrite !(proj2 (Z.leb_le _ _)) by lia.
  reflexivity.
Qed.

Lemma window_end_in_range_facts (start duration : Z) (d : datetime) :
  0 <= start <= 23 -> window_end_in_range start duration d ->
  0 <= midnight d <= micros d
  /\ midnight d + us_per_day <= max_micros
  /\ - max_micros <= duration * us_per_minute <= max_micros.
Proof.
  intros Hs (Hv & Hlo & Hhi). unfold valid in Hv.
  pose proof (midnight_bounds d) as Hm.
  assert (Hday : midnight d + us_per_day <= max_micros).
  { unfold midnight, max_micros, us_per_day, us_per_hour, us_per_minute,
      us_per_second in *. Z.div_mod_to_equations. lia. }
  assert (H0 : 0 <= midnight d).
  { unfold midnight, us_per_day, us_per_hour, us_per_minute, us_per_second in *.
    Z.div_mod_to_equations. lia. }
  unfold max_micros, us_per_day, us_per_hour, us_per_minute, us_per_second in *.
  lia.
Qed.

Lemma should_task_be_running_in_range (env : Env) (start duration : Z) (w : World) :
  0 <= start <= 23 ->
  (forall k, window_end_in_range start duration (clock env k)) ->
  schedule.should_task_be_running env start duration w
  = (with_clock_reads (fun n => S (S n)) w,
     Ok (strictly_inside_window start duration
           (clock env (S (clock_reads w))) (clock env (clock_reads w)))).
Proof.
  intros Hs Hc.
  unfold schedule.should_task_be_running, bind, datetime_now, lift, ret.
  cbn [clock_reads with_clock_reads].
  rewrite (replace_hour_exact_ok _ _ Hs).
  pose proof (Hc (S (clock_reads w))) as Hr.
  destruct (window_end_in_range_facts _ _ _ Hs Hr) as (Hm & Hday & Hdur).
  destruct Hr as (_ & Hlo & Hhi).
  rewrite (timedelta_of_signed_minutes duration Hdur).
  rewrite add_ok.
  2:{ cbn [micros delta_micros].
      unfold max_micros, us_per_day, us_per_hour, us_per_minute, us_per_second in *. lia. }
  destruct w; reflexivity.
Qed.

Lemma calclulate_end_time_in_range (env : Env) (start duration : Z) (w : World) :
  0 <= start <= 23 ->
  (forall k, window_end_in_range start duration (clock env k)) ->
  exists end_time,
    schedule.calclulate_end_time env start duration w
    = (with_clock_reads S w, Ok end_time).
Proof.
  intros Hs Hc.
  unfold schedule.calclulate_end_time, bind, datetime_now, lift.
  rewrite (replace_hour_minute0_ok _ _ Hs).
  pose proof (Hc (clock_reads w)) as Hr.
  destruct (window_end_in_range_facts _ _ _ Hs Hr) as (Hm & Hday & Hdur).
  destruct Hr as (_ & Hlo & Hhi).
  pose proof (mod_minute_bounds (clock env (clock_reads w))) as Hmm.
  rewrite (timedelta_of_signed_minutes duration Hdur).
  rewrite add_ok.
  2:{ cbn [micros delta_micros].
      unfold max_micros, us_per_day, us_per_hour, us_per_minute, us_per_second in *. lia. }
  eexists. reflexivity.
Qed.

(** [register_scheduled_tasks] once its two date computations are known to
    succeed. *)
Lemma register_scheduled_tasks_in_range (env : Env) (reconnect : bool) (w : World) :
  scheduler_available env = true ->
  0 <= schedule_start_time (CONFIG w) <= 23 ->
  (forall k, window_end_in_range (schedule_start_time (CONFIG w))
               (schedule_duration (CONFIG w)) (clock env k)) ->
  exists end_time,
    schedule.register_scheduled_tasks env reconnect w
    = (with_immediate
         (fun l => l ++ if strictly_inside_window
                             (schedule_start_time (CONFIG w)) (schedule_duration (CONFIG w))
                             (clock env (S (S (clock_reads w))))
                             (clock env (S (clock_reads w)))
                        then scheduled_batch reconnect w else [])
         (with_jobs
            (fun _ =>
               map (fun t => mkJob (description t)
                               (mkCron (schedule_start_time (CONFIG w)) None)
                               (SubmitTask t))
                   (scheduled_batch reconnect w)
               ++ [mkJob "end scheduled task"
                     (mkCron (hour end_time) (Some (minute end_time)))
                     CallEndScheduledTasks])
            (with_clock_reads (fun n => S (S (S n))) w)),
       Ok tt).
Proof.
  intros Hsched Hs Hc.
  unfold schedule.register_scheduled_tasks. rewrite Hsched.
  unfold bind at 1. unfold services.remove_all_jobs at 1, modify at 1.
  unfold bind at 1, gets at 1. unfold bind at 1, gets at 1.
  cbn [CONFIG with_jobs].
  unfold bind at 1.
  set (w1 := with_jobs (fun _ => []) w).
  change (mkWorld (CONFIG w) (saved w) (flashes w) (tasks w) (end_requests w) []
            (immediate w) (clock_reads w) (app_log w)) with w1.
  assert (Hb1 : schedule.get_scheduled_tasks reconnect w1
                = (w1, Ok (scheduled_batch reconnect w))) by reflexivity.
  rewrite Hb1.
  unfold bind at 1, services.schedule_tasks at 1, modify at 1.
  set (w2 := with_jobs _ w1).
  unfold bind at 1.
  destruct (calclulate_end_time_in_range env (schedule_start_time (CONFIG w))
              (schedule_duration (CONFIG w)) w2 Hs Hc) as [end_time Hend].
  rewrite Hend. exists end_time.
  unfold bind at 1, services.schedule_job at 1, modify at 1.
  set (w3 := with_jobs _ (with_clock_reads S w2)).
  unfold bind at 1.
  rewrite (should_task_be_running_in_range env _ _ w3 Hs Hc).
  assert (Hb2 : schedule.get_scheduled_tasks reconnect
                  (with_clock_reads (fun n => S (S n)) w3)
                = (with_clock_reads (fun n => S (S n)) w3,
                   Ok (scheduled_batch reconnect w))) by reflexivity.
  change (clock_reads w3) with (S (clock_reads w)).
  destruct (strictly_inside_window _ _ _ _).
  - unfold bind. rewrite Hb2.
    unfold services.schedule_tasks_immediately, modify.
    destruct w; reflexivity.
  - unfold ret, with_immediate. destruct w; cbn. rewrite !app_nil_r. reflexivity.
Qed.

(** C4, as the code has it.  With a scheduler available, a start hour in
    0..23 and any duration, positive or not, for which the end of the
    window is a [datetime] (at every clock reading, the start hour of
    that day plus the duration is not before [datetime.min] and at least
    a minute before the end of the year 9999, so that no date arithmetic
    overflows), [register_scheduled_tasks] returns normally and submits
    the scheduled batch at once if and only if the current time lies
    strictly between the start hour of the current day and that instant
    plus the duration, both end points excluded; in that case the batch
    submitted is the one [get_scheduled_tasks] yields, otherwise nothing
    is submitted.  For a duration of 0 or less the window is empty. *)
Theorem register_scheduled_tasks_kicks_off_strictly_inside_window
    (env : Env) (reconnect : bool) (w : World)
    (Hsched : scheduler_available env = true)
    (Hstart : 0 <= schedule_start_time (CONFIG w) <= 23)
    (Hclock : forall k, window_end_in_range (schedule_start_time (CONFIG w))
                          (schedule_duration (CONFIG w)) (clock env k)) :
  let start := schedule_start_time (CONFIG w) in
  let duration := schedule_duration (CONFIG w) in
  let now := clock env (S (clock_reads w)) in
  let today := clock env (S (S (clock_reads w))) in
  let out := schedule.register_scheduled_tasks env reconnect w in
  snd out = Ok tt
  /\ (midnight today + start * us_per_hour < micros now
      /\ micros now < midnight today + start * us_per_hour + duration * us_per_minute ->
      immediate (fst out) = immediate w ++ scheduled_batch reconnect w)
  /\ (~ (midnight today + start * us_per_hour < micros now
         /\ micros now < midnight today + start * us_per_hour + duration * us_per_minute) ->
      immediate (fst out) = immediate w)
  /\ scheduled_batch reconnect w <> []
  /\ (duration <= 0 -> immediate (fst out) = immediate w).
Proof.
  cbv zeta.
  destruct (register_scheduled_tasks_in_range env reconnect w Hsched Hstart Hclock)
    as [end_time ->].
  cbn [fst snd]. split; [reflexivity|].
  assert (Hout : ~ (midnight (clock env (S (S (clock_reads w))))
                    + schedule_start_time (CONFIG w) * us_per_hour
                    < micros (clock env (S (clock_reads w)))
                    /\ micros (clock env (S (clock_reads w)))
                       < midnight (clock env (S (S (clock_reads w))))
                         + schedule_start_time (CONFIG w) * us_per_hour
                         + schedule_duration (CONFIG w) * us_per_minute) ->
                 immediate
                   (with_immediate
                      (fun l => l ++ if strictly_inside_window
                                          (schedule_start_time (CONFIG w))
                                          (schedule_duration (CONFIG w))
                                          (clock env (S (S (clock_reads w))))
                                          (clock env (S (clock_reads w)))
                                     then scheduled_batch reconnect w else [])
                      (with_jobs
                         (fun _ =>
                            map (fun t => mkJob (description t)
                                            (mkCron (schedule_start_time (CONFIG w)) None)
                                            (SubmitTask t))
                                (scheduled_batch reconnect w)
                            ++ [mkJob "end scheduled task"
                                  (mkCron (hour end_time) (Some (minute end_time)))
                                  CallEndScheduledTasks])
                         (with_clock_reads (fun n => S (S (S n))) w)))
                 = immediate w).
  { intros Hout. rewrite <- strictly_inside_window_iff in Hout.
    apply not_true_is_false in Hout.
    destruct w; cbn in *. rewrite Hout. apply app_nil_r. }
  split; [|split; [exact Hout|split]].
  - intros Hin. apply strictly_inside_window_iff in Hin.
    destruct w; cbn in *. rewrite Hin. reflexivity.
  - unfold scheduled_batch, schedule.get_scheduled_tasks, bind, gets, ret. cbn.
    destruct reconnect; cbn; discriminate.
  - intros Hneg. apply Hout.
    unfold us_per_minute, us_per_second. lia.
Qed.

Lemma register_scheduled_tasks_kicks_off_strictly_inside_window_witness :
  immediate (fst (schedule.register_scheduled_tasks
                    (samples.env_at samples.inside_the_window) true samples.world))
  = scheduled_batch true samples.world.
Proof.
  assert (Hclock : forall k : nat,
             window_end_in_range (schedule_start_time (CONFIG samples.world))
               (schedule_duration (CONFIG samples.world))
               (clock (samples.env_at samples.inside_the_window) k)).
  { intros k. repeat split; vm_compute; congruence. }
  assert (Hstart : 0 <= schedule_start_time (CONFIG samples.world) <= 23) by (cbn; lia).
  pose proof (register_scheduled_tasks_kicks_off_strictly_inside_window
                (samples.env_at samples.inside_the_window) true samples.world
                eq_refl Hstart Hclock) as (_ & Hin & _).
  apply Hin. vm_compute. split; reflexivity.
Defined.

(** C4, as worded.  At 03:00:00.000000 with a 03:00 start and a duration
    of 10 minutes the current time lies in the closed window
    [start hour, start hour + duration], a scheduler is available and
    [register_scheduled_tasks] returns normally, yet it submits nothing. *)
Lemma register_at_window_start_submits_nothing :
  inside_window_closed 3 10 samples.three_o_clock = true
  /\ snd (schedule.register_scheduled_tasks
            (samples.env_at samples.three_o_clock) true samples.world) = Ok tt
  /\ immediate (fst (schedule.register_scheduled_tasks
                       (samples.env_at samples.three_o_clock) true samples.world)) = [].
Proof. vm_compute. repeat split. Qed.

(** Beyond [datetime]'s range the registration does not get as far as the
    test: at 03:04:30 with a 03:00 start and a duration of 4300000000
    minutes the end of the window lies after the year 9999,
    [calclulate_end_time] raises [OverflowError] and nothing is submitted. *)
Example register_scheduled_tasks_overflow :
  let w := with_CONFIG (admin.set_int_field "schedule_duration" 4300000000) samples.world in
  let out := schedule.register_scheduled_tasks
               (samples.env_at samples.inside_the_window) true w in
  snd out = Raise (Exn OverflowError "date value out of range")
  /\ immediate (fst out) = [].
Proof. vm_compute. split; reflexivity. Qed.

(** ** The scheduled-task settings handler *)

Lemma sweep_frame (idx : list nat) (w : World) :
  exists ts rq,
    for_each idx
      (fun i =>
         let* entry := gets (fun w => tasks w !! i) in
         match entry with
         | Some e => if schedule.swept e then services.end_task (task_id (task e)) else ret tt
         | None => ret tt
         end) w
    = (with_tasks (fun _ => ts) (with_end_requests (fun _ => rq) w), Ok tt).
Proof.
  match goal with |- context [for_each idx ?b] => set (body := b) end.
  revert w. induction idx as [|i idx IH]; intros w.
  - exists (tasks w), (end_requests w). destruct w; reflexivity.
  - cbn [for_each]. unfold bind at 1. unfold body at 1.
    unfold bind at 1, gets at 1.
    destruct (tasks w !! i) as [e|]; [destruct (schedule.swept e)|].
    + unfold services.end_task, bind, modify.
      match goal with |- context [for_each idx body ?w1] =>
        destruct (IH w1) as (ts & rq & Heq); rewrite Heq end.
      exists ts, rq. destruct w; reflexivity.
    + unfold ret. apply IH.
    + unfold ret. apply IH.
Qed.

(** Whatever the pool holds, the sweep returns normally and changes
    nothing but the pool's entries and the list of requests. *)
Lemma end_scheduled_tasks_frame (w : World) :
  exists ts rq,
    schedule.end_scheduled_tasks w
    = (with_tasks (fun _ => ts) (with_end_requests (fun _ => rq) w), Ok tt).
Proof.
  unfold schedule.end_scheduled_tasks, bind at 1, gets at 1. apply sweep_frame.
Qed.

Lemma config_is_not_a_global : "config" ∉ admin.module_globals.
Proof. apply (bool_decide_eq_false_1 _). vm_compute. reflexivity. Qed.

Lemma schedule_is_a_global : "schedule" ∈ admin.module_globals.
Proof. apply (bool_decide_eq_true_1 _). vm_compute. reflexivity. Qed.

Lemma load_global_config (w : World) :
  admin.load_global "config" w = (w, Raise (Exn NameError "name 'config' is not defined")).
Proof.
  unfold admin.load_global.
  rewrite (bool_decide_eq_false_2 _ config_is_not_a_global). reflexivity.
Qed.

Lemma load_global_schedule (w : World) : admin.load_global "schedule" w = (w, Ok tt).
Proof.
  unfold admin.load_global.
  rewrite (bool_decide_eq_true_2 _ schedule_is_a_global). reflexivity.
Qed.

Lemma update_scheduledtasks_valid_saved (env : Env) (to_save : gmap string string)
    (w : World) (v d : Z) :
  submitted env to_save "schedule_start_time" = Some v ->
  submitted env to_save "schedule_duration" = Some d ->
  0 <= v <= 23 -> 0 < d <= 60 ->
  save_outcome env = Ok tt ->
  exists ts rq,
    admin.update_scheduledtasks env to_save w
    = (let cfg := with_checkboxes to_save
                    (admin.set_int_field "schedule_duration" d
                       (admin.set_int_field "schedule_start_time" v (CONFIG w))) in
       mkWorld cfg (saved w ++ [cfg])
         (flashes w ++ [("Scheduled tasks settings updated", "success")])
         ts rq (jobs w) (immediate w) (clock_reads w) (app_log w),
       Raise (Exn NameError "name 'config' is not defined")).
Proof.
  unfold submitted. intros Hv Hd Hvr Hdr Hsave.
  destruct (to_save !! "schedule_start_time") as [s1|] eqn:L1; [|discriminate].
  destruct (py_int env s1) as [v'|] eqn:P1; [|discriminate].
  destruct (to_save !! "schedule_duration") as [s2|] eqn:L2; [|discriminate].
  destruct (py_int env s2) as [d'|] eqn:P2; [|discriminate].
  simplify_eq.
  unfold admin.update_scheduledtasks.
  unfold bind at 1, admin.int_of_form at 1, lift at 1. rewrite L1, P1.
  rewrite (proj2 (Z.leb_le 0 v)), (proj2 (Z.leb_le v 23)) by lia.
  cbn [andb].
  unfold bind at 1, bind at 1, admin._config_int at 1. rewrite L1.
  unfold bind at 1, lift at 1. rewrite P1.
  unfold modify at 1, ret at 1.
  unfold bind at 1, admin.int_of_form at 1, lift at 1. rewrite L2, P2.
  rewrite (proj2 (Z.ltb_lt 0 d)), (proj2 (Z.leb_le d 60)) by lia.
  cbn [andb].
  unfold bind at 1, bind at 1, admin._config_int at 1. rewrite L2.
  unfold bind at 1, lift at 1. rewrite P2.
  unfold modify at 1, ret at 1.
  do 4 (unfold bind at 1, admin._config_checkbox at 1, modify at 1).
  cbn [negb].
  unfold bind at 1, try_excepts at 1.
  unfold bind at 1, admin.CONFIG_save at 1, bind at 1, lift at 1. rewrite Hsave.
  unfold modify at 1.
  unfold bind at 1, flash at 1, modify at 1.
  unfold bind at 1.
  match goal with |- context [schedule.end_scheduled_tasks ?w1] =>
    destruct (end_scheduled_tasks_frame w1) as (ts & rq & Heq); rewrite Heq end.
  unfold bind at 1. rewrite load_global_schedule.
  unfold bind at 1. rewrite load_global_config.
  exists ts, rq. destruct w; reflexivity.
Qed.

Lemma matches_cons (e : exn) (c : exc_class) (cs : list exc_class) :
  matches e (c :: cs) = isinstance e c || matches e cs.
Proof. reflexivity. Qed.

(** Case analysis of one run of [update_scheduledtasks]: on the two form
    fields, on how [int] reads them, on the two range tests, on how
    [CONFIG.save()] ends and on the [except] clause that takes its
    exception.  Every case ends with the final state written out. *)
Ltac handler_cases :=
  unfold admin.update_scheduledtasks, admin.int_of_form, admin._config_int,
    admin._config_checkbox, admin.CONFIG_save, admin.edit_scheduledtasks,
    admin.ub_session_rollback, admin.log_exception,
    flash, try_excepts, bind, lift, ret, modify, raise;
  repeat (cbn beta iota;
          match goal with
          | |- context [match ?m !! ?k with _ => _ end] =>
              let L := fresh "L" in destruct (m !! k) eqn:L
          | |- context [match py_int ?env ?s with _ => _ end] =>
              let P := fresh "P" in destruct (py_int env s) eqn:P
          | |- context [Z.leb ?a ?b] =>
              let R := fresh "R" in destruct (Z.leb a b) eqn:R
          | |- context [Z.ltb ?a ?b] =>
              let R := fresh "R" in destruct (Z.ltb a b) eqn:R
          end);
  cbn [andb negb]; cbn beta iota.

Ltac handler_save :=
  try (match goal with
       | |- context [match save_outcome ?env with _ => _ end] =>
           let Hs := fresh "Hsave" in
           destruct (save_outcome env) as [[]|?] eqn:Hs
       end; cbn beta iota);
  try (match goal with
       | |- context [schedule.end_scheduled_tasks ?w1] =>
           let ts := fresh "ts" in
           let rq := fresh "rq" in
           let Heq := fresh "Heq" in
           destruct (end_scheduled_tasks_frame w1) as (ts & rq & Heq); rewrite Heq
       end; cbn beta iota;
       rewrite load_global_schedule; cbn beta iota;
       rewrite load_global_config; cbn beta iota);
  try (cbn [dispatch];
       match goal with
       | |- context [matches ?e [IntegrityError]] =>
           let Hi := fresh "Hintegrity" in
           destruct (matches e [IntegrityError]) eqn:Hi
       end; cbn beta iota;
       try (match goal with
            | |- context [matches ?e [OperationalError]] =>
                let Ho := fresh "Hoperational" in
                destruct (matches e [OperationalError]) eqn:Ho
            end; cbn beta iota; unfold reraise)).

Ltac range_facts :=
  repeat match goal with
         | H : (_ <=? _) = true |- _ => apply Z.leb_le in H
         | H : (_ <=? _) = false |- _ => apply Z.leb_gt in H
         | H : (_ <? _) = true |- _ => apply Z.ltb_lt in H
         | H : (_ <? _) = false |- _ => apply Z.ltb_ge in H
         end.

Ltac form_facts :=
  unfold submitted in *;
  repeat match goal with
         | H : _ !! _ = _ |- _ => rewrite H in *
         | H : py_int _ _ = _ |- _ => rewrite H in *
         end.

Lemma update_scheduledtasks_leaves_scheduler (env : Env)
    (to_save : gmap string string) (w : World) :
  let w' := fst (admin.update_scheduledtasks env to_save w) in
  jobs w' = jobs w /\ immediate w' = immediate w /\ clock_reads w' = clock_reads w.
Proof.
  cbv zeta. handler_cases; handler_save; destruct w; cbn; repeat split.
Qed.
(** C3.  [update_scheduledtasks] never re-registers the schedule.  For
    every form and state the installed triggers are left exactly as they
    were and no batch is submitted; with both values in range and a
    successful [CONFIG.save()], the settings are saved and the sweep is
    run, and then reading the global name [config] raises [NameError], so
    [register_scheduled_tasks] is not called: the old triggers stay in
    force and those for the new timing are never installed. *)
Theorem update_scheduledtasks_never_reregisters (env : Env)
    (to_save : gmap string string) (w : World) :
  let out := admin.update_scheduledtasks env to_save w in
  jobs (fst out) = jobs w
  /\ immediate (fst out) = immediate w
  /\ (forall v d,
        submitted env to_save "schedule_start_time" = Some v ->
        submitted env to_save "schedule_duration" = Some d ->
        0 <= v <= 23 -> 0 < d <= 60 ->
        save_outcome env = Ok tt ->
        snd out = Raise (Exn NameError "name 'config' is not defined")
        /\ schedule_start_time (CONFIG (fst out)) = v
        /\ schedule_duration (CONFIG (fst out)) = d
        /\ saved (fst out) = saved w ++ [CONFIG (fst out)]
        /\ In ("Scheduled tasks settings updated", "success") (flashes (fst out))).
Proof.
  cbv zeta.
  destruct (update_scheduledtasks_leaves_scheduler env to_save w) as (Hj & Hi & _).
  split; [exact Hj|]. split; [exact Hi|].
  intros v d Hv Hd Hvr Hdr Hsave.
  destruct (update_scheduledtasks_valid_saved env to_save w v d Hv Hd Hvr Hdr Hsave)
    as (ts & rq & ->).
  cbn. repeat split. apply in_or_app. right. left. reflexivity.
Qed.

Lemma update_scheduledtasks_never_reregisters_witness :
  let out := admin.update_scheduledtasks (samples.env_at samples.three_o_clock)
               samples.form samples.registered_world in
  snd out = Raise (Exn NameError "name 'config' is not defined")
  /\ jobs (fst out) = samples.old_jobs
  /\ schedule_start_time (CONFIG (fst out)) = 5.
Proof.
  pose proof (update_scheduledtasks_never_reregisters
                (samples.env_at samples.three_o_clock)
                samples.form samples.registered_world) as (Hj & _ & Hv).
  assert (H1 : 0 <= 5 <= 23) by lia.
  assert (H2 : 0 < 30 <= 60) by lia.
  destruct (Hv 5 30 eq_refl eq_refl H1 H2 eq_refl) as (Hr & Hs & _).
  cbv zeta. split; [exact Hr|]. split; [exact Hj|exact Hs].
Defined.

(** C10.  A new start hour reaches the settings only from a submitted
    value in 0..23 and a new duration only from a submitted value in
    1..60; a submitted value out of range is answered with the matching
    error message and the settings page; and the settings are saved, the
    pool swept and any trigger or batch touched only when both submitted
    values are in range.  When they are and [CONFIG.save()] succeeds, the
    settings as updated are what was saved. *)
Theorem update_scheduledtasks_validates_before_saving (env : Env)
    (to_save : gmap string string) (w : World) :
  let out := admin.update_scheduledtasks env to_save w in
  let w' := fst out in
  (schedule_start_time (CONFIG w') <> schedule_start_time (CONFIG w) ->
     exists v, submitted env to_save "schedule_start_time" = Some v
               /\ 0 <= v <= 23 /\ schedule_start_time (CONFIG w') = v)
  /\ (schedule_duration (CONFIG w') <> schedule_duration (CONFIG w) ->
        exists d, submitted env to_save "schedule_duration" = Some d
                  /\ 0 < d <= 60 /\ schedule_duration (CONFIG w') = d)
  /\ (forall v d,
        submitted env to_save "schedule_start_time" = Some v ->
        submitted env to_save "schedule_duration" = Some d ->
        (~ 0 <= v <= 23 ->
           In ("Invalid start time for task specified", "error") (flashes w'))
        /\ (~ 0 < d <= 60 ->
              In ("Invalid duration for task specified", "error") (flashes w'))
        /\ (~ (0 <= v <= 23 /\ 0 < d <= 60) ->
              snd out = Ok (admin.Rendered "schedule_edit.html")
              /\ saved w' = saved w /\ tasks w' = tasks w
              /\ end_requests w' = end_requests w))
  /\ (saved w' <> saved w \/ tasks w' <> tasks w \/ end_requests w' <> end_requests w
      \/ jobs w' <> jobs w \/ immediate w' <> immediate w ->
      exists v d, submitted env to_save "schedule_start_time" = Some v
                  /\ submitted env to_save "schedule_duration" = Some d
                  /\ 0 <= v <= 23 /\ 0 < d <= 60)
  /\ (forall v d,
        submitted env to_save "schedule_start_time" = Some v ->
        submitted env to_save "schedule_duration" = Some d ->
        0 <= v <= 23 -> 0 < d <= 60 -> save_outcome env = Ok tt ->
        saved w' = saved w ++ [CONFIG w']).
Proof.
  cbv zeta. split; [|split; [|split; [|split]]].
  - handler_cases; handler_save; destruct w; cbn; intros Hne;
      try congruence; form_facts; range_facts; eexists; repeat split; lia.
  - handler_cases; handler_save; destruct w; cbn; intros Hne;
      try congruence; form_facts; range_facts; eexists; repeat split; lia.
  - intros v d Hv Hd.
    handler_cases; handler_save; destruct w; cbn; form_facts; range_facts;
      simplify_eq; repeat split; intros; try lia;
      rewrite ?in_app_iff; cbn; tauto.
  - handler_cases; handler_save; destruct w; cbn; intros Hch;
      try (exfalso; intuition congruence);
      form_facts; range_facts; do 2 eexists; repeat split; lia.
  - intros v d Hv Hd Hvr Hdr Hsave.
    destruct (update_scheduledtasks_valid_saved env to_save w v d Hv Hd Hvr Hdr Hsave)
      as (ts & rq & ->).
    reflexivity.
Qed.

(** ** The definitions at work on sample inputs *)

Example format_runtime_hours :
  tasks_status.format_runtime samples.rendering (TimeDelta (3725 * us_per_second))
  = "1:02:05s".
Proof. reflexivity. Qed.

Example format_runtime_minutes :
  tasks_status.format_runtime samples.rendering (TimeDelta (125 * us_per_second))
  = " 2:05s".
Proof. reflexivity. Qed.

Example format_runtime_days :
  tasks_status.format_runtime samples.rendering
    (TimeDelta (2 * us_per_day + 7 * us_per_second))
  = "2 days,  7s".
Proof. reflexivity. Qed.

Example render_task_status_for_alice :
  map tasks_status.rec_task_id
    (tasks_status.render_task_status samples.rendering
       (tasks_status.mkUser "alice" false) samples.pool)
  = [14].
Proof. reflexivity. Qed.

Example render_task_status_for_admin :
  map tasks_status.rec_task_id
    (tasks_status.render_task_status samples.rendering
       (tasks_status.mkUser "root" true) samples.pool)
  = [11; 12; 13; 14].
Proof. reflexivity. Qed.

Example should_task_be_running_inside :
  snd (schedule.should_task_be_running (samples.env_at samples.inside_the_window)
         3 10 samples.world)
  = Ok true.
Proof. vm_compute. reflexivity. Qed.

Example should_task_be_running_hour_24 :
  snd (schedule.should_task_be_running (samples.env_at samples.inside_the_window)
         24 10 samples.world)
  = Raise (Exn ValueError "hour must be in 0..23").
Proof. vm_compute. reflexivity. Qed.

Example update_scheduledtasks_bad_start :
  let out := admin.update_scheduledtasks (samples.env_at samples.three_o_clock)
               samples.bad_form samples.registered_world in
  snd out = Ok (admin.Rendered "schedule_edit.html")
  /\ flashes (fst out) = [("Invalid start time for task specified", "error")]
  /\ saved (fst out) = []
  /\ schedule_start_time (CONFIG (fst out)) = 3
  /\ schedule_duration (CONFIG (fst out)) = 30.
Proof. vm_compute. repeat split. Qed.

(** A run in which every collaborator succeeds: three commits, the missing
    book reported, progress left at the last step, success and close. *)
Example backup_metadata_healthy_run :
  let out := metadata_backup.run false samples.db_healthy
               (metadata_backup.start samples.backup_task) in
  snd out = Ok tt
  /\ metadata_backup.events (fst out)
     = [ metadata_backup.Commit; metadata_backup.Commit;
         metadata_backup.LogError "Book 2 not found in database";
         metadata_backup.Commit; metadata_backup.HandleSuccess; metadata_backup.Close ]
  /\ stat (metadata_backup.self (fst out)) = STAT_FINISH_SUCCESS.
Proof. vm_compute. repeat split. Qed.

(** Once [book] has been assigned, a failure inside the loop is handled
    as intended: the error text reaches [_handleError], the session is
    rolled back and closed, and [run] returns. *)
Example backup_metadata_failure_in_loop_is_handled :
  let out := metadata_backup.run false samples.db_delete_fails
               (metadata_backup.start samples.backup_task) in
  snd out = Ok tt
  /\ metadata_backup.events (fst out)
     = [ metadata_backup.LogDebug
           "Error creating metadata backup for book 42: disk I/O error";
         metadata_backup.HandleError "Error creating metadata backup: disk I/O error";
         metadata_backup.Rollback; metadata_backup.Close ]
  /\ stat (metadata_backup.self (fst out)) = STAT_FAIL
  /\ error (metadata_backup.self (fst out))
     = Some "Error creating metadata backup: disk I/O error".
Proof. vm_compute. repeat split. Qed.

(** After [register_scheduled_tasks] the scheduler holds one trigger set:
    the batch under the start hour and the end-of-window trigger, whatever
    was installed before. *)
Example register_scheduled_tasks_replaces_triggers :
  map job_name
    (jobs (fst (schedule.register_scheduled_tasks
                  (samples.env_at samples.inside_the_window) true
                  samples.registered_world)))
  = [ "reconnect"; "delete temp"; "backup metadata";
      "delete superfluous book covers"; "generate book covers";
      "end scheduled task" ].
Proof. vm_compute. reflexivity. Qed.

(** * Further properties of the embedded code *)

(** ** schedule.py: the end of the window and the startup tasks *)

Lemma div_mod_unique_pos (a b q r : Z) :
  0 <= r < b -> a = b * q + r -> a / b = q /\ a mod b = r.
Proof.
  intros Hr Ha. split.
  - symmetry. apply (Z.div_unique_pos a b q r Hr Ha).
  - symmetry. apply (Z.mod_unique_pos a b q r Hr Ha).
Qed.

(** X1.  For a start hour in 0..23 and a duration of at least 0 minutes,
    [calclulate_end_time] returns a time whose hour is
    (start + duration // 60) mod 24 and whose minute is duration mod 60,
    whatever the current time of day; it reads the clock once. *)
Theorem calclulate_end_time_hour_minute (env : Env) (start duration : Z) (w : World)
    (Hstart : 0 <= start <= 23)
    (Hduration : 0 <= duration)
    (Hclock : forall k, 0 <= micros (clock env k)
                        /\ micros (clock env k) + us_per_day
                           + duration * us_per_minute < max_micros) :
  exists end_time,
    schedule.calclulate_end_time env start duration w
    = (with_clock_reads S w, Ok end_time)
    /\ hour end_time = (start + duration / 60) mod 24
    /\ minute end_time = duration mod 60.
Proof.
  unfold schedule.calclulate_end_time, bind, datetime_now, lift.
  rewrite (replace_hour_minute0_ok _ _ Hstart).
  destruct (Hclock (clock_reads w)) as [Hc1 Hc1'].
  set (now := clock env (clock_reads w)) in *.
  pose proof (midnight_bounds now) as Hm.
  pose proof (midnight_nonneg _ Hc1) as Hm0.
  pose proof (mod_minute_bounds now) as Hmm.
  rewrite (timedelta_of_minutes duration Hduration).
  2:{ unfold us_per_day, us_per_hour, us_per_minute, us_per_second in *. lia. }
  rewrite add_ok.
  2:{ cbn [micros delta_micros].
      unfold max_micros, us_per_day, us_per_hour, us_per_minute, us_per_second in *. lia. }
  eexists. split; [reflexivity|].
  cbn [micros delta_micros]. unfold hour, minute. cbn [micros].
  set (s := micros now mod us_per_minute) in *.
  set (a := duration / 60). set (b := duration mod 60).
  assert (Hab : duration = 60 * a + b /\ 0 <= b < 60).
  { subst a b. split; [apply Z.div_mod; lia | apply Z.mod_pos_bound; lia]. }
  destruct Hab as [Hd Hb].
  assert (Ha : 0 <= a) by (subst a; apply Z.div_pos; lia).
  set (c := (start + a) / 24). set (e := (start + a) mod 24).
  assert (Hce : start + a = 24 * c + e /\ 0 <= e < 24).
  { subst c e. split; [apply Z.div_mod; lia | apply Z.mod_pos_bound; lia]. }
  destruct Hce as [Hsa He].
  set (q := micros now / us_per_day).
  assert (Hmid : midnight now = us_per_day * q) by reflexivity.
  set (total := midnight now + start * us_per_hour + s + duration * us_per_minute).
  assert (Hday : total = us_per_day * (q + c) + (e * us_per_hour + b * us_per_minute + s)).
  { subst total. rewrite Hmid, Hd.
    unfold us_per_day, us_per_hour, us_per_minute, us_per_second in *. nia. }
  assert (Hhr : total = us_per_hour * (24 * (q + c) + e) + (b * us_per_minute + s)).
  { rewrite Hday. unfold us_per_day, us_per_hour. lia. }
  destruct (div_mod_unique_pos total us_per_day (q + c)
              (e * us_per_hour + b * us_per_minute + s)) as [_ Hmod_day];
    [unfold us_per_day, us_per_hour, us_per_minute, us_per_second in *; lia
    | exact Hday |].
  destruct (div_mod_unique_pos total us_per_hour (24 * (q + c) + e)
              (b * us_per_minute + s)) as [_ Hmod_hour];
    [unfold us_per_hour, us_per_minute, us_per_second in *; lia | exact Hhr |].
  rewrite Hmod_day, Hmod_hour.
  split.
  - apply (div_mod_unique_pos _ us_per_hour e (b * us_per_minute + s));
      [unfold us_per_hour, us_per_minute, us_per_second in *; lia | lia].
  - apply (div_mod_unique_pos _ us_per_minute b s);
      [unfold us_per_minute, us_per_second in *; lia | lia].
Qed.

Lemma calclulate_end_time_hour_minute_witness :
  exists end_time,
    snd (schedule.calclulate_end_time (samples.env_at samples.inside_the_window)
           23 60 samples.world) = Ok end_time
    /\ hour end_time = 0 /\ minute end_time = 0.
Proof.
  assert (Hclock : forall k : nat,
             0 <= micros (clock (samples.env_at samples.inside_the_window) k)
             /\ micros (clock (samples.env_at samples.inside_the_window) k) + us_per_day
                + 60 * us_per_minute < max_micros).
  { intros k. cbn. unfold max_micros, us_per_day, us_per_hour, us_per_minute, us_per_second.
    lia. }
  assert (Hstart : 0 <= 23 <= 23) by lia.
  assert (Hduration : 0 <= 60) by lia.
  destruct (calclulate_end_time_hour_minute (samples.env_at samples.inside_the_window)
              23 60 samples.world Hstart Hduration Hclock) as (end_time & Hrun & Hh & Hm).
  exists end_time. rewrite Hrun. split; [reflexivity|]. split; [exact Hh|exact Hm].
Defined.

Lemma scheduled_batch_delete_temp_count (reconnect : bool) (w : World) :
  delete_temp_count (scheduled_batch reconnect w) = 1%nat.
Proof.
  unfold scheduled_batch, schedule.get_scheduled_tasks, bind, gets, ret. cbn.
  destruct reconnect, (schedule_metadata_backup (CONFIG w)),
    (schedule_generate_book_covers (CONFIG w)),
    (schedule_generate_series_covers (CONFIG w)); reflexivity.
Qed.

Lemma get_scheduled_tasks_run (reconnect : bool) (w : World) :
  schedule.get_scheduled_tasks reconnect w = (w, Ok (scheduled_batch reconnect w)).
Proof. reflexivity. Qed.

(** What [register_startup_tasks] submits: the batch without the database
    reconnect when in development or test mode outside the window, and
    the delete-temp-folder task alone otherwise. *)
Lemma register_startup_tasks_run (env : Env) (APP_MODE : string) (w : World) :
  scheduler_available env = true ->
  0 <= schedule_start_time (CONFIG w) <= 23 ->
  0 <= schedule_duration (CONFIG w) ->
  (forall k, 0 <= micros (clock env k)
             /\ micros (clock env k) + us_per_day
                + schedule_duration (CONFIG w) * us_per_minute < max_micros) ->
  exists added reads,
    startup.register_startup_tasks env APP_MODE w
    = (with_immediate (fun l => l ++ added) (with_clock_reads (fun n => (reads + n)%nat) w),
       Ok tt)
    /\ delete_temp_count added = 1%nat
    /\ (String.eqb APP_MODE "development" || String.eqb APP_MODE "test" = false ->
        added = [mkScheduled MakeTaskDeleteTempFolder "delete temp" true]).
Proof.
  intros Hsched Hs Hd Hc.
  unfold startup.register_startup_tasks. rewrite Hsched.
  unfold bind at 1, gets at 1. unfold bind at 1, gets at 1. unfold bind at 1.
  destruct (String.eqb APP_MODE "development" || String.eqb APP_MODE "test").
  - unfold bind at 1. rewrite (should_task_be_running_run env _ _ w Hs Hd Hc).
    unfold ret at 1.
    destruct (strictly_inside_window _ _ _ _); cbn [negb].
    + exists [mkScheduled MakeTaskDeleteTempFolder "delete temp" true], 2%nat.
      split; [destruct w; reflexivity|]. split; [reflexivity|discriminate].
    + unfold bind. rewrite get_scheduled_tasks_run.
      exists (scheduled_batch false w), 2%nat.
      split; [destruct w; reflexivity|].
      split; [apply scheduled_batch_delete_temp_count|discriminate].
  - unfold ret at 1.
    exists [mkScheduled MakeTaskDeleteTempFolder "delete temp" true], 0%nat.
    split; [destruct w; reflexivity|]. split; reflexivity.
Qed.

Lemma delete_temp_count_app (l1 l2 : list ScheduledTask) :
  delete_temp_count (l1 ++ l2) = (delete_temp_count l1 + delete_temp_count l2)%nat.
Proof. unfold delete_temp_count. rewrite List.filter_app, length_app. reflexivity. Qed.

Lemma create_app_registration_run (env : Env) (APP_MODE : string) (w : World) :
  scheduler_available env = true ->
  0 <= schedule_start_time (CONFIG w) <= 23 ->
  0 <= schedule_duration (CONFIG w) ->
  (forall k, 0 <= micros (clock env k)
             /\ micros (clock env k) + us_per_day
                + schedule_duration (CONFIG w) * us_per_minute < max_micros) ->
  exists w' added,
    startup.create_app_registration env APP_MODE w = (w', Ok tt)
    /\ immediate w'
       = immediate w
         ++ (if strictly_inside_window (schedule_start_time (CONFIG w))
                  (schedule_duration (CONFIG w))
                  (clock env (S (S (clock_reads w)))) (clock env (S (clock_reads w)))
             then scheduled_batch (schedule_reconnect (CONFIG w)) w else [])
         ++ added
    /\ delete_temp_count added = 1%nat.
Proof.
  intros Hsched Hstart Hduration Hclock.
  unfold startup.create_app_registration.
  unfold bind at 1, gets at 1. unfold bind at 1.
  destruct (register_scheduled_tasks_run env (schedule_reconnect (CONFIG w)) w
              Hsched Hstart Hduration Hclock) as [end_time ->].
  match goal with |- context [startup.register_startup_tasks env APP_MODE ?w1] =>
    destruct (register_startup_tasks_run env APP_MODE w1 Hsched Hstart Hduration Hclock)
      as (added & reads & -> & Hcount & _) end.
  eexists _, added. split; [reflexivity|]. split; [|exact Hcount].
  destruct w. symmetry. apply app_assoc.
Qed.

(** X2.  With a scheduler available and valid settings, the registration
    at the end of [create_app] returns normally and always submits the
    delete-temp-folder task: once when the application starts outside the
    maintenance window, and twice when it starts strictly inside it (once
    in the batch that [register_scheduled_tasks] kicks off and once more
    by [register_startup_tasks]), in every application mode. *)
Theorem create_app_registration_submits_delete_temp (env : Env) (APP_MODE : string)
    (w : World)
    (Hsched : scheduler_available env = true)
    (Hstart : 0 <= schedule_start_time (CONFIG w) <= 23)
    (Hduration : 0 <= schedule_duration (CONFIG w))
    (Hclock : forall k, 0 <= micros (clock env k)
                        /\ micros (clock env k) + us_per_day
                           + schedule_duration (CONFIG w) * us_per_minute < max_micros) :
  let out := startup.create_app_registration env APP_MODE w in
  let inside := strictly_inside_window (schedule_start_time (CONFIG w))
                  (schedule_duration (CONFIG w))
                  (clock env (S (S (clock_reads w)))) (clock env (S (clock_reads w))) in
  snd out = Ok tt
  /\ exists added,
       immediate (fst out) = immediate w ++ added
       /\ delete_temp_count added = (if inside then 2 else 1)%nat.
Proof.
  cbv zeta.
  destruct (create_app_registration_run env APP_MODE w Hsched Hstart Hduration Hclock)
    as (w' & added & -> & Himm & Hcount).
  cbn [fst snd]. split; [reflexivity|].
  eexists. split; [exact Himm|].
  rewrite delete_temp_count_app, Hcount.
  destruct (strictly_inside_window _ _ _ _).
  - rewrite scheduled_batch_delete_temp_count. reflexivity.
  - reflexivity.
Qed.

Lemma create_app_registration_submits_delete_temp_witness :
  delete_temp_count
    (immediate (fst (startup.create_app_registration
                       (samples.env_at samples.inside_the_window) "production"
                       samples.world)))
  = 2%nat.
Proof.
  assert (Hclock : forall k : nat,
             0 <= micros (clock (samples.env_at samples.inside_the_window) k)
             /\ micros (clock (samples.env_at samples.inside_the_window) k) + us_per_day
                + schedule_duration (CONFIG samples.world) * us_per_minute < max_micros).
  { intros k. cbn. unfold max_micros, us_per_day, us_per_hour, us_per_minute, us_per_second.
    lia. }
  assert (Hstart : 0 <= schedule_start_time (CONFIG samples.world) <= 23) by (cbn; lia).
  assert (Hduration : 0 <= schedule_duration (CONFIG samples.world)) by (cbn; lia).
  destruct (create_app_registration_submits_delete_temp
              (samples.env_at samples.inside_the_window) "production" samples.world
              eq_refl Hstart Hduration Hclock) as (_ & added & Himm & Hcount).
  rewrite Himm. exact Hcount.
Defined.

(** ** metadata_backup.py: what a run does *)

Lemma open_metadata_run (db : metadata_backup.Collaborators) (bk : metadata_backup.Book)
    (cc : list string) (r : metadata_backup.BackupRun) :
  metadata_backup.open_metadata db bk cc r = (r, open_metadata_outcome db bk cc).
Proof.
  unfold open_metadata_outcome, metadata_backup.open_metadata,
    try_except, try_excepts, bind, lift, raise.
  destruct (metadata_backup.create_new_metadata_backup db bk cc); [|reflexivity].
  destruct (metadata_backup.config_use_google_drive db).
  - destruct (metadata_backup.is_gdrive_ready db) as [[]|]; reflexivity.
  - destruct (metadata_backup.get_book_path db); [|reflexivity].
    destruct (metadata_backup.write_file db _ _); [reflexivity|].
    cbn [dispatch]. destruct (matches e [Exception]); reflexivity.
Qed.

Lemma ordinary_raise (A : Type) (e : exn) :
  ordinary (@Raise A e) -> matches e [Exception] = true.
Proof. unfold ordinary, matches. cbn [existsb]. intros ->. reflexivity. Qed.

Lemma mark_loop_run (db : metadata_backup.Collaborators)
    (books : list metadata_backup.Book) (r : metadata_backup.BackupRun) :
  for_each books
    (fun b => lift (metadata_backup.set_metadata_dirty db (metadata_backup.book_id b))) r
  = (r, first_failure
          (map (fun b => metadata_backup.set_metadata_dirty db
                           (metadata_backup.book_id b)) books)).
Proof.
  induction books as [|b books IH]; [reflexivity|].
  cbn [for_each map first_failure]. unfold bind, lift at 1.
  destruct (metadata_backup.set_metadata_dirty db (metadata_backup.book_id b)) as [[]|e];
    [apply IH | reflexivity].
Qed.

(** X3.  When rollback and close of the session succeed and the calls
    made raise nothing beyond class [Exception], a run that queues all
    books ([set_dirty] true) always returns normally and always closes
    the session.  If the query, every marking and the commit succeed, the
    task ends in success after the commit; otherwise it ends in Fail with
    the message "Error adding book for backup: " followed by the text of
    the first exception, the session is rolled back, and the close still
    follows. *)
Theorem set_all_books_dirty_always_closes (db : metadata_backup.Collaborators)
    (t : CalibreTask)
    (Hrollback : metadata_backup.rollback db = Ok tt)
    (Hclose : metadata_backup.close db = Ok tt)
    (Hordinary : ordinary (mark_all_outcome db)) :
  metadata_backup.run true db (metadata_backup.start t)
  = (match mark_all_outcome db with
     | Ok _ =>
         metadata_backup.mkBackupRun (_handleSuccess t) metadata_backup.Unbound
           [metadata_backup.Commit; metadata_backup.HandleSuccess; metadata_backup.Close]
     | Raise e =>
         let msg := "Error adding book for backup: " +:+ exn_text e in
         metadata_backup.mkBackupRun (_handleError msg t) metadata_backup.Unbound
           [metadata_backup.LogDebug msg; metadata_backup.HandleError msg;
            metadata_backup.Rollback; metadata_backup.Close]
     end, Ok tt).
Proof.
  unfold metadata_backup.run, metadata_backup.set_all_books_dirty.
  unfold mark_all_outcome in *.
  unfold bind at 1, try_except, try_excepts.
  unfold bind at 1, lift at 1.
  destruct (metadata_backup.query_all_books db) as [books|e].
  - unfold bind at 1. rewrite mark_loop_run.
    destruct (first_failure _) as [[]|e].
    + unfold bind at 1, metadata_backup.session_commit, bind at 1, lift at 1.
      destruct (metadata_backup.commit_all db) as [[]|e].
      * cbn. unfold metadata_backup.session_close, bind, lift. rewrite Hclose. reflexivity.
      * cbn [dispatch]. rewrite (ordinary_raise unit e Hordinary).
        unfold bind, metadata_backup.emit, metadata_backup.handleError,
          metadata_backup.on_self, metadata_backup.session_rollback,
          metadata_backup.session_close, bind, lift, modify.
        rewrite Hrollback, Hclose. reflexivity.
    + cbn [dispatch]. rewrite (ordinary_raise unit e Hordinary).
      unfold bind, metadata_backup.emit, metadata_backup.handleError,
        metadata_backup.on_self, metadata_backup.session_rollback,
        metadata_backup.session_close, bind, lift, modify.
      rewrite Hrollback, Hclose. reflexivity.
  - cbn [dispatch]. rewrite (ordinary_raise unit e Hordinary).
    unfold bind, metadata_backup.emit, metadata_backup.handleError,
      metadata_backup.on_self, metadata_backup.session_rollback,
      metadata_backup.session_close, bind, lift, modify.
    rewrite Hrollback, Hclose. reflexivity.
Qed.

Lemma set_progress_twice (p q : Progress) (t : CalibreTask) :
  set_progress p (set_progress q t) = set_progress p t.
Proof. reflexivity. Qed.

Lemma handleSuccess_set_progress (p : Progress) (t : CalibreTask) :
  _handleSuccess (set_progress p t) = _handleSuccess t.
Proof. reflexivity. Qed.

Lemma handleError_set_progress (msg : string) (p : Progress) (t : CalibreTask) :
  _handleError msg (set_progress p t) = _handleError msg t.
Proof. reflexivity. Qed.

(** One turn of the loop for a row that is handled without error. *)
Lemma backup_loop_cons_ok (db : metadata_backup.Collaborators) (cc : list string)
    (count i b : Z) (rest : list Z) (r : metadata_backup.BackupRun) :
  book_step_outcome db cc b = Ok tt ->
  exists bk,
    metadata_backup.query_book db b = Ok bk
    /\ metadata_backup.backup_loop db cc count i (b :: rest) r
       = metadata_backup.backup_loop db cc count (i + 1) rest
           (metadata_backup.mkBackupRun
              (set_progress (ProgressScaled count (i + 1)) (metadata_backup.self r))
              (metadata_backup.Bound bk)
              (metadata_backup.events r ++ handled_events db [b])).
Proof.
  unfold book_step_outcome. intros Hstep.
  destruct (metadata_backup.query_book db b) as [bk|] eqn:Hq; [|discriminate].
  destruct (metadata_backup.delete_dirtied db b) as [[]|] eqn:Hdel; [|discriminate].
  destruct (metadata_backup.commit_book db b) as [[]|] eqn:Hcom; [|discriminate].
  exists bk. split; [reflexivity|].
  cbn [metadata_backup.backup_loop]. unfold bind at 1, lift at 1. rewrite Hq.
  unfold bind at 1, metadata_backup.assign_book, modify at 1.
  unfold bind at 1, lift at 1. rewrite Hdel.
  unfold bind at 1, metadata_backup.session_commit, bind at 1, lift at 1. rewrite Hcom.
  unfold metadata_backup.emit at 1, modify at 1.
  unfold bind at 1.
  unfold handled_events. cbn [flat_map]. rewrite Hq, app_nil_r.
  destruct bk as [book|].
  - rewrite open_metadata_run, Hstep.
    unfold bind at 1, metadata_backup.on_self, modify. reflexivity.
  - unfold metadata_backup.emit at 1, modify at 1.
    unfold bind at 1, metadata_backup.on_self, modify. cbn.
    rewrite <- app_assoc. reflexivity.
Qed.

Lemma handled_events_app (db : metadata_backup.Collaborators) (l1 l2 : list Z) :
  handled_events db (l1 ++ l2) = handled_events db l1 ++ handled_events db l2.
Proof. unfold handled_events. apply flat_map_app. Qed.

(** The loop over rows that are all handled without error, followed by
    whatever rows remain. *)
Lemma backup_loop_prefix (db : metadata_backup.Collaborators) (cc : list string)
    (count : Z) (pre : list Z) :
  forall (i : Z) (post : list Z) (r : metadata_backup.BackupRun),
    Forall (fun b => book_step_outcome db cc b = Ok tt) pre ->
    metadata_backup.backup_loop db cc count i (pre ++ post) r
    = metadata_backup.backup_loop db cc count (i + Z.of_nat (length pre)) post
        (metadata_backup.mkBackupRun
           (match pre with
            | [] => metadata_backup.self r
            | _ => set_progress (ProgressScaled count (i + Z.of_nat (length pre)))
                     (metadata_backup.self r)
            end)
           (book_after db pre (metadata_backup.book r))
           (metadata_backup.events r ++ handled_events db pre)).
Proof.
  induction pre as [|b pre IH]; intros i post r Hall.
  - cbn. rewrite Z.add_0_r, app_nil_r. destruct r; reflexivity.
  - apply Forall_cons in Hall as [Hb Hall].
    cbn [app]. destruct (backup_loop_cons_ok db cc count i b (pre ++ post) r Hb)
      as (bk & Hq & ->).
    rewrite (IH (i + 1) post _ Hall). cbn [metadata_backup.self
      metadata_backup.book metadata_backup.events length].
    replace (i + 1 + Z.of_nat (length pre)) with (i + Z.of_nat (S (length pre))) by lia.
    f_equal. f_equal.
    + destruct pre; reflexivity.
    + unfold book_after. destruct pre as [|b' pre'].
      * cbn. rewrite Hq. reflexivity.
      * change (last (b :: b' :: pre')) with (last (b' :: pre')).
        destruct (last (b' :: pre')) as [x|] eqn:Hl.
        -- destruct (metadata_backup.query_book db x) eqn:Hx; [reflexivity|].
           exfalso.
           assert (Hin : x ∈ b' :: pre').
           { apply list_elem_of_lookup. exists (length pre').
             rewrite <- Hl. rewrite last_lookup. reflexivity. }
           rewrite Forall_forall in Hall. specialize (Hall x Hin).
           unfold book_step_outcome in Hall. rewrite Hx in Hall. discriminate.
        -- apply last_None in Hl. discriminate.
    + rewrite <- app_assoc. f_equal.
      change (b :: pre) with ([b] ++ pre). symmetry. apply handled_events_app.
Qed.

Lemma commit_count_handled_events (db : metadata_backup.Collaborators) (rows : list Z) :
  commit_count (handled_events db rows) = length rows.
Proof.
  induction rows as [|b rows IH]; [reflexivity|].
  change (b :: rows) with ([b] ++ rows). rewrite handled_events_app.
  unfold commit_count in *. rewrite List.filter_app, length_app, IH.
  unfold handled_events. cbn [flat_map]. rewrite app_nil_r.
  destruct (metadata_backup.query_book db b) as [[bk|]|]; reflexivity.
Qed.

(** One turn of the loop for a row at which something raises. *)
Lemma backup_loop_cons_fail (db : metadata_backup.Collaborators) (cc : list string)
    (count i b : Z) (rest : list Z) (r : metadata_backup.BackupRun) (e : exn) :
  book_step_outcome db cc b = Raise e ->
  metadata_backup.backup_loop db cc count i (b :: rest) r
  = (metadata_backup.mkBackupRun (metadata_backup.self r)
       (match metadata_backup.query_book db b with
        | Ok bk => metadata_backup.Bound bk
        | Raise _ => metadata_backup.book r
        end)
       (metadata_backup.events r
        ++ if row_committed db b then [metadata_backup.Commit] else []),
     Raise e).
Proof.
  unfold book_step_outcome, row_committed. intros Hstep.
  cbn [metadata_backup.backup_loop]. unfold bind at 1, lift at 1.
  destruct (metadata_backup.query_book db b) as [bk|e1] eqn:Hq.
  2:{ simplify_eq. cbn. rewrite app_nil_r. destruct r; reflexivity. }
  unfold bind at 1, metadata_backup.assign_book, modify at 1.
  unfold bind at 1, lift at 1.
  destruct (metadata_backup.delete_dirtied db b) as [[]|e2] eqn:Hdel.
  2:{ simplify_eq. cbn. rewrite app_nil_r. reflexivity. }
  unfold bind at 1, metadata_backup.session_commit, bind at 1, lift at 1.
  destruct (metadata_backup.commit_book db b) as [[]|e3] eqn:Hcom.
  2:{ simplify_eq. cbn. rewrite app_nil_r. reflexivity. }
  unfold metadata_backup.emit at 1, modify at 1. unfold bind at 1.
  destruct bk as [book|]; [|discriminate].
  rewrite open_metadata_run, Hstep. reflexivity.
Qed.

(** The whole run when the rows before [b] are handled without error and
    something raises at [b], with [book] assigned by then. *)
Lemma backup_metadata_failure_run (db : metadata_backup.Collaborators) (t : CalibreTask)
    (pre : list Z) (b : Z) (post : list Z) (cc : list string) (e : exn) :
  metadata_backup.query_dirtied db = Ok (pre ++ b :: post) ->
  metadata_backup.query_custom_columns db = Ok cc ->
  Forall (fun x => book_step_outcome db cc x = Ok tt) pre ->
  book_step_outcome db cc b = Raise e ->
  isinstance e Exception = true ->
  pre <> [] \/ is_ok (metadata_backup.query_book db b) = true ->
  metadata_backup.rollback db = Ok tt ->
  metadata_backup.close db = Ok tt ->
  exists bk,
    metadata_backup.run false db (metadata_backup.start t)
    = (let msg := "Error creating metadata backup: " +:+ exn_text e in
       metadata_backup.mkBackupRun (_handleError msg t) (metadata_backup.Bound bk)
         (handled_events db pre
          ++ (if row_committed db b then [metadata_backup.Commit] else [])
          ++ [metadata_backup.LogDebug
                ("Error creating metadata backup for book " +:+ book_text bk +:+ ": "
                 +:+ exn_text e);
              metadata_backup.HandleError msg;
              metadata_backup.Rollback; metadata_backup.Close]),
       Ok tt).
Proof.
  intros Hrows Hcc Hpre Hfail Hexc Hbound Hrollback Hclose.
  assert (Hbk : exists bk,
             match metadata_backup.query_book db b with
             | Ok bk' => metadata_backup.Bound bk'
             | Raise _ => book_after db pre metadata_backup.Unbound
             end = metadata_backup.Bound bk).
  { destruct (metadata_backup.query_book db b) as [bk|e1] eqn:Hq; [eauto|].
    destruct Hbound as [Hne|Hok]; [|discriminate].
    unfold book_after. destruct (last pre) as [x|] eqn:Hl.
    - assert (Hin : x ∈ pre).
      { apply list_elem_of_lookup. exists (pred (length pre)).
        rewrite <- Hl. apply eq_sym, last_lookup. }
      rewrite Forall_forall in Hpre. specialize (Hpre x Hin).
      unfold book_step_outcome in Hpre.
      destruct (metadata_backup.query_book db x); [eauto|discriminate].
    - apply last_None in Hl. contradiction. }
  destruct Hbk as [bk Hbk]. exists bk.
  unfold metadata_backup.run, metadata_backup.backup_metadata, try_except, try_excepts.
  unfold bind at 1, lift at 1. rewrite Hrows.
  unfold bind at 1, lift at 1. rewrite Hcc.
  unfold bind at 1.
  rewrite (backup_loop_prefix db cc _ pre 0 (b :: post) _ Hpre).
  rewrite (backup_loop_cons_fail db cc _ _ b post _ e Hfail).
  cbn [dispatch matches existsb metadata_backup.self metadata_backup.book
       metadata_backup.events metadata_backup.start].
  rewrite Hexc. cbn [orb].
  rewrite Hbk.
  unfold bind at 1, metadata_backup.book_label, bind at 1, get at 1.
  cbn [metadata_backup.book].
  unfold metadata_backup.handleError, metadata_backup.session_rollback,
    metadata_backup.session_close, metadata_backup.on_self, metadata_backup.emit,
    bind, lift, modify, ret.
  rewrite Hrollback, Hclose.
  destruct bk as [book|]; cbn beta iota;
    cbn [metadata_backup.self metadata_backup.book metadata_backup.events];
    rewrite <- !app_assoc; cbn [app]; destruct pre; reflexivity.
Qed.

Lemma commit_count_app (l1 l2 : list metadata_backup.event) :
  commit_count (l1 ++ l2) = (commit_count l1 + commit_count l2)%nat.
Proof. unfold commit_count. rewrite List.filter_app, length_app. reflexivity. Qed.

Lemma commit_count_cons_other (ev : metadata_backup.event)
    (l : list metadata_backup.event) :
  ev <> metadata_backup.Commit -> commit_count (ev :: l) = commit_count l.
Proof.
  intros Hne. unfold commit_count. cbn [List.filter].
  rewrite (bool_decide_eq_false_2 _ Hne). reflexivity.
Qed.

Lemma commit_count_cons_commit (l : list metadata_backup.event) :
  commit_count (metadata_backup.Commit :: l) = S (commit_count l).
Proof.
  unfold commit_count. cbn [List.filter].
  rewrite (bool_decide_eq_true_2 _ eq_refl). reflexivity.
Qed.

Lemma set_all_books_dirty_always_closes_witness :
  let out := metadata_backup.run true samples.db_mark_fails
               (metadata_backup.start samples.backup_task) in
  snd out = Ok tt
  /\ stat (metadata_backup.self (fst out)) = STAT_FAIL
  /\ metadata_backup.events (fst out)
     = [ metadata_backup.LogDebug "Error adding book for backup: database is locked";
         metadata_backup.HandleError "Error adding book for backup: database is locked";
         metadata_backup.Rollback; metadata_backup.Close ].
Proof.
  cbv zeta.
  rewrite (set_all_books_dirty_always_closes samples.db_mark_fails samples.backup_task
             eq_refl eq_refl eq_refl).
  repeat split.
Defined.

(** X4.  When the two initial queries succeed, every dirtied row is
    handled without error and the session closes, a metadata backup
    returns normally with the task in success: one commit per row in row
    order, a log line for each row whose book is no longer in the
    database, then success and the close of the session.  With no dirtied
    row at all the run is just success and close. *)
Theorem backup_metadata_clean_run (db : metadata_backup.Collaborators) (t : CalibreTask)
    (rows : list Z) (cc : list string)
    (Hrows : metadata_backup.query_dirtied db = Ok rows)
    (Hcc : metadata_backup.query_custom_columns db = Ok cc)
    (Hall : Forall (fun b => book_step_outcome db cc b = Ok tt) rows)
    (Hclose : metadata_backup.close db = Ok tt) :
  metadata_backup.run false db (metadata_backup.start t)
  = (metadata_backup.mkBackupRun (_handleSuccess t)
       (book_after db rows metadata_backup.Unbound)
       (handled_events db rows
        ++ [metadata_backup.HandleSuccess; metadata_backup.Close]),
     Ok tt)
  /\ commit_count (handled_events db rows) = length rows.
Proof.
  split; [|apply commit_count_handled_events].
  unfold metadata_backup.run, metadata_backup.backup_metadata, try_except, try_excepts.
  unfold bind at 1, lift at 1. rewrite Hrows.
  unfold bind at 1, lift at 1. rewrite Hcc.
  unfold bind at 1.
  rewrite <- (app_nil_r rows) at 2.
  rewrite (backup_loop_prefix db cc _ rows 0 [] _ Hall).
  cbn [metadata_backup.backup_loop]. unfold ret at 1.
  unfold metadata_backup.handleSuccess, metadata_backup.session_close,
    metadata_backup.on_self, metadata_backup.emit, bind, lift, modify.
  rewrite Hclose.
  cbn [metadata_backup.self metadata_backup.book metadata_backup.events
       metadata_backup.start app].
  rewrite <- !app_assoc. cbn [app].
  destruct rows; reflexivity.
Qed.

Lemma backup_metadata_clean_run_witness :
  metadata_backup.events
    (fst (metadata_backup.run false samples.db_healthy
            (metadata_backup.start samples.backup_task)))
  = [ metadata_backup.Commit; metadata_backup.Commit;
      metadata_backup.LogError "Book 2 not found in database";
      metadata_backup.Commit; metadata_backup.HandleSuccess; metadata_backup.Close ].
Proof.
  assert (Hall : Forall (fun b => book_step_outcome samples.db_healthy ["genre"] b = Ok tt)
                   [1; 2; 3]).
  { repeat constructor. }
  destruct (backup_metadata_clean_run samples.db_healthy samples.backup_task
              [1; 2; 3] ["genre"] eq_refl eq_refl Hall eq_refl) as [Hrun _].
  rewrite Hrun. reflexivity.
Defined.

(** X5.  While the rows are handled without error, the loop of
    [backup_metadata] over [count] rows stands, after its k-th row
    (1 <= k <= count), at the progress expression (1.0 / count) * k with
    exactly k more commits made, the task's state otherwise untouched,
    and goes on with the remaining rows from there. *)
Theorem backup_loop_progress_after_each_row (db : metadata_backup.Collaborators)
    (cc : list string) (pre post : list Z) (r : metadata_backup.BackupRun)
    (Hpre : pre <> [])
    (Hall : Forall (fun b => book_step_outcome db cc b = Ok tt) pre) :
  let count := Z.of_nat (length (pre ++ post)) in
  let k := Z.of_nat (length pre) in
  exists r',
    metadata_backup.backup_loop db cc count 0 (pre ++ post) r
    = metadata_backup.backup_loop db cc count k post r'
    /\ 1 <= k <= count
    /\ metadata_backup.self r'
       = set_progress (ProgressScaled count k) (metadata_backup.self r)
    /\ commit_count (metadata_backup.events r')
       = (commit_count (metadata_backup.events r) + length pre)%nat.
Proof.
  cbv zeta. eexists. split; [apply (backup_loop_prefix db cc _ pre 0 post r Hall)|].
  split.
  { rewrite length_app. destruct pre; [contradiction|]. cbn [length]. lia. }
  cbn [metadata_backup.self metadata_backup.events]. split.
  - destruct pre; [contradiction|]. reflexivity.
  - rewrite commit_count_app, commit_count_handled_events. reflexivity.
Qed.

Lemma backup_loop_progress_after_each_row_witness :
  exists r',
    metadata_backup.backup_loop samples.db_healthy ["genre"] 3 0 ([1; 2] ++ [3])
      (metadata_backup.start samples.backup_task)
    = metadata_backup.backup_loop samples.db_healthy ["genre"] 3 2 [3] r'
    /\ progress (metadata_backup.self r') = ProgressScaled 3 2.
Proof.
  assert (Hall : Forall (fun b => book_step_outcome samples.db_healthy ["genre"] b = Ok tt)
                   [1; 2]).
  { repeat constructor. }
  assert (Hne : [1; 2] <> ([] : list Z)) by discriminate.
  destruct (backup_loop_progress_after_each_row samples.db_healthy ["genre"] [1; 2] [3]
              (metadata_backup.start samples.backup_task) Hne Hall)
    as (r' & Hrun & _ & Hself & _).
  exists r'. split; [exact Hrun|]. rewrite Hself. reflexivity.
Defined.

(** ** The progress of the metadata backup as a float *)








(** X6.  Once the local [book] has been assigned (a row was handled
    before, or the lookup of the failing row itself succeeded), an
    exception of class [Exception] raised while a row is handled is
    caught: with rollback and close succeeding, [run] returns normally,
    the task is Fail with the message "Error creating metadata backup: "
    followed by the exception's text, and the run ends with
    [_handleError], rollback and close, after one commit for each row
    handled before and one more if the failing row's deletion was
    already committed. *)
Theorem backup_metadata_handles_failure_after_assignment
    (db : metadata_backup.Collaborators) (t : CalibreTask)
    (pre : list Z) (b : Z) (post : list Z) (cc : list string) (e : exn)
    (Hrows : metadata_backup.query_dirtied db = Ok (pre ++ b :: post))
    (Hcc : metadata_backup.query_custom_columns db = Ok cc)
    (Hpre : Forall (fun x => book_step_outcome db cc x = Ok tt) pre)
    (Hfail : book_step_outcome db cc b = Raise e)
    (Hexc : isinstance e Exception = true)
    (Hbound : pre <> [] \/ is_ok (metadata_backup.query_book db b) = true)
    (Hrollback : metadata_backup.rollback db = Ok tt)
    (Hclose : metadata_backup.close db = Ok tt) :
  let out := metadata_backup.run false db (metadata_backup.start t) in
  let msg := "Error creating metadata backup: " +:+ exn_text e in
  snd out = Ok tt
  /\ metadata_backup.self (fst out) = _handleError msg t
  /\ stat (metadata_backup.self (fst out)) = STAT_FAIL
  /\ error (metadata_backup.self (fst out)) = Some msg
  /\ exists before,
       metadata_backup.events (fst out)
       = before ++ [metadata_backup.HandleError msg;
                    metadata_backup.Rollback; metadata_backup.Close]
       /\ commit_count before
          = (length pre + if row_committed db b then 1 else 0)%nat.
Proof.
  cbv zeta.
  destruct (backup_metadata_failure_run db t pre b post cc e Hrows Hcc Hpre Hfail Hexc
              Hbound Hrollback Hclose) as [bk ->].
  cbn [fst snd metadata_backup.self metadata_backup.events].
  repeat split.
  eexists (handled_events db pre
           ++ (if row_committed db b then [metadata_backup.Commit] else [])
           ++ [metadata_backup.LogDebug _]).
  split.
  - rewrite <- !app_assoc. reflexivity.
  - rewrite !commit_count_app, commit_count_handled_events.
    rewrite (commit_count_cons_other (metadata_backup.LogDebug _)) by discriminate.
    destruct (row_committed db b);
      [rewrite commit_count_cons_commit|]; cbn; lia.
Qed.

Lemma backup_metadata_handles_failure_after_assignment_witness :
  let out := metadata_backup.run false samples.db_delete_fails
               (metadata_backup.start samples.backup_task) in
  snd out = Ok tt
  /\ error (metadata_backup.self (fst out))
     = Some "Error creating metadata backup: disk I/O error".
Proof.
  assert (Hbound : ([] : list Z) <> []
                   \/ is_ok (metadata_backup.query_book samples.db_delete_fails 42) = true)
    by (right; reflexivity).
  destruct (backup_metadata_handles_failure_after_assignment samples.db_delete_fails
              samples.backup_task [] 42 [] [] (Exn OperationalError "disk I/O error")
              eq_refl eq_refl (List.Forall_nil _) eq_refl eq_refl Hbound eq_refl eq_refl)
    as (Hr & _ & _ & He & _).
  cbv zeta. split; [exact Hr|exact He].
Defined.

(** X7.  When writing metadata.opf for a row fails with an exception of
    class [Exception], on the local file system and after the rows before
    it were handled, the task ends in Fail with the message
    "Error creating metadata backup: Writing Metadata failed with error: "
    followed by the error text and a blank, whatever the class of the
    error was; the deletion of that row from the dirtied table has
    already been committed before the rollback, so the run leaves the
    book unmarked although its metadata was not written. *)
Theorem backup_metadata_write_failure_after_commit
    (db : metadata_backup.Collaborators) (t : CalibreTask)
    (pre : list Z) (b : Z) (post : list Z) (cc : list string)
    (bk : metadata_backup.Book) (package root : string) (ex : exn)
    (Hrows : metadata_backup.query_dirtied db = Ok (pre ++ b :: post))
    (Hcc : metadata_backup.query_custom_columns db = Ok cc)
    (Hpre : Forall (fun x => book_step_outcome db cc x = Ok tt) pre)
    (Hquery : metadata_backup.query_book db b = Ok (Some bk))
    (Hdelete : metadata_backup.delete_dirtied db b = Ok tt)
    (Hcommit : metadata_backup.commit_book db b = Ok tt)
    (Hlocal : metadata_backup.config_use_google_drive db = false)
    (Hpackage : metadata_backup.create_new_metadata_backup db bk cc = Ok package)
    (Hroot : metadata_backup.get_book_path db = Ok root)
    (Hwrite : metadata_backup.write_file db
                (file_helper.path_join
                   (file_helper.path_join root (metadata_backup.book_path bk))
                   "metadata.opf") package = Raise ex)
    (Hexc : isinstance ex Exception = true)
    (Hrollback : metadata_backup.rollback db = Ok tt)
    (Hclose : metadata_backup.close db = Ok tt) :
  let out := metadata_backup.run false db (metadata_backup.start t) in
  snd out = Ok tt
  /\ stat (metadata_backup.self (fst out)) = STAT_FAIL
  /\ error (metadata_backup.self (fst out))
     = Some ("Error creating metadata backup: Writing Metadata failed with error: "
             +:+ exn_text ex +:+ " ")
  /\ commit_count (metadata_backup.events (fst out)) = S (length pre)
  /\ exists before,
       metadata_backup.events (fst out)
       = before ++ [metadata_backup.Rollback; metadata_backup.Close].
Proof.
  cbv zeta.
  assert (Hstep : book_step_outcome db cc b
                  = Raise (Exn Exception
                             ("Writing Metadata failed with error: "
                              +:+ exn_text ex +:+ " "))).
  { unfold book_step_outcome. rewrite Hquery, Hdelete, Hcommit.
    unfold open_metadata_outcome, metadata_backup.open_metadata,
      try_except, try_excepts, bind, lift, raise.
    rewrite Hpackage, Hlocal, Hroot, Hwrite.
    cbn [dispatch matches existsb]. rewrite Hexc. reflexivity. }
  assert (Hrow : row_committed db b = true).
  { unfold row_committed. rewrite Hquery, Hdelete, Hcommit. reflexivity. }
  assert (Hbound : pre <> [] \/ is_ok (metadata_backup.query_book db b) = true).
  { right. rewrite Hquery. reflexivity. }
  destruct (backup_metadata_failure_run db t pre b post cc _ Hrows Hcc Hpre Hstep
              eq_refl Hbound Hrollback Hclose) as [bk' ->].
  cbn [fst snd metadata_backup.self metadata_backup.events exn_text].
  rewrite Hrow. repeat split.
  - rewrite !commit_count_app, commit_count_handled_events.
    rewrite commit_count_cons_commit.
    do 4 (rewrite commit_count_cons_other by discriminate).
    cbn. lia.
  - eexists (handled_events db pre ++ [metadata_backup.Commit]
             ++ [metadata_backup.LogDebug _; metadata_backup.HandleError _]).
    rewrite <- !app_assoc. reflexivity.
Qed.

Lemma backup_metadata_write_failure_after_commit_witness :
  let out := metadata_backup.run false samples.db_write_fails
               (metadata_backup.start samples.backup_task) in
  error (metadata_backup.self (fst out))
  = Some "Error creating metadata backup: Writing Metadata failed with error: [Errno 13] Permission denied "
  /\ commit_count (metadata_backup.events (fst out)) = 2%nat.
Proof.
  assert (Hpre : Forall (fun x => book_step_outcome samples.db_write_fails [] x = Ok tt) [1]).
  { repeat constructor. }
  destruct (backup_metadata_write_failure_after_commit samples.db_write_fails
              samples.backup_task [1] 2 [] [] (metadata_backup.mkBook 2 "A/Two")
              "<package/>" "/books" (Exn PermissionError "[Errno 13] Permission denied")
              eq_refl eq_refl Hpre eq_refl eq_refl eq_refl eq_refl eq_refl eq_refl
              eq_refl eq_refl eq_refl eq_refl) as (_ & _ & He & Hc & _).
  cbv zeta. split; [exact He|exact Hc].
Defined.

(** ** tasks_status.py: the report *)

(** X8.  The report depends on a pool entry only through its owner and
    its task: two task lists that agree on these, entry by entry, are
    rendered alike.  In particular the [hidden] flag is not consulted, so
    hidden entries are listed like any other. *)
Theorem render_task_status_ignores_hidden (r : tasks_status.Rendering)
    (cu : tasks_status.User) (l1 l2 : list QueuedTask)
    (Hsame : map (fun e => (user e, task e)) l1 = map (fun e => (user e, task e)) l2) :
  tasks_status.render_task_status r cu l1 = tasks_status.render_task_status r cu l2.
Proof.
  revert l2 Hsame. induction l1 as [|e1 l1 IH]; intros [|e2 l2] Hsame;
    try discriminate; [reflexivity|].
  cbn [map] in Hsame. injection Hsame as Hu Ht Hrest.
  cbn [tasks_status.render_task_status].
  unfold tasks_status.shown, tasks_status.render_entry. rewrite Hu, Ht.
  rewrite (IH l2 Hrest). reflexivity.
Qed.

Lemma render_task_status_ignores_hidden_witness :
  tasks_status.render_task_status samples.rendering (tasks_status.mkUser "root" true)
    (map (fun e => mkQueued (num e) (user e) (added e) (task e) true) samples.pool)
  = tasks_status.render_task_status samples.rendering (tasks_status.mkUser "root" true)
      samples.pool.
Proof.
  apply render_task_status_ignores_hidden. reflexivity.
Defined.

(** X9.  The figures [format_runtime] prints are the exact split of the
    runtime's whole seconds: with d = runtime.days, the hours h, minutes
    m and seconds s it formats satisfy 0 <= h < 24, 0 <= m < 60,
    0 <= s < 60 and ((d * 24 + h) * 60 + m) * 60 + s = the runtime in
    microseconds divided by 1000000 (rounded down); the day part is
    printed exactly when d is not 0, the hours when h is not 0, and the
    minutes when h or m is not 0. *)
Theorem format_runtime_splits_seconds (r : tasks_status.Rendering) (runtime : timedelta) :
  exists h m s,
    0 <= h < 24 /\ 0 <= m < 60 /\ 0 <= s < 60
    /\ ((days runtime * 24 + h) * 60 + m) * 60 + s = delta_micros runtime / us_per_second
    /\ tasks_status.format_runtime r runtime
       = (if days runtime =? 0 then ""
          else tasks_status.format_unit_day r (days runtime) +:+ ", ")
         +:+ (if negb (h =? 0) then
                tasks_status.fmt_d h +:+ ":" +:+ tasks_status.fmt_02d m +:+ ":"
                +:+ tasks_status.fmt_02d s +:+ "s"
              else if negb (m =? 0) then
                tasks_status.fmt_2d m +:+ ":" +:+ tasks_status.fmt_02d s +:+ "s"
              else tasks_status.fmt_2d s +:+ "s").
Proof.
  exists (seconds runtime / 60 / 60), (seconds runtime / 60 mod 60),
    (seconds runtime mod 60).
  assert (Hsec : 0 <= seconds runtime < 86400
                 /\ days runtime * 86400 + seconds runtime
                    = delta_micros runtime / us_per_second).
  { unfold seconds, days, us_per_day, us_per_hour, us_per_minute, us_per_second.
    Z.div_mod_to_equations. lia. }
  destruct Hsec as [Hrange Hsum].
  split; [Z.div_mod_to_equations; lia|].
  split; [Z.div_mod_to_equations; lia|].
  split; [Z.div_mod_to_equations; lia|].
  split; [rewrite <- Hsum; Z.div_mod_to_equations; lia|].
  unfold tasks_status.format_runtime.
  destruct (days runtime =? 0); cbn [negb];
    destruct (seconds runtime / 60 / 60 =? 0); cbn [negb];
    destruct (seconds runtime / 60 mod 60 =? 0); cbn [negb];
    reflexivity.
Qed.

(** The handler once both numbers of the form can be read. *)
Lemma update_scheduledtasks_numbers_read (env : Env) (to_save : gmap string string)
    (w : World) (v d : Z) :
  submitted env to_save "schedule_start_time" = Some v ->
  submitted env to_save "schedule_duration" = Some d ->
  admin.update_scheduledtasks env to_save w
  = if ((0 <=? v) && (v <=? 23)) && ((0 <? d) && (d <=? 60)) then
      match save_block env (after_form to_save v d w) with
      | (w', Ok _) => (w', Ok (admin.Rendered "schedule_edit.html"))
      | (w', Raise e) => (w', Raise e)
      end
    else (after_form to_save v d w, Ok (admin.Rendered "schedule_edit.html")).
Proof.
  unfold submitted. intros Hv Hd.
  destruct (to_save !! "schedule_start_time") as [s1|] eqn:L1; [|discriminate].
  destruct (py_int env s1) as [v'|] eqn:P1; [|discriminate].
  destruct (to_save !! "schedule_duration") as [s2|] eqn:L2; [|discriminate].
  destruct (py_int env s2) as [d'|] eqn:P2; [|discriminate].
  simplify_eq.
  unfold admin.update_scheduledtasks. fold (save_block env).
  unfold admin.int_of_form, admin._config_int, admin._config_checkbox,
    admin.edit_scheduledtasks, flash, after_form, with_numbers.
  rewrite L1, L2. unfold bind, lift, ret, modify. rewrite P1. cbn beta iota.
  destruct ((0 <=? v) && (v <=? 23)); cbn beta iota; rewrite ?P1, P2; cbn beta iota;
    destruct ((0 <? d) && (d <=? 60)); cbn beta iota; rewrite ?P2; cbn beta iota;
    cbn [andb negb]; destruct w; reflexivity.
Qed.

(** ** admin.py: the settings handler on incomplete, rejected and unsaved
    forms *)

Lemma matches_single (e : exn) (c : exc_class) : matches e [c] = isinstance e c.
Proof. unfold matches. cbn [existsb]. apply orb_false_r. Qed.

Lemma in_range_start (v : Z) : (0 <=? v) && (v <=? 23) = true <-> 0 <= v <= 23.
Proof. rewrite andb_true_iff, !Z.leb_le. reflexivity. Qed.

Lemma in_range_duration (d : Z) : (0 <? d) && (d <=? 60) = true <-> 0 < d <= 60.
Proof. rewrite andb_true_iff, Z.ltb_lt, Z.leb_le. reflexivity. Qed.

(** The handler when the start hour cannot be read. *)
Lemma update_scheduledtasks_start_unread (env : Env) (to_save : gmap string string)
    (w : World) :
  submitted env to_save "schedule_start_time" = None ->
  exists e, admin.update_scheduledtasks env to_save w = (w, Raise e).
Proof.
  unfold submitted. intros Hv.
  unfold admin.update_scheduledtasks. unfold bind at 1, admin.int_of_form at 1.
  destruct (to_save !! "schedule_start_time") as [s1|] eqn:L1.
  - unfold lift at 1. destruct (py_int env s1) as [v|e] eqn:P1; [discriminate|].
    exists e. reflexivity.
  - eexists. reflexivity.
Qed.

(** The handler when the start hour is read and the duration cannot be. *)
Lemma update_scheduledtasks_duration_unread (env : Env) (to_save : gmap string string)
    (w : World) (v : Z) :
  submitted env to_save "schedule_start_time" = Some v ->
  submitted env to_save "schedule_duration" = None ->
  exists e,
    admin.update_scheduledtasks env to_save w
    = (if (0 <=? v) && (v <=? 23)
       then with_CONFIG (admin.set_int_field "schedule_start_time" v) w
       else with_flashes
              (fun l => l ++ [("Invalid start time for task specified", "error")]) w,
       Raise e).
Proof.
  unfold submitted. intros Hv Hd.
  destruct (to_save !! "schedule_start_time") as [s1|] eqn:L1; [|discriminate].
  destruct (py_int env s1) as [v'|] eqn:P1; [|discriminate].
  simplify_eq.
  unfold admin.update_scheduledtasks.
  unfold admin.int_of_form, admin._config_int, flash.
  rewrite L1. unfold bind, lift, ret, modify. rewrite P1. cbn beta iota.
  destruct (to_save !! "schedule_duration") as [s2|] eqn:L2.
  - destruct (py_int env s2) as [d|e] eqn:P2; [discriminate|].
    exists e.
    destruct ((0 <=? v) && (v <=? 23)); cbn beta iota; rewrite ?P1, ?P2; reflexivity.
  - eexists.
    destruct ((0 <=? v) && (v <=? 23)); cbn beta iota; rewrite ?P1; reflexivity.
Qed.

(** X10.  When one of the two numbers is missing from the form or is no
    integer literal, [update_scheduledtasks] raises before it looks at the
    check boxes: nothing is saved, the pool is not swept, and the duration
    and the four feature flags of the live settings are as before; if it
    is the start hour that cannot be read, nothing at all has changed. *)
Theorem update_scheduledtasks_incomplete_form (env : Env)
    (to_save : gmap string string) (w : World)
    (Hmissing : submitted env to_save "schedule_start_time" = None
                \/ submitted env to_save "schedule_duration" = None) :
  let out := admin.update_scheduledtasks env to_save w in
  is_ok (snd out) = false
  /\ saved (fst out) = saved w
  /\ tasks (fst out) = tasks w
  /\ end_requests (fst out) = end_requests w
  /\ schedule_duration (CONFIG (fst out)) = schedule_duration (CONFIG w)
  /\ flags (CONFIG (fst out)) = flags (CONFIG w)
  /\ (submitted env to_save "schedule_start_time" = None -> fst out = w).
Proof.
  cbv zeta.
  destruct (submitted env to_save "schedule_start_time") as [v|] eqn:Hv.
  - destruct Hmissing as [Hm|Hm]; [discriminate|].
    destruct (update_scheduledtasks_duration_unread env to_save w v Hv Hm) as [e ->].
    cbn [fst snd is_ok].
    destruct ((0 <=? v) && (v <=? 23)); destruct w; repeat split; discriminate.
  - destruct (update_scheduledtasks_start_unread env to_save w Hv) as [e ->].
    repeat split.
Qed.

Lemma update_scheduledtasks_incomplete_form_witness :
  let out := admin.update_scheduledtasks (samples.env_at samples.three_o_clock)
               samples.short_form samples.registered_world in
  is_ok (snd out) = false
  /\ saved (fst out) = []
  /\ flags (CONFIG (fst out)) = flags samples.settings.
Proof.
  assert (Hmissing :
            submitted (samples.env_at samples.three_o_clock) samples.short_form
              "schedule_start_time" = None
            \/ submitted (samples.env_at samples.three_o_clock) samples.short_form
                 "schedule_duration" = None) by (right; reflexivity).
  destruct (update_scheduledtasks_incomplete_form (samples.env_at samples.three_o_clock)
              samples.short_form samples.registered_world Hmissing)
    as (Hr & Hs & _ & _ & _ & Hf & _).
  cbv zeta. split; [exact Hr|]. split; [exact Hs|exact Hf].
Defined.

(** X11.  When both numbers can be read but not both are in range, the
    handler returns the settings page with the matching error messages
    and saves nothing, yet the live settings have changed: a number that
    is in range and all four check boxes have been written into [CONFIG],
    so the running application no longer agrees with what is stored. *)
Theorem update_scheduledtasks_rejected_form_changes_live_settings (env : Env)
    (to_save : gmap string string) (w : World) (v d : Z)
    (Hv : submitted env to_save "schedule_start_time" = Some v)
    (Hd : submitted env to_save "schedule_duration" = Some d)
    (Hrejected : ~ (0 <= v <= 23 /\ 0 < d <= 60)) :
  let out := admin.update_scheduledtasks env to_save w in
  snd out = Ok (admin.Rendered "schedule_edit.html")
  /\ CONFIG (fst out) = with_checkboxes to_save (with_numbers v d (CONFIG w))
  /\ saved (fst out) = saved w
  /\ tasks (fst out) = tasks w
  /\ end_requests (fst out) = end_requests w
  /\ flashes (fst out)
     = flashes w
       ++ (if (0 <=? v) && (v <=? 23) then []
           else [("Invalid start time for task specified", "error")])
       ++ (if (0 <? d) && (d <=? 60) then []
           else [("Invalid duration for task specified", "error")]).
Proof.
  cbv zeta. rewrite (update_scheduledtasks_numbers_read env to_save w v d Hv Hd).
  assert (Hno : ((0 <=? v) && (v <=? 23)) && ((0 <? d) && (d <=? 60)) = false).
  { apply not_true_is_false. intros Hyes. apply Hrejected.
    apply andb_true_iff in Hyes as [H1 H2].
    split; [apply in_range_start, H1 | apply in_range_duration, H2]. }
  rewrite Hno. cbn [fst snd].
  split; [reflexivity|].
  split; [destruct w; reflexivity|].
  split; [destruct w; reflexivity|].
  split; [destruct w; reflexivity|].
  split; [destruct w; reflexivity|].
  unfold after_form, with_CONFIG, with_flashes. cbn [flashes].
  destruct ((0 <=? v) && (v <=? 23)), ((0 <? d) && (d <=? 60));
    rewrite ?app_nil_r, <- ?app_assoc; reflexivity.
Qed.

Lemma update_scheduledtasks_rejected_form_changes_live_settings_witness :
  let out := admin.update_scheduledtasks (samples.env_at samples.three_o_clock)
               samples.bad_form samples.registered_world in
  saved (fst out) = []
  /\ schedule_duration (CONFIG (fst out)) = 30
  /\ schedule_metadata_backup (CONFIG (fst out)) = false.
Proof.
  assert (Hrejected : ~ (0 <= 24 <= 23 /\ 0 < 30 <= 60)) by lia.
  destruct (update_scheduledtasks_rejected_form_changes_live_settings
              (samples.env_at samples.three_o_clock) samples.bad_form
              samples.registered_world 24 30 eq_refl eq_refl Hrejected)
    as (_ & Hc & Hs & _).
  cbv zeta. split; [exact Hs|]. rewrite Hc. split; reflexivity.
Defined.

(** The [try] statement when [CONFIG.save()] raises. *)
Lemma save_block_failure (env : Env) (w : World) (e : exn) :
  save_outcome env = Raise e ->
  save_block env w
  = if isinstance e IntegrityError then
      (with_flashes
         (fun l => l ++ [("Oops! An unknown error occurred. Please try again later.",
                          "error")])
         (with_app_log
            (fun l => l ++ ["ub.session.rollback()";
                            "An unknown error occurred while saving scheduled tasks settings"])
            w), Ok tt)
    else if isinstance e OperationalError then
      (with_flashes (fun l => l ++ [("Settings DB is not Writeable", "error")])
         (with_app_log
            (fun l => l ++ ["ub.session.rollback()"; "Settings DB is not Writeable"]) w),
       Ok tt)
    else (w, Raise e).
Proof.
  intros Hsave. unfold save_block, try_excepts.
  unfold bind at 1, admin.CONFIG_save at 1, bind at 1, lift at 1. rewrite Hsave.
  cbn [dispatch]. rewrite !matches_single.
  destruct (isinstance e IntegrityError); [|destruct (isinstance e OperationalError)].
  - unfold bind, admin.ub_session_rollback, admin.log_exception, flash, modify.
    destruct w. unfold with_flashes, with_app_log. cbn [app_log flashes CONFIG saved
      tasks end_requests jobs immediate clock_reads].
    rewrite <- app_assoc. reflexivity.
  - unfold bind, admin.ub_session_rollback, admin.log_exception, flash, modify.
    destruct w. unfold with_flashes, with_app_log. cbn [app_log flashes CONFIG saved
      tasks end_requests jobs immediate clock_reads].
    rewrite <- app_assoc. reflexivity.
  - reflexivity.
Qed.

(** X12.  When both numbers are in range but [CONFIG.save()] raises, the
    pool is not swept and nothing is saved, while the live settings
    already carry the new values.  An [IntegrityError] and an
    [OperationalError] are answered with their error message and the
    settings page; any other exception leaves the handler. *)
Theorem update_scheduledtasks_save_failure (env : Env)
    (to_save : gmap string string) (w : World) (v d : Z) (e : exn)
    (Hv : submitted env to_save "schedule_start_time" = Some v)
    (Hd : submitted env to_save "schedule_duration" = Some d)
    (Hvr : 0 <= v <= 23) (Hdr : 0 < d <= 60)
    (Hsave : save_outcome env = Raise e) :
  let out := admin.update_scheduledtasks env to_save w in
  CONFIG (fst out) = with_checkboxes to_save (with_numbers v d (CONFIG w))
  /\ saved (fst out) = saved w
  /\ tasks (fst out) = tasks w
  /\ end_requests (fst out) = end_requests w
  /\ (if isinstance e IntegrityError then
        snd out = Ok (admin.Rendered "schedule_edit.html")
        /\ flashes (fst out)
           = flashes w
             ++ [("Oops! An unknown error occurred. Please try again later.", "error")]
      else if isinstance e OperationalError then
        snd out = Ok (admin.Rendered "schedule_edit.html")
        /\ flashes (fst out) = flashes w ++ [("Settings DB is not Writeable", "error")]
      else snd out = Raise e /\ flashes (fst out) = flashes w).
Proof.
  cbv zeta. rewrite (update_scheduledtasks_numbers_read env to_save w v d Hv Hd).
  rewrite (proj2 (in_range_start v) Hvr), (proj2 (in_range_duration d) Hdr).
  cbn [andb]. rewrite (save_block_failure env _ e Hsave).
  unfold after_form.
  rewrite (proj2 (in_range_start v) Hvr), (proj2 (in_range_duration d) Hdr).
  destruct (isinstance e IntegrityError); [|destruct (isinstance e OperationalError)];
    destruct w; repeat split.
Qed.

Lemma update_scheduledtasks_save_failure_witness :
  let out := admin.update_scheduledtasks samples.env_save_fails
               samples.form samples.registered_world in
  snd out = Ok (admin.Rendered "schedule_edit.html")
  /\ flashes (fst out) = [("Settings DB is not Writeable", "error")]
  /\ saved (fst out) = []
  /\ schedule_start_time (CONFIG (fst out)) = 5.
Proof.
  assert (H1 : 0 <= 5 <= 23) by lia.
  assert (H2 : 0 < 30 <= 60) by lia.
  destruct (update_scheduledtasks_save_failure samples.env_save_fails samples.form
              samples.registered_world 5 30
              (Exn OperationalError "attempt to write a readonly database")
              eq_refl eq_refl H1 H2 eq_refl) as (Hc & Hs & _ & _ & Hcase).
  cbv zeta. change (isinstance _ IntegrityError) with false in Hcase.
  change (isinstance _ OperationalError) with true in Hcase. cbv iota in Hcase.
  destruct Hcase as [Hr Hf].
  split; [exact Hr|]. split; [exact Hf|]. split; [exact Hs|].
  rewrite Hc. reflexivity.
Defined.

(** ** admin.py: the settings page against the handler *)

Lemma offered_hours_list (f : settings_page.Labels) :
  settings_page.offered_hours f
  = [0; 1; 2; 3; 4; 5; 6; 7; 8; 9; 10; 11; 12; 13; 14; 15; 16; 17; 18; 19; 20; 21; 22; 23].
Proof. reflexivity. Qed.

Lemma offered_durations_list (f : settings_page.Labels) :
  settings_page.offered_durations f = [5; 10; 15; 20; 25; 30; 35; 40; 45; 50; 55; 60].
Proof. reflexivity. Qed.

(** X13.  The settings page and its handler agree: every start hour and
    every duration that [edit_scheduledtasks] offers passes the range
    checks of [update_scheduledtasks], so that with a settings database
    that can be written the submitted pair is stored, with the success
    message and no error message.  The page offers every hour the handler
    accepts, and of the durations it accepts the multiples of five. *)
Theorem offered_settings_are_accepted (f : settings_page.Labels) (env : Env)
    (to_save : gmap string string) (w : World) (v d : Z)
    (Hhour : In v (settings_page.offered_hours f))
    (Hduration : In d (settings_page.offered_durations f))
    (Hv : submitted env to_save "schedule_start_time" = Some v)
    (Hd : submitted env to_save "schedule_duration" = Some d)
    (Hsave : save_outcome env = Ok tt) :
  let out := admin.update_scheduledtasks env to_save w in
  (exists cfg, saved (fst out) = saved w ++ [cfg]
               /\ CONFIG (fst out) = cfg
               /\ schedule_start_time cfg = v
               /\ schedule_duration cfg = d)
  /\ flashes (fst out) = flashes w ++ [("Scheduled tasks settings updated", "success")]
  /\ (forall h, In h (settings_page.offered_hours f) <-> 0 <= h <= 23)
  /\ (forall m, In m (settings_page.offered_durations f)
                <-> 0 < m <= 60 /\ m mod 5 = 0).
Proof.
  cbv zeta.
  assert (Hh : forall h, In h (settings_page.offered_hours f) <-> 0 <= h <= 23).
  { intros h. rewrite offered_hours_list. cbn [In]. lia. }
  assert (Hm : forall m, In m (settings_page.offered_durations f)
                         <-> 0 < m <= 60 /\ m mod 5 = 0).
  { intros m. rewrite offered_durations_list. cbn [In].
    split; [intros H | intros [H1 H2]].
    - repeat (destruct H as [<-|H]; [split; [lia|reflexivity]|]). destruct H.
    - Z.div_mod_to_equations. lia. }
  destruct (update_scheduledtasks_valid_saved env to_save w v d Hv Hd
              (proj1 (Hh v) Hhour) (proj1 (proj1 (Hm d) Hduration)) Hsave)
    as (ts & rq & ->).
  cbn [fst snd saved CONFIG flashes].
  split; [|split; [reflexivity|split; assumption]].
  eexists. split; [reflexivity|]. split; [reflexivity|].
  destruct (CONFIG w). split; reflexivity.
Qed.

Lemma offered_settings_are_accepted_witness :
  let out := admin.update_scheduledtasks (samples.env_at samples.three_o_clock)
               samples.form samples.registered_world in
  exists cfg, saved (fst out) = [cfg]
              /\ schedule_start_time cfg = 5 /\ schedule_duration cfg = 30.
Proof.
  assert (Hhour : In 5 (settings_page.offered_hours samples.labels))
    by (vm_compute; tauto).
  assert (Hduration : In 30 (settings_page.offered_durations samples.labels))
    by (vm_compute; tauto).
  destruct (offered_settings_are_accepted samples.labels
              (samples.env_at samples.three_o_clock) samples.form
              samples.registered_world 5 30 Hhour Hduration eq_refl eq_refl eq_refl)
    as ((cfg & Hs & _ & H1 & H2) & _).
  cbv zeta. exists cfg. split; [exact Hs|]. split; assumption.
Defined.

(** ** admin.py: the server commands *)

Lemma load_global_calibre_db (w : World) :
  admin.load_global "calibre_db" w = (w, Ok tt).
Proof. reflexivity. Qed.

(** X14.  [shutdown] on a JSON object: when the "parameter" entry equals
    0 or 1 (the JSON values false and true count as 0 and 1) both
    databases are disposed of and then the web server is stopped, with a
    restart for 0 and without one for 1, and the reply has status 200.  A
    missing entry, a string, null or any number other than 0, 1 and 2 is
    answered with status 400 and "Unknown command", and nothing has
    happened. *)
Theorem shutdown_commands (d : gmap string value) (w : World) :
  let task := default (VInt (-1)) (d !! "parameter") in
  let out := server_commands.shutdown (Some d) w in
  (task = VInt 0 \/ task = VBool false ->
   out = (with_app_log
            (fun l => l ++ ["calibre_db.dispose()"; "ub.dispose()"; "web_server.stop(True)"])
            w,
          Ok (server_commands.Json (Some "Server restarted, please reload page.") 200)))
  /\ (task = VInt 1 \/ task = VBool true ->
      out = (with_app_log
               (fun l => l ++ ["calibre_db.dispose()"; "ub.dispose()";
                               "web_server.stop(False)"])
               w,
             Ok (server_commands.Json
                   (Some "Performing Server shutdown, please close window.") 200)))
  /\ (py_eq task (VInt 0) = false -> py_eq task (VInt 1) = false ->
      py_eq task (VInt 2) = false ->
      out = (w, Ok (server_commands.Json (Some "Unknown command") 400)))
  /\ (d !! "parameter" = None ->
      out = (w, Ok (server_commands.Json (Some "Unknown command") 400))).
Proof.
  cbv zeta. unfold server_commands.shutdown.
  assert (Hlog : forall a b c : string, forall r : server_commands.Reply,
             (do server_commands.note a then do server_commands.note b then
              do server_commands.note c then ret r) w
             = (with_app_log (fun l => l ++ [a; b; c]) w, Ok r)).
  { intros a b c r. unfold bind, server_commands.note, modify, ret.
    destruct w. unfold with_app_log. cbn [app_log CONFIG saved flashes tasks
      end_requests jobs immediate clock_reads].
    rewrite <- !app_assoc. reflexivity. }
  split; [|split; [|split]].
  - intros [-> | ->]; cbn [py_eq Z.eqb orb]; apply Hlog.
  - intros [-> | ->]; cbn [py_eq Z.eqb orb Pos.eqb]; apply Hlog.
  - intros H0 H1 H2. unfold bind at 1, ret at 1. cbn beta iota.
    rewrite H0, H1, H2. reflexivity.
  - intros ->. reflexivity.
Qed.

(** X15.  No request reconnects the Calibre database.  [shutdown] with
    parameter 2 writes its warning and then raises [NameError], because
    the module never binds the name [config] that the call reads;
    [reconnect] raises the same error when the command line enabled it,
    and aborts with 404 when it did not.  In no case, whatever the request
    body, is [reconnect_db] reached. *)
Theorem reconnect_db_never_reached (body : option (gmap string value))
    (reconnect_enable : bool) (w : World) :
  (forall d, body = Some d -> d !! "parameter" = Some (VInt 2) ->
     server_commands.shutdown body w
     = (with_app_log (fun l => l ++ ["reconnecting to calibre database"]) w,
        Raise (Exn NameError "name 'config' is not defined")))
  /\ server_commands.reconnect true w
     = (w, Raise (Exn NameError "name 'config' is not defined"))
  /\ server_commands.reconnect false w
     = (with_app_log (fun l => l ++ ["'/reconnect' was accessed but is not enabled"]) w,
        Ok (server_commands.Aborted 404))
  /\ (In "calibre_db.reconnect_db()" (app_log (fst (server_commands.shutdown body w)))
      -> In "calibre_db.reconnect_db()" (app_log w))
  /\ (In "calibre_db.reconnect_db()"
        (app_log (fst (server_commands.reconnect reconnect_enable w)))
      -> In "calibre_db.reconnect_db()" (app_log w)).
Proof.
  assert (Hnote : forall line w0,
             server_commands.note line w0
             = (with_app_log (fun l => l ++ [line]) w0, Ok tt)) by reflexivity.
  assert (Hrec : server_commands.reconnect true w
                 = (w, Raise (Exn NameError "name 'config' is not defined"))).
  { unfold server_commands.reconnect. unfold bind at 1.
    rewrite load_global_calibre_db. unfold bind at 1. rewrite load_global_config.
    reflexivity. }
  assert (Hoff : server_commands.reconnect false w
                 = (with_app_log
                      (fun l => l ++ ["'/reconnect' was accessed but is not enabled"]) w,
                    Ok (server_commands.Aborted 404))) by reflexivity.
  split; [|split; [exact Hrec|split; [exact Hoff|split]]].
  - intros d -> Hd. unfold server_commands.shutdown. rewrite Hd.
    unfold bind at 1, ret at 1.
    cbn [default from_option id py_eq Z.eqb Pos.eqb orb]. cbn beta iota.
    unfold bind at 1. rewrite Hnote.
    unfold bind at 1. rewrite load_global_calibre_db. unfold bind at 1.
    rewrite load_global_config. reflexivity.
  - destruct body as [d|]; [|intros H; exact H].
    unfold server_commands.shutdown. unfold bind at 1, ret at 1.
    destruct (py_eq _ (VInt 0) || py_eq _ (VInt 1)) eqn:Hstop.
    + unfold bind, server_commands.note, modify, ret. destruct w.
      unfold with_app_log. cbn [fst app_log]. rewrite !in_app_iff. cbn [In].
      destruct (py_eq _ (VInt 0)); intros H; decompose [or] H;
        try discriminate; try contradiction; assumption.
    + destruct (py_eq _ (VInt 2)).
      * cbn beta iota. unfold bind at 1. rewrite Hnote. unfold bind at 1.
        rewrite load_global_calibre_db. unfold bind at 1. rewrite load_global_config.
        destruct w. unfold with_app_log. cbn [fst app_log]. rewrite in_app_iff.
        cbn [In]. intros H; decompose [or] H; try discriminate; try contradiction;
          assumption.
      * intros H; exact H.
  - destruct reconnect_enable.
    + rewrite Hrec. intros H; exact H.
    + rewrite Hoff. destruct w. unfold with_app_log. cbn [fst app_log].
      rewrite in_app_iff. cbn [In]. intros H; decompose [or] H; try discriminate;
        try contradiction; assumption.
Qed.
